(** * FreeCAD-render: camera string codec and Cycles backend

    A shallow embedding of
    - [src/Render/camera.py] and [src/camera.py]: the Coin camera string
      codec ([set_cam_from_coin_string], [get_coin_string_from_cam]);
    - [src/renderers/Cycles.py]: the Cycles emitters ([write_object],
      [write_camera], [write_pointlight], [write_arealight],
      [write_sunskylight]) and the [render] entry point.

    Python values are modelled as follows: [str] is [string], a [list] is a
    [list], a [dict] is an insertion-ordered association list, exceptions are
    the type [exn] and a computation that may raise returns a [result].
    Python floats are kept behind the interface [PyFloat]; the host
    application's vector and rotation types are part of that interface.
    [PyBinary64] is that interface on IEEE 754 binary64 numbers. *)

From Stdlib Require Import Strings.String Strings.Ascii Lists.List Bool.Bool.
From Stdlib Require Import ZArith.ZArith Arith.PeanoNat micromega.Lia.
From Stdlib Require Import Sorting.Permutation.
From Stdlib Require Floats.
From Stdlib Require Import Numbers.DecimalString Numbers.DecimalZ Init.Decimal.
Import ListNotations.

Local Open Scope string_scope.
Local Open Scope list_scope.

Infix "+:+" := String.append (at level 60, right associativity).

(** ** Python exceptions and results *)

Inductive exn : Type :=
| AssertionError (msg : string)
| ValueError (msg : string)
| KeyError (key : string)
| IndexError (msg : string).

Inductive result (A : Type) : Type :=
| Return (a : A)
| Raise (e : exn).

Arguments Return {A} a.
Arguments Raise {A} e.

Definition rbind {A B : Type} (m : result A) (k : A -> result B) : result B :=
  match m with
  | Return a => k a
  | Raise e => Raise e
  end.

Definition rmap {A B : Type} (f : A -> B) (m : result A) : result B :=
  rbind m (fun a => Return (f a)).

(** ** Strings *)

Module PyStr.

Definition newline : ascii := "010"%char.

Definition nl : string := String newline "".

(** [s.split("\n")]. *)
Fixpoint split_nl (s : string) : list string :=
  match s with
  | EmptyString => [""]
  | String c s' =>
      if Ascii.eqb c newline then "" :: split_nl s'
      else match split_nl s' with
           | [] => [String c ""]
           | l :: ls => String c l :: ls
           end
  end.

(** [sep.join(ls)]. *)
Fixpoint join (sep : string) (ls : list string) : string :=
  match ls with
  | [] => ""
  | [x] => x
  | x :: xs => x +:+ sep +:+ join sep xs
  end.

(** [s[0:-6]]: everything but the last six characters, empty when the
    string has six characters or fewer. *)
Definition slice_0_m6 (s : string) : string :=
  substring 0 (String.length s - 6) s.

(** [x in tup] for a tuple of strings. *)
Definition str_in (x : string) (tup : list string) : bool :=
  existsb (String.eqb x) tup.

Fixpoint all_chars (p : ascii -> bool) (s : string) : bool :=
  match s with
  | EmptyString => true
  | String c s' => p c && all_chars p s'
  end.

(** [s.startswith(p)]. *)
Fixpoint startswith (p s : string) : bool :=
  match p, s with
  | EmptyString, _ => true
  | String _ _, EmptyString => false
  | String a p', String b s' => Ascii.eqb a b && startswith p' s'
  end.

(** [needle in hay] for strings. *)
Fixpoint contains (needle hay : string) : bool :=
  startswith needle hay ||
  match hay with
  | EmptyString => false
  | String _ hay' => contains needle hay'
  end.

(** [str(n)] for an [int]. *)
Definition str_int (n : Z) : string := NilZero.string_of_int (Z.to_int n).

(** [repr(k)] of a key that has no quote, backslash or control character
    (every key looked up by the codec is such a literal). *)
Definition repr_key (k : string) : string := "'" +:+ k +:+ "'".

End PyStr.

(** ** [shlex.split(line, comments=True)]

    The POSIX-mode lexer of Python's [shlex], with [whitespace_split] set and
    ["#"] as the only commenter, no punctuation characters. [read_token] is
    unrolled over the input: [lex] carries the lexer state, the [quoted] flag
    and the token under construction, and conses each token returned. *)

Module Shlex.

Definition whitespace (c : ascii) : bool :=
  Ascii.eqb c " " || Ascii.eqb c "009" || Ascii.eqb c "013" || Ascii.eqb c "010".

Definition commenter (c : ascii) : bool := Ascii.eqb c "#".

Definition escape (c : ascii) : bool := Ascii.eqb c "\".

Definition quote (c : ascii) : bool := Ascii.eqb c "'" || Ascii.eqb c "034".

Definition escapedquote (c : ascii) : bool := Ascii.eqb c "034".

(** [self.state]: [' '], ['a'], a quote character, or the escape character
    together with [escapedstate] ([None] stands for ['a']). [InComment] is
    the [readline()] that swallows the rest of a comment line. *)
Inductive lexstate : Type :=
| InWhite
| InWord
| InQuote (q : ascii)
| InEscape (back : option ascii)
| InComment.

Definition snoc (token : string) (c : ascii) : string := token +:+ String c "".

(** A token handed back by [read_token]; an unquoted empty one is [None],
    which ends the iteration. *)
Definition emit (quoted : bool) (token : string)
  (more : result (list string)) : result (list string) :=
  if negb quoted && String.eqb token "" then Return []
  else rmap (cons token) more.

Definition pending (quoted : bool) (token : string) : bool :=
  negb (String.eqb token "") || quoted.

Fixpoint lex (st : lexstate) (quoted : bool) (token : string) (inp : string)
  : result (list string) :=
  match inp with
  | EmptyString =>
      match st with
      | InQuote _ => Raise (ValueError "No closing quotation")
      | InEscape _ => Raise (ValueError "No escaped character")
      | _ => emit quoted token (Return [])
      end
  | String c rest =>
      match st with
      | InWhite =>
          if whitespace c then
            if pending quoted token
            then emit quoted token (lex InWhite false "" rest)
            else lex InWhite quoted token rest
          else if commenter c then lex InComment quoted token rest
          else if escape c then lex (InEscape None) quoted token rest
          else if quote c then lex (InQuote c) quoted token rest
          else lex InWord quoted (String c "") rest
      | InComment =>
          if Ascii.eqb c PyStr.newline then lex InWhite quoted token rest
          else lex InComment quoted token rest
      | InQuote q =>
          if Ascii.eqb c q then lex InWord true token rest
          else if escape c && escapedquote q
               then lex (InEscape (Some q)) true token rest
          else lex (InQuote q) true (snoc token c) rest
      | InEscape back =>
          match back with
          | Some q =>
              let token' :=
                if negb (escape c) && negb (Ascii.eqb c q)
                then snoc token "\" else token in
              lex (InQuote q) quoted (snoc token' c) rest
          | None => lex InWord quoted (snoc token c) rest
          end
      | InWord =>
          if whitespace c then
            if pending quoted token
            then emit quoted token (lex InWhite false "" rest)
            else lex InWhite quoted token rest
          else if commenter c then
            if pending quoted token
            then emit quoted token (lex InComment false "" rest)
            else lex InComment quoted token rest
          else if quote c then lex (InQuote c) quoted token rest
          else if escape c then lex (InEscape None) quoted token rest
          else lex InWord quoted (snoc token c) rest
      end
  end.

Definition split (line : string) : result (list string) :=
  lex InWhite false "" line.

End Shlex.

(** ** Dictionaries

    A [dict] with string keys: an association list in insertion order;
    setting an existing key replaces its value in place. *)

Module PyDict.

Definition dict (V : Type) : Type := list (string * V).

Fixpoint set {V : Type} (k : string) (v : V) (d : dict V) : dict V :=
  match d with
  | [] => [(k, v)]
  | (k', v') :: d' =>
      if String.eqb k k' then (k, v) :: d' else (k', v') :: set k v d'
  end.

Fixpoint get {V : Type} (d : dict V) (k : string) : option V :=
  match d with
  | [] => None
  | (k', v') :: d' => if String.eqb k k' then Some v' else get d' k
  end.

(** [d[k]], raising [KeyError(k)]. *)
Definition item {V : Type} (d : dict V) (k : string) : result V :=
  match get d k with
  | Some v => Return v
  | None => Raise (KeyError k)
  end.

End PyDict.

(** [l[i]], raising [IndexError]. *)
Definition list_item {A : Type} (l : list A) (i : nat) : result A :=
  match nth_error l i with
  | Some a => Return a
  | None => Raise (IndexError "list index out of range")
  end.

(** [[f(x) for x in xs]], left to right; the first exception escapes. *)
Fixpoint map_result {A B : Type} (f : A -> result B) (xs : list A)
  : result (list B) :=
  match xs with
  | [] => Return []
  | x :: xs' => rbind (f x) (fun y => rmap (cons y) (map_result f xs'))
  end.

(** ** Floats and the host application

    [PyFloat] is what the code uses of Python's [float] and [math]:
    [float(s)], [str(x)] (also the text an f-string or [format] inserts),
    the literals [0.0] and [1.0], [==], [<], [degrees] and [radians]. *)

Class PyFloat : Type := {
  float : Type;
  float_of_str : string -> option float;
  str_float : float -> string;
  fzero : float;
  fone : float;
  feqb : float -> float -> bool;
  fltb : float -> float -> bool;
  degrees : float -> float;
  radians : float -> float
}.

(** [float(s)]. *)
Definition py_float {F : PyFloat} (s : string) : result float :=
  match float_of_str s with
  | Some x => Return x
  | None =>
      Raise (ValueError ("could not convert string to float: " +:+ PyStr.repr_key s))
  end.

(** [bool(x)] for a float, as in [assert x]. *)
Definition truth {F : PyFloat} (x : float) : bool := negb (feqb x fzero).

(** [App.Vector]. *)
Record Vector {F : PyFloat} : Type := mkVector {
  vx : float;
  vy : float;
  vz : float
}.

Arguments mkVector {F} vx vy vz.

(** [App.Vector(seq)] on a sequence of strings: three items, each converted
    with [float]; the host raises [ValueError] otherwise. *)
Definition App_Vector {F : PyFloat} (l : list string) : result Vector :=
  match l with
  | [a; b; c] =>
      rbind (py_float a) (fun x =>
      rbind (py_float b) (fun y =>
      rbind (py_float c) (fun z => Return (mkVector x y z))))
  | _ => Raise (ValueError "Expected sequence of size 3")
  end.

(** The rest of the host API the code calls: [App.Rotation(axis, angle)]
    (angle in degrees), its [Axis] and [Angle] (radians) attributes, and
    [Vector.Length] and [Vector.normalize]. *)
Class FreeCAD (F : PyFloat) : Type := {
  rotation : Type;
  App_Rotation : Vector -> float -> rotation;
  Axis : rotation -> Vector;
  Angle : rotation -> float;
  Length : Vector -> float;
  normalize : Vector -> Vector
}.

(** [App.Placement]. *)
Record placement {F : PyFloat} {H : FreeCAD F} : Type := App_Placement {
  Base : Vector;
  Rotation : rotation
}.

Arguments App_Placement {F H} Base Rotation.

(** The properties of a Camera object that the codec reads and writes. *)
Record Camera {F : PyFloat} {H : FreeCAD F} : Type := mkCamera {
  Projection : string;
  ViewportMapping : string;
  Placement : placement;
  AspectRatio : float;
  NearDistance : float;
  FarDistance : float;
  FocalDistance : float;
  Height : float;
  HeightAngle : float
}.

Arguments mkCamera {F H} _ _ _ _ _ _ _ _ _.

(** Characters that occur in the text Python prints for a float. *)
Definition float_char (c : ascii) : bool :=
  PyStr.str_in (String c "")
    ["0"; "1"; "2"; "3"; "4"; "5"; "6"; "7"; "8"; "9";
     "."; "-"; "+"; "e"; "i"; "n"; "f"; "a"].

(** What the proofs assume of Python's floats: [str] prints a non-empty
    text over [float_char], [float] reads it back, and [1.0 < 1.0] is
    false. Nothing is assumed of [degrees] and [radians]. *)
Class PyFloatLaws (F : PyFloat) : Prop := {
  str_float_nonempty : forall x, str_float x <> "";
  str_float_chars : forall x, PyStr.all_chars float_char (str_float x) = true;
  float_of_str_float : forall x, float_of_str (str_float x) = Some x;
  fltb_one_one : fltb fone fone = false
}.

(** ** Statements that mutate a camera and may raise *)

Module CamM.
Section CamM.
Context {F : PyFloat} {H : FreeCAD F}.

Definition M (A : Type) : Type := Camera -> result A * Camera.

Definition ret {A : Type} (a : A) : M A := fun cam => (Return a, cam).

Definition raise {A : Type} (e : exn) : M A := fun cam => (Raise e, cam).

Definition lift {A : Type} (r : result A) : M A := fun cam => (r, cam).

Definition bind {A B : Type} (m : M A) (k : A -> M B) : M B :=
  fun cam =>
    match m cam with
    | (Return a, cam') => k a cam'
    | (Raise e, cam') => (Raise e, cam')
    end.

(** [try: m  except KeyError as err: handler(err)]. *)
Definition try_except_KeyError {A : Type} (m : M A) (handler : string -> M A)
  : M A :=
  fun cam =>
    match m cam with
    | (Raise (KeyError k), cam') => handler k cam'
    | other => other
    end.

(** [assert cond, msg]. *)
Definition assert_ (cond : bool) (msg : string) : M unit :=
  if cond then ret tt else raise (AssertionError msg).

Definition get {A : Type} (field : Camera -> A) : M A :=
  fun cam => (Return (field cam), cam).

Definition set_Projection (v : string) : M unit :=
  fun c => (Return tt,
    mkCamera v (ViewportMapping c) (Placement c) (AspectRatio c)
      (NearDistance c) (FarDistance c) (FocalDistance c) (Height c)
      (HeightAngle c)).

Definition set_ViewportMapping (v : string) : M unit :=
  fun c => (Return tt,
    mkCamera (Projection c) v (Placement c) (AspectRatio c)
      (NearDistance c) (FarDistance c) (FocalDistance c) (Height c)
      (HeightAngle c)).

Definition set_Placement (v : placement) : M unit :=
  fun c => (Return tt,
    mkCamera (Projection c) (ViewportMapping c) v (AspectRatio c)
      (NearDistance c) (FarDistance c) (FocalDistance c) (Height c)
      (HeightAngle c)).

Definition set_AspectRatio (v : float) : M unit :=
  fun c => (Return tt,
    mkCamera (Projection c) (ViewportMapping c) (Placement c) v
      (NearDistance c) (FarDistance c) (FocalDistance c) (Height c)
      (HeightAngle c)).

Definition set_NearDistance (v : float) : M unit :=
  fun c => (Return tt,
    mkCamera (Projection c) (ViewportMapping c) (Placement c)
      (AspectRatio c) v (FarDistance c) (FocalDistance c) (Height c)
      (HeightAngle c)).

Definition set_FarDistance (v : float) : M unit :=
  fun c => (Return tt,
    mkCamera (Projection c) (ViewportMapping c) (Placement c)
      (AspectRatio c) (NearDistance c) v (FocalDistance c) (Height c)
      (HeightAngle c)).

Definition set_FocalDistance (v : float) : M unit :=
  fun c => (Return tt,
    mkCamera (Projection c) (ViewportMapping c) (Placement c)
      (AspectRatio c) (NearDistance c) (FarDistance c) v (Height c)
      (HeightAngle c)).

Definition set_Height (v : float) : M unit :=
  fun c => (Return tt,
    mkCamera (Projection c) (ViewportMapping c) (Placement c)
      (AspectRatio c) (NearDistance c) (FarDistance c) (FocalDistance c) v
      (HeightAngle c)).

Definition set_HeightAngle (v : float) : M unit :=
  fun c => (Return tt,
    mkCamera (Projection c) (ViewportMapping c) (Placement c)
      (AspectRatio c) (NearDistance c) (FarDistance c) (FocalDistance c)
      (Height c) v).

End CamM.
End CamM.

Declare Scope cam_scope.
Delimit Scope cam_scope with cam.

Notation "x <- m ;; k" := (CamM.bind m (fun x => k))
  (at level 61, m at next level, right associativity) : cam_scope.
Notation "m ;; k" := (CamM.bind m (fun _ => k))
  (at level 61, right associativity) : cam_scope.

(** ** What both versions of the codec share *)

Section CodecCommon.
Context {F : PyFloat} {H : FreeCAD F}.

Definition PROJECTIONENUM : list string := ["Perspective"; "Orthographic"].

Definition VIEWPORTMAPPINGENUM : list string :=
  ["CROP_VIEWPORT_FILL_FRAME";
   "CROP_VIEWPORT_LINE_FRAME";
   "CROP_VIEWPORT_NO_FRAME";
   "ADJUST_CAMERA";
   "LEAVE_ALONE"].

Definition nonempty {A : Type} (y : list A) : bool :=
  match y with
  | [] => false
  | _ :: _ => true
  end.

(** [camdata]: the lines of [camstr], tokenized, without the empty ones. *)
Definition camdata_of (camstr : string) : result (list (list string)) :=
  rmap (filter nonempty) (map_result Shlex.split (PyStr.split_nl camstr)).

(** [camdict = {y[0]: y[1:] for y in camdata}]. *)
Definition camdict_of (camdata : list (list string))
  : PyDict.dict (list string) :=
  fold_left
    (fun d y => match y with
                | [] => d
                | key :: values => PyDict.set key values d
                end)
    camdata [].

(** [float(camdict[key][0])]. *)
Definition float_field (camdict : PyDict.dict (list string)) (key : string)
  : result float :=
  rbind (PyDict.item camdict key) (fun l =>
  rbind (list_item l 0) py_float).

(** [cam.Projection = camdata[0][0][0:-6]] and the assertion on it. *)
Definition set_projection_from_header (camdata : list (list string))
  : CamM.M unit :=
  (line0 <- CamM.lift (list_item camdata 0) ;;
   tok0 <- CamM.lift (list_item line0 0) ;;
   CamM.set_Projection (PyStr.slice_0_m6 tok0) ;;
   proj <- CamM.get Projection ;;
   CamM.assert_ (PyStr.str_in proj PROJECTIONENUM)
     "Invalid camera header in camera string")%cam.

(** [pos = App.Vector(...)], [rot = App.Rotation(...)],
    [cam.Placement = App.Placement(pos, rot)]. *)
Definition set_placement_from (camdict : PyDict.dict (list string))
  : CamM.M unit :=
  (p <- CamM.lift (PyDict.item camdict "position") ;;
   pos <- CamM.lift (App_Vector (firstn 3 p)) ;;
   o <- CamM.lift (PyDict.item camdict "orientation") ;;
   axis <- CamM.lift (App_Vector (firstn 3 o)) ;;
   o' <- CamM.lift (PyDict.item camdict "orientation") ;;
   a <- CamM.lift (list_item o' 3) ;;
   angle <- CamM.lift (py_float a) ;;
   CamM.set_Placement (App_Placement pos (App_Rotation axis (degrees angle))))%cam.

(** The two optional clipping distances, left alone when absent. *)
Definition set_near_far_from (camdict : PyDict.dict (list string))
  : CamM.M unit :=
  (CamM.try_except_KeyError
     (v <- CamM.lift (float_field camdict "nearDistance") ;;
      CamM.set_NearDistance v)
     (fun _ => CamM.ret tt) ;;
   CamM.try_except_KeyError
     (v <- CamM.lift (float_field camdict "farDistance") ;;
      CamM.set_FarDistance v)
     (fun _ => CamM.ret tt))%cam.

(** The last statement: [Height] or [HeightAngle], by projection. *)
Definition set_height_from (camdict : PyDict.dict (list string))
  : CamM.M unit :=
  (proj <- CamM.get Projection ;;
   if String.eqb proj "Orthographic" then
     v <- CamM.lift (float_field camdict "height") ;;
     CamM.set_Height v
   else if String.eqb proj "Perspective" then
     v <- CamM.lift (float_field camdict "heightAngle") ;;
     CamM.set_HeightAngle (degrees v)
   else CamM.ret tt)%cam.

Definition missing_field (key : string) : exn :=
  ValueError ("Missing field in camera string: " +:+ PyStr.repr_key key).

Definition inventor_header : string :=
  "#Inventor V2.1 ascii" +:+ PyStr.nl +:+ PyStr.nl +:+ PyStr.nl.

End CodecCommon.

(** ** [src/Render/camera.py] *)

Module RenderCamera.
Section RenderCamera.
Context {F : PyFloat} {H : FreeCAD F}.

Definition set_cam_from_coin_string (camstr : string) : CamM.M unit :=
  (camdata <- CamM.lift (camdata_of camstr) ;;
   let camdict := camdict_of camdata in
   set_projection_from_header camdata ;;
   CamM.try_except_KeyError
     (set_placement_from camdict ;;
      v <- CamM.lift (float_field camdict "focalDistance") ;;
      CamM.set_FocalDistance v)
     (fun key => CamM.raise (missing_field key)) ;;
   CamM.try_except_KeyError
     (v <- CamM.lift (float_field camdict "aspectRatio") ;;
      CamM.set_AspectRatio v)
     (fun _ => CamM.set_AspectRatio fone) ;;
   CamM.try_except_KeyError
     (l <- CamM.lift (PyDict.item camdict "viewportMapping") ;;
      v <- CamM.lift (list_item l 0) ;;
      CamM.set_ViewportMapping v)
     (fun _ => CamM.set_ViewportMapping "ADJUST_CAMERA") ;;
   set_near_far_from camdict ;;
   set_height_from camdict)%cam.

Definition check_enum (field value : string) (allowed : list string)
  : result unit :=
  if PyStr.str_in value allowed then Return tt
  else Raise (AssertionError ("Camera: Invalid " +:+ field +:+ " value")).

Definition get_coin_string_from_cam (cam : Camera) : result string :=
  rbind (check_enum "Projection" (Projection cam) PROJECTIONENUM) (fun _ =>
  rbind (check_enum "ViewportMapping" (ViewportMapping cam) VIEWPORTMAPPINGENUM)
  (fun _ =>
  let base := Base (Placement cam) in
  let rot := Rotation (Placement cam) in
  let height :=
    if String.eqb (Projection cam) "Orthographic" then
      " height " +:+ str_float (Height cam)
    else if String.eqb (Projection cam) "Perspective" then
      " heightAngle " +:+ str_float (radians (HeightAngle cam))
    else "" in
  let res :=
    [ inventor_header;
      Projection cam +:+ "Camera {";
      " viewportMapping " +:+ ViewportMapping cam;
      " position " +:+ str_float (vx base) +:+ " " +:+ str_float (vy base)
        +:+ " " +:+ str_float (vz base);
      " orientation " +:+ str_float (vx (Axis rot)) +:+ " "
        +:+ str_float (vy (Axis rot)) +:+ " " +:+ str_float (vz (Axis rot))
        +:+ " " +:+ str_float (Angle rot);
      " nearDistance " +:+ str_float (NearDistance cam);
      " farDistance " +:+ str_float (FarDistance cam);
      " aspectRatio " +:+ str_float (AspectRatio cam);
      " focalDistance " +:+ str_float (FocalDistance cam);
      height;
      "}}" +:+ PyStr.nl ] in
  Return (PyStr.join PyStr.nl res))).

End RenderCamera.
End RenderCamera.

(** ** [src/camera.py] *)

Module LegacyCamera.
Section LegacyCamera.
Context {F : PyFloat} {H : FreeCAD F}.

Definition set_cam_from_coin_string (camstr : string) : CamM.M unit :=
  (camdata <- CamM.lift (camdata_of camstr) ;;
   let camdict := camdict_of camdata in
   set_projection_from_header camdata ;;
   CamM.try_except_KeyError
     (set_placement_from camdict ;;
      v <- CamM.lift (float_field camdict "focalDistance") ;;
      CamM.set_FocalDistance v ;;
      v <- CamM.lift (float_field camdict "aspectRatio") ;;
      CamM.set_AspectRatio v ;;
      l <- CamM.lift (PyDict.item camdict "viewportMapping") ;;
      v <- CamM.lift (list_item l 0) ;;
      CamM.set_ViewportMapping v)
     (fun key => CamM.raise (missing_field key)) ;;
   set_near_far_from camdict ;;
   set_height_from camdict)%cam.

Definition check_enum (field value : string) (allowed : list string)
  : result unit :=
  if PyStr.str_in value allowed then Return tt
  else Raise (AssertionError ("Invalid " +:+ field +:+ " value")).

Definition get_coin_string_from_cam (cam : Camera) : result string :=
  rbind (check_enum "Projection" (Projection cam) PROJECTIONENUM) (fun _ =>
  rbind (check_enum "ViewportMapping" (ViewportMapping cam) VIEWPORTMAPPINGENUM)
  (fun _ =>
  let base := Base (Placement cam) in
  let rot := Rotation (Placement cam) in
  let res :=
    [ inventor_header;
      Projection cam +:+ "Camera {";
      " viewportMapping " +:+ ViewportMapping cam;
      " position " +:+ str_float (vx base) +:+ " " +:+ str_float (vy base)
        +:+ " " +:+ str_float (vz base);
      " orientation " +:+ str_float (vx (Axis rot)) +:+ " "
        +:+ str_float (vy (Axis rot)) +:+ " " +:+ str_float (vz (Axis rot))
        +:+ " " +:+ str_float (Angle rot);
      " nearDistance " +:+ str_float (NearDistance cam);
      " farDistance " +:+ str_float (FarDistance cam);
      " aspectRatio " +:+ str_float (AspectRatio cam);
      " focalDistance " +:+ str_float (FocalDistance cam) ] in
  let res :=
    if String.eqb (Projection cam) "Orthographic" then
      res ++ [" height " +:+ str_float (Height cam)]
    else if String.eqb (Projection cam) "Perspective" then
      res ++ [" heightAngle " +:+ str_float (radians (HeightAngle cam))]
    else res in
  let res := res ++ ["}" +:+ PyStr.nl] in
  Return (PyStr.join PyStr.nl res))).

End LegacyCamera.
End LegacyCamera.

(** ** [src/renderers/Cycles.py] *)

Module Cycles.

(** The double quote character, as a string. *)
Definition dq : string := String "034"%char "".

(** A format string: literal text and replacement fields. *)
Inductive piece : Type :=
| Lit (text : string)
| Field (name : string).

(** [template.format(...)] with keyword arguments [kw], every value
    already formatted. *)
Fixpoint format (template : list piece) (kw : PyDict.dict string)
  : result string :=
  match template with
  | [] => Return ""
  | Lit text :: rest => rmap (String.append text) (format rest kw)
  | Field name :: rest =>
      rbind (PyDict.item kw name) (fun v =>
      rmap (String.append v) (format rest kw))
  end.

Definition snippet1 : list piece :=
  [ Lit (PyStr.nl +:+ "    <!-- Generated by FreeCAD - Object '");
    Field "n";
    Lit ("' -->" +:+ PyStr.nl +:+ "    <shader name=" +:+ dq);
    Field "n";
    Lit ("_mat" +:+ dq +:+ ">" +:+ PyStr.nl
         +:+ "        <diffuse_bsdf name=" +:+ dq);
    Field "n";
    Lit ("_bsdf" +:+ dq +:+ " color=" +:+ dq);
    Field "c[0]"; Lit ", "; Field "c[1]"; Lit ", "; Field "c[2]";
    Lit (dq +:+ "/>") ].

Definition snippet2a : list piece :=
  [ Lit (PyStr.nl +:+ "        <transparent_bsdf name=" +:+ dq);
    Field "n";
    Lit ("_trans" +:+ dq +:+ " color=" +:+ dq +:+ "1.0, 1.0, 1.0" +:+ dq
         +:+ "/>" +:+ PyStr.nl +:+ "        <mix_closure name=" +:+ dq);
    Field "n";
    Lit ("_mix" +:+ dq +:+ " fac=" +:+ dq);
    Field "a";
    Lit (dq +:+ "/>" +:+ PyStr.nl +:+ "        <connect from=" +:+ dq);
    Field "n";
    Lit ("_trans bsdf" +:+ dq +:+ "  to=" +:+ dq);
    Field "n";
    Lit ("_mix closure1" +:+ dq +:+ "/>" +:+ PyStr.nl
         +:+ "        <connect from=" +:+ dq);
    Field "n";
    Lit ("_bsdf bsdf" +:+ dq +:+ "   to=" +:+ dq);
    Field "n";
    Lit ("_mix closure2" +:+ dq +:+ "/>" +:+ PyStr.nl
         +:+ "        <connect from=" +:+ dq);
    Field "n";
    Lit ("_mix closure" +:+ dq +:+ " to=" +:+ dq +:+ "output surface" +:+ dq
         +:+ "/>" +:+ PyStr.nl +:+ "    </shader>") ].

Definition snippet2b : list piece :=
  [ Lit (PyStr.nl +:+ "        <connect from=" +:+ dq);
    Field "n";
    Lit ("_bsdf bsdf" +:+ dq +:+ "   to=" +:+ dq +:+ "output surface" +:+ dq
         +:+ "/>" +:+ PyStr.nl +:+ "    </shader>") ].

Definition snippet3 : list piece :=
  [ Lit (PyStr.nl +:+ "    <state shader=" +:+ dq);
    Field "n";
    Lit ("_mat" +:+ dq +:+ ">" +:+ PyStr.nl +:+ "        <mesh P=" +:+ dq);
    Field "p";
    Lit (dq +:+ PyStr.nl +:+ "              nverts=" +:+ dq);
    Field "i";
    Lit (dq +:+ PyStr.nl +:+ "              verts=" +:+ dq);
    Field "v";
    Lit (dq +:+ "/>" +:+ PyStr.nl +:+ "    </state>" +:+ PyStr.nl) ].

Definition sunsky_snippet : list piece :=
  [ Lit (PyStr.nl +:+ "    <!-- Generated by FreeCAD - Sun_sky light '");
    Field "n";
    Lit ("' -->" +:+ PyStr.nl
         +:+ "    <background name=" +:+ dq +:+ "sky_bg" +:+ dq +:+ ">"
         +:+ PyStr.nl
         +:+ "          <background name=" +:+ dq +:+ "sky_bg" +:+ dq +:+ " />"
         +:+ PyStr.nl
         +:+ "          <sky_texture name=" +:+ dq +:+ "sky_tex" +:+ dq
         +:+ PyStr.nl
         +:+ "                       type=" +:+ dq +:+ "hosek_wilkie" +:+ dq
         +:+ PyStr.nl
         +:+ "                       turbidity=" +:+ dq);
    Field "t";
    Lit (dq +:+ PyStr.nl +:+ "                       sun_direction=" +:+ dq);
    Field "d.x"; Lit ", "; Field "d.y"; Lit ", "; Field "d.z";
    Lit (dq +:+ " />" +:+ PyStr.nl
         +:+ "          <connect from=" +:+ dq +:+ "sky_tex color" +:+ dq
         +:+ " to=" +:+ dq +:+ "sky_bg color" +:+ dq +:+ " />" +:+ PyStr.nl
         +:+ "          <connect from=" +:+ dq +:+ "sky_bg background" +:+ dq
         +:+ " to=" +:+ dq +:+ "output surface" +:+ dq +:+ " />" +:+ PyStr.nl
         +:+ "    </background>" +:+ PyStr.nl
         +:+ "    ") ].

Section Emitters.
Context {F : PyFloat} {H : FreeCAD F}.

(** [mesh.Topology]: the points and the index triples of the facets. *)
Record Mesh : Type := mkMesh {
  Topology : list Vector * list (Z * Z * Z)
}.

Definition format_point (p : Vector) : string :=
  str_float (vx p) +:+ " " +:+ str_float (vy p) +:+ " " +:+ str_float (vz p).

Definition format_vert (v : Z * Z * Z) : string :=
  let '(a, b, c) := v in
  PyStr.str_int a +:+ " " +:+ PyStr.str_int b +:+ " " +:+ PyStr.str_int c.

Definition write_object (name : string) (mesh : Mesh)
  (color : float * float * float) (alpha : float) : result string :=
  let snippet :=
    snippet1 ++ (if fltb alpha fone then snippet2a else snippet2b) ++ snippet3 in
  let points := map format_point (fst (Topology mesh)) in
  let verts := map format_vert (snd (Topology mesh)) in
  let nverts := repeat "3" (List.length verts) in
  let '(c0, c1, c2) := color in
  format snippet
    [ ("n", name);
      ("c[0]", str_float c0); ("c[1]", str_float c1); ("c[2]", str_float c2);
      ("a", str_float alpha);
      ("p", PyStr.join "  " points);
      ("i", PyStr.join "  " nverts);
      ("v", PyStr.join "  " verts) ].

Definition write_sunskylight (name : string) (direction : Vector)
  (distance : float) (turbidity : float) : result string :=
  if truth (Length direction) then
    let _dir := normalize direction in
    format sunsky_snippet
      [ ("n", name);
        ("d.x", str_float (vx _dir)); ("d.y", str_float (vy _dir));
        ("d.z", str_float (vz _dir));
        ("t", str_float turbidity) ]
  else Raise (AssertionError "").

End Emitters.

(** What [render] does to the outside world, in order. *)
Inductive event : Type :=
| PrintError (text : string)
| PrintMessage (text : string)
| os_system (cmd : string).

Record Project : Type := mkProject {
  PageResult : string
}.

(** [params.GetString(key, default)] on the preferences store. *)
Definition GetString (params : PyDict.dict string) (key default : string)
  : string :=
  match PyDict.get params key with
  | Some v => v
  | None => default
  end.

(** [if s:] for a string. *)
Definition str_truth (s : string) : bool := negb (String.eqb s "").

(** [render]; [params] is the preferences store and [exit_status] what
    [os.system] returns for a command. The result is the events in order
    and the returned value. *)
Definition render (params : PyDict.dict string) (exit_status : string -> Z)
  (project : Project) (prefix : string) (external : bool) (output : string)
  (width height : Z) : list event * string :=
  let prefix := GetString params "Prefix" "" in
  let prefix := if str_truth prefix then prefix +:+ " " else prefix in
  let rpath := GetString params "CyclesPath" "" in
  let args := GetString params "CyclesParameters" "" in
  let args := args +:+ " --output " +:+ output in
  let args := if negb external then args +:+ " --background" else args in
  if negb (str_truth rpath) then
    ([PrintError ("Unable to locate renderer executable. "
                  +:+ "Please set the correct path in "
                  +:+ "Edit -> Preferences -> Render" +:+ PyStr.nl)], "")
  else
    let args := args +:+ " --width " +:+ PyStr.str_int width in
    let args := args +:+ " --height " +:+ PyStr.str_int height in
    let cmd := prefix +:+ rpath +:+ " " +:+ args +:+ " " +:+ PageResult project in
    let _ := exit_status cmd in
    ([PrintMessage (cmd +:+ PyStr.nl); os_system cmd], output).

End Cycles.

(** ** A small instance to run the code on

    Floats that are integers: [str] prints the decimal numeral and [float]
    reads one; the two angle conversions are the identity. The host's
    rotation is the pair of its axis and its angle. *)

Definition IntFloat : PyFloat := {|
  float := Z;
  float_of_str := fun s => option_map Z.of_int (NilZero.int_of_string s);
  str_float := PyStr.str_int;
  fzero := 0%Z;
  fone := 1%Z;
  feqb := Z.eqb;
  fltb := Z.ltb;
  degrees := fun x => x;
  radians := fun x => x
|}.

Definition IntHost : FreeCAD IntFloat := {|
  rotation := (@Vector IntFloat * Z)%type;
  App_Rotation := fun axis angle => (axis, angle);
  Axis := fst;
  Angle := snd;
  Length := fun v =>
    Z.sqrt (@vx IntFloat v * @vx IntFloat v + @vy IntFloat v * @vy IntFloat v
            + @vz IntFloat v * @vz IntFloat v)%Z;
  normalize := fun v =>
    let n := Z.sqrt (@vx IntFloat v * @vx IntFloat v
                     + @vy IntFloat v * @vy IntFloat v
                     + @vz IntFloat v * @vz IntFloat v)%Z in
    if Z.eqb n 0 then v
    else @mkVector IntFloat (@vx IntFloat v / n)%Z (@vy IntFloat v / n)%Z
                            (@vz IntFloat v / n)%Z
|}.

(** ** Predicates used to state the properties *)

Section Statements.
Context {F : PyFloat} {H : FreeCAD F}.

(** [s.endswith(suffix)]. *)
Definition ends_with (suffix s : string) : bool :=
  String.eqb
    (substring (String.length s - String.length suffix) (String.length suffix) s)
    suffix.

(** The header test in the specification's words: the leading token ends
    in "Camera" immediately preceded by "Perspective" or "Orthographic". *)
Definition spec_header_ok (tok : string) : bool :=
  ends_with "PerspectiveCamera" tok || ends_with "OrthographicCamera" tok.

Definition numeric (t : string) : bool :=
  match float_of_str t with
  | Some _ => true
  | None => false
  end.

(** A line [key v1 ... vn] with n numeric values. *)
Definition field_line (key : string) (arity : nat) (toks : list string)
  : bool :=
  match toks with
  | [] => false
  | k :: values =>
      String.eqb k key && Nat.eqb (List.length values) arity
      && forallb numeric values
  end.

(** The camera text format of the specification, as a recognizer: the first
    line is the Inventor header; the non-blank lines after it, split into
    shell words, are the opening of a <Projection>Camera block, then
    viewportMapping, position, orientation, nearDistance, farDistance,
    aspectRatio, focalDistance, then height (Orthographic) or heightAngle
    (Perspective), then the line that closes the block, a single brace. *)
Definition spec_camera_grammar (text : string) : bool :=
  match PyStr.split_nl text, camdata_of text with
  | first :: _,
    Return [opening; vm; pos; ori; near; far; aspect; focal; hgt; closing] =>
      String.eqb first "#Inventor V2.1 ascii"
      && match opening with
         | [kind; brace] =>
             String.eqb brace "{"
             && ((String.eqb kind "PerspectiveCamera"
                  && field_line "heightAngle" 1 hgt)
                 || (String.eqb kind "OrthographicCamera"
                     && field_line "height" 1 hgt))
         | _ => false
         end
      && match vm with
         | [k; e] =>
             String.eqb k "viewportMapping" && PyStr.str_in e VIEWPORTMAPPINGENUM
         | _ => false
         end
      && field_line "position" 3 pos
      && field_line "orientation" 4 ori
      && field_line "nearDistance" 1 near
      && field_line "farDistance" 1 far
      && field_line "aspectRatio" 1 aspect
      && field_line "focalDistance" 1 focal
      && match closing with
         | [b] => String.eqb b "}"
         | _ => false
         end
  | _, _ => false
  end.

(** [position] is present and its first three tokens make a vector. *)
Definition position_ok (camdict : PyDict.dict (list string)) : Prop :=
  exists l v,
    PyDict.get camdict "position" = Some l /\ App_Vector (firstn 3 l) = Return v.

(** [orientation] is present, its first three tokens make a vector and its
    fourth is a float. *)
Definition orientation_ok (camdict : PyDict.dict (list string)) : Prop :=
  exists l axis a angle,
    PyDict.get camdict "orientation" = Some l
    /\ App_Vector (firstn 3 l) = Return axis
    /\ nth_error l 3 = Some a
    /\ float_of_str a = Some angle.

(** [key] is present and its first token is a float. *)
Definition float_field_ok (camdict : PyDict.dict (list string)) (key : string)
  : Prop :=
  exists x, float_field camdict key = Return x.

(** [key] is absent, or present as [float_field_ok] wants it. *)
Definition optional_float_ok (camdict : PyDict.dict (list string))
  (key : string) : Prop :=
  PyDict.get camdict key = None \/ float_field_ok camdict key.

(** The required field [key] is absent, and the required fields that the
    parser reads before it are present and well formed. *)
Inductive first_absent (camdict : PyDict.dict (list string)) : string -> Prop :=
| absent_position :
    PyDict.get camdict "position" = None ->
    first_absent camdict "position"
| absent_orientation :
    position_ok camdict ->
    PyDict.get camdict "orientation" = None ->
    first_absent camdict "orientation"
| absent_focalDistance :
    position_ok camdict ->
    orientation_ok camdict ->
    PyDict.get camdict "focalDistance" = None ->
    first_absent camdict "focalDistance".

(** A well-formed camera string, as its tokenized lines: a valid header,
    the three required fields, the height field of its projection, and
    every optional field either absent or carrying a value. *)
Definition well_formed (camdata : list (list string)) : Prop :=
  let camdict := camdict_of camdata in
  exists tok line rest,
    camdata = (tok :: line) :: rest
    /\ PyStr.str_in (PyStr.slice_0_m6 tok) PROJECTIONENUM = true
    /\ position_ok camdict
    /\ orientation_ok camdict
    /\ float_field_ok camdict "focalDistance"
    /\ optional_float_ok camdict "aspectRatio"
    /\ (PyDict.get camdict "viewportMapping" = None
        \/ exists v l, PyDict.get camdict "viewportMapping" = Some (v :: l))
    /\ optional_float_ok camdict "nearDistance"
    /\ optional_float_ok camdict "farDistance"
    /\ (PyStr.slice_0_m6 tok = "Orthographic" -> float_field_ok camdict "height")
    /\ (PyStr.slice_0_m6 tok = "Perspective"
        -> float_field_ok camdict "heightAngle").

(** [clash w s]: [s] differs from [w] at a position that both have, so
    no extension of [s] starts with [w]. *)
Fixpoint clash (w s : string) : bool :=
  match w, s with
  | String a w', String b s' => if Ascii.eqb a b then clash w' s' else true
  | _, _ => false
  end.

(** [guarded c w s]: each [c] in [s] is followed, inside [s], by a clash
    with [w]; then [s] has no occurrence of [c] followed by [w], whatever
    text surrounds it. *)
Fixpoint guarded (c : ascii) (w s : string) : bool :=
  match s with
  | EmptyString => true
  | String b s' => (if Ascii.eqb b c then clash w s' else true) && guarded c w s'
  end.

(** A shell word that [shlex] returns as it is: not empty, and without
    whitespace, quote, escape or comment characters. *)
Definition plain_char (c : ascii) : bool :=
  negb (Shlex.whitespace c || Shlex.commenter c || Shlex.escape c
        || Shlex.quote c).

Definition plain_token (t : string) : Prop :=
  t <> "" /\ PyStr.all_chars plain_char t = true.

(** No markup: the text has no ["<"]. *)
Definition no_lt (s : string) : bool :=
  PyStr.all_chars (fun c => negb (Ascii.eqb c "<")) s.

End Statements.

(** ** Auxiliary definitions for the proofs *)

(** Every literal piece of a template is [guarded]. *)
Definition lits_guarded (c : ascii) (w : string) (template : list Cycles.piece)
  : bool :=
  forallb (fun p => match p with
                    | Cycles.Lit text => guarded c w text
                    | Cycles.Field _ => true
                    end) template.

(** Every field of a template has a value in [kw]. *)
Definition fields_bound (template : list Cycles.piece) (kw : PyDict.dict string)
  : bool :=
  forallb (fun p => match p with
                    | Cycles.Lit _ => true
                    | Cycles.Field name =>
                        match PyDict.get kw name with
                        | Some _ => true
                        | None => false
                        end
                    end) template.

Definition no_newline (s : string) : bool :=
  PyStr.all_chars (fun c => negb (Ascii.eqb c PyStr.newline)) s.

(** A line of the serializer: a space, then words separated by one space. *)
Definition field_text (toks : list string) : string :=
  " " +:+ PyStr.join " " toks.

Section SerializedLines.
Context {F : PyFloat} {H : FreeCAD F}.

(** The shell words of the lines that the serializers write for a camera,
    [closing] being the words of the last line. *)
Definition height_tokens (cam : Camera) : list string :=
  if String.eqb (Projection cam) "Orthographic"
  then ["height"; str_float (Height cam)]
  else ["heightAngle"; str_float (radians (HeightAngle cam))].

Definition serialized_camdata (cam : Camera) (closing : string)
  : list (list string) :=
  let base := Base (Placement cam) in
  let rot := Rotation (Placement cam) in
  [ [Projection cam +:+ "Camera"; "{"];
    ["viewportMapping"; ViewportMapping cam];
    ["position"; str_float (vx base); str_float (vy base); str_float (vz base)];
    ["orientation"; str_float (vx (Axis rot)); str_float (vy (Axis rot));
     str_float (vz (Axis rot)); str_float (Angle rot)];
    ["nearDistance"; str_float (NearDistance cam)];
    ["farDistance"; str_float (FarDistance cam)];
    ["aspectRatio"; str_float (AspectRatio cam)];
    ["focalDistance"; str_float (FocalDistance cam)];
    height_tokens cam;
    [closing] ].

End SerializedLines.

(** Example inputs. *)

Definition example_camera : @Camera IntFloat IntHost :=
  @mkCamera IntFloat IntHost "Orthographic" "ADJUST_CAMERA"
    (@App_Placement IntFloat IntHost
       (@mkVector IntFloat 0%Z 0%Z 100%Z)
       (@mkVector IntFloat 0%Z 0%Z 1%Z, 0%Z))
    1%Z 0%Z 200%Z 100%Z 5%Z 60%Z.

(** [lines ls]: the text with these lines. *)
Definition lines (ls : list string) : string := PyStr.join PyStr.nl ls.

Definition bad_suffix_string : string :=
  lines ["#Inventor V2.1 ascii"; "";
         "PerspectiveCamerb {";
         " position 0 0 0";
         " orientation 0 0 1 0";
         " focalDistance 5";
         " heightAngle 1";
         "}"].

Definition spotlight_string : string :=
  lines ["#Inventor V2.1 ascii"; ""; "SpotLight {"; " position 0 0 0"; "}"].

Definition no_focal_bad_angle_string : string :=
  lines ["OrthographicCamera {";
         " position 0 0 0";
         " orientation 0 0 1 x";
         " height 5";
         "}"].

Definition no_position_string : string :=
  lines ["PerspectiveCamera {";
         " orientation 0 0 1 0";
         " focalDistance 5";
         " heightAngle 1";
         "}"].

Definition short_orientation_string : string :=
  lines ["PerspectiveCamera {";
         " position 0 0 0";
         " orientation 0 0 1";
         " focalDistance 5";
         " heightAngle 1";
         "}"].

(** The default camera string of [src/Render/camera.py] without its
    [viewportMapping] and [aspectRatio] lines, and its tokenized lines. *)
Definition minimal_camera_string : string :=
  lines ["#Inventor V2.1 ascii"; "";
         "OrthographicCamera {";
         "  position -0 -0 100";
         "  orientation 0 0 1  0";
         "  focalDistance 100";
         "  height 100";
         "}"].

Definition minimal_camera_data : list (list string) :=
  [["OrthographicCamera"; "{"]; ["position"; "-0"; "-0"; "100"];
   ["orientation"; "0"; "0"; "1"; "0"]; ["focalDistance"; "100"];
   ["height"; "100"]; ["}"]].

Definition example_mesh : @Cycles.Mesh IntFloat :=
  @Cycles.mkMesh IntFloat
    ([@mkVector IntFloat 0%Z 0%Z 0%Z; @mkVector IntFloat 1%Z 0%Z 0%Z;
      @mkVector IntFloat 0%Z 1%Z 0%Z],
     [(0%Z, 1%Z, 2%Z)]).

(** The text [src/Render/camera.py] writes for [example_camera]. *)
Definition example_camera_text : string :=
  Eval vm_compute in
    match @RenderCamera.get_coin_string_from_cam IntFloat IntHost example_camera with
    | Return s => s
    | Raise _ => ""
    end.

(** ** The other emitters of [src/renderers/Cycles.py] *)

(** [x * y] on floats and the float of an [int], as in [power*100]. *)
Class PyFloatArith (F : PyFloat) : Type := {
  fmul : float -> float -> float;
  float_of_int : Z -> float
}.

(** [Rotation.multVec] and [Vector.cross] of the host. *)
Class FreeCADVectors (F : PyFloat) (H : FreeCAD F) : Type := {
  multVec : rotation -> Vector -> Vector;
  cross : Vector -> Vector -> Vector
}.

Module CyclesScene.

Definition camera_snippet : list Cycles.piece :=
  [ Cycles.Lit (PyStr.nl +:+ "    <!-- Generated by FreeCAD - Camera '");
    Cycles.Field "n";
    Cycles.Lit ("' -->" +:+ PyStr.nl +:+ "    <transform rotate="
         +:+ Cycles.dq);
    Cycles.Field "a";
    Cycles.Lit " ";
    Cycles.Field "r.x";
    Cycles.Lit " ";
    Cycles.Field "r.y";
    Cycles.Lit " ";
    Cycles.Field "r.z";
    Cycles.Lit (Cycles.dq +:+ PyStr.nl +:+ "               translate="
         +:+ Cycles.dq);
    Cycles.Field "p.x";
    Cycles.Lit " ";
    Cycles.Field "p.y";
    Cycles.Lit " ";
    Cycles.Field "p.z";
    Cycles.Lit (Cycles.dq +:+ PyStr.nl +:+ "               scale="
         +:+ Cycles.dq +:+ "1 1 -1" +:+ Cycles.dq +:+ ">" +:+ PyStr.nl
         +:+ "        <camera type=" +:+ Cycles.dq +:+ "perspective"
         +:+ Cycles.dq +:+ "/>" +:+ PyStr.nl +:+ "    </transform>") ].

Definition pointlight_snippet : list Cycles.piece :=
  [ Cycles.Lit (PyStr.nl +:+ "    <!-- Generated by FreeCAD - Pointlight '");
    Cycles.Field "n";
    Cycles.Lit ("' -->" +:+ PyStr.nl +:+ "    <shader name=" +:+ Cycles.dq);
    Cycles.Field "n";
    Cycles.Lit ("_shader" +:+ Cycles.dq +:+ ">" +:+ PyStr.nl
         +:+ "        <emission name=" +:+ Cycles.dq);
    Cycles.Field "n";
    Cycles.Lit ("_emit" +:+ Cycles.dq +:+ PyStr.nl
         +:+ "                  color=" +:+ Cycles.dq);
    Cycles.Field "c[0]";
    Cycles.Lit " ";
    Cycles.Field "c[1]";
    Cycles.Lit " ";
    Cycles.Field "c[2]";
    Cycles.Lit (Cycles.dq +:+ PyStr.nl +:+ "                  strength="
         +:+ Cycles.dq);
    Cycles.Field "s";
    Cycles.Lit (Cycles.dq +:+ "/>" +:+ PyStr.nl +:+ "        <connect from="
         +:+ Cycles.dq);
    Cycles.Field "n";
    Cycles.Lit ("_emit emission" +:+ Cycles.dq +:+ PyStr.nl
         +:+ "                 to=" +:+ Cycles.dq +:+ "output surface"
         +:+ Cycles.dq +:+ "/>" +:+ PyStr.nl +:+ "    </shader>"
         +:+ PyStr.nl +:+ "    <state shader=" +:+ Cycles.dq);
    Cycles.Field "n";
    Cycles.Lit ("_shader" +:+ Cycles.dq +:+ ">" +:+ PyStr.nl
         +:+ "        <light type=" +:+ Cycles.dq +:+ "point" +:+ Cycles.dq
         +:+ PyStr.nl +:+ "               co=" +:+ Cycles.dq);
    Cycles.Field "p.x";
    Cycles.Lit " ";
    Cycles.Field "p.y";
    Cycles.Lit " ";
    Cycles.Field "p.z";
    Cycles.Lit (Cycles.dq +:+ PyStr.nl +:+ "               strength="
         +:+ Cycles.dq +:+ "1 1 1" +:+ Cycles.dq +:+ "/>" +:+ PyStr.nl
         +:+ "    </state>" +:+ PyStr.nl) ].

Definition arealight_snippet : list Cycles.piece :=
  [ Cycles.Lit (PyStr.nl +:+ "    <!-- Generated by FreeCAD - Area light '");
    Cycles.Field "n";
    Cycles.Lit ("' -->" +:+ PyStr.nl +:+ "    <shader name=" +:+ Cycles.dq);
    Cycles.Field "n";
    Cycles.Lit ("_shader" +:+ Cycles.dq +:+ ">" +:+ PyStr.nl
         +:+ "        <emission name=" +:+ Cycles.dq);
    Cycles.Field "n";
    Cycles.Lit ("_emit" +:+ Cycles.dq +:+ PyStr.nl
         +:+ "                  color=" +:+ Cycles.dq);
    Cycles.Field "c[0]";
    Cycles.Lit " ";
    Cycles.Field "c[1]";
    Cycles.Lit " ";
    Cycles.Field "c[2]";
    Cycles.Lit (Cycles.dq +:+ PyStr.nl +:+ "                  strength="
         +:+ Cycles.dq);
    Cycles.Field "s";
    Cycles.Lit (Cycles.dq +:+ "/>" +:+ PyStr.nl +:+ "        <connect from="
         +:+ Cycles.dq);
    Cycles.Field "n";
    Cycles.Lit ("_emit emission" +:+ Cycles.dq +:+ PyStr.nl
         +:+ "                 to=" +:+ Cycles.dq +:+ "output surface"
         +:+ Cycles.dq +:+ "/>" +:+ PyStr.nl +:+ "    </shader>"
         +:+ PyStr.nl +:+ "    <state shader=" +:+ Cycles.dq);
    Cycles.Field "n";
    Cycles.Lit ("_shader" +:+ Cycles.dq +:+ ">" +:+ PyStr.nl
         +:+ "        <light type=" +:+ Cycles.dq +:+ "area" +:+ Cycles.dq
         +:+ PyStr.nl +:+ "               co=" +:+ Cycles.dq);
    Cycles.Field "p.x";
    Cycles.Lit " ";
    Cycles.Field "p.y";
    Cycles.Lit " ";
    Cycles.Field "p.z";
    Cycles.Lit (Cycles.dq +:+ PyStr.nl +:+ "               strength="
         +:+ Cycles.dq +:+ "1 1 1" +:+ Cycles.dq +:+ PyStr.nl
         +:+ "               axisu=" +:+ Cycles.dq);
    Cycles.Field "u.x";
    Cycles.Lit " ";
    Cycles.Field "u.y";
    Cycles.Lit " ";
    Cycles.Field "u.z";
    Cycles.Lit (Cycles.dq +:+ PyStr.nl +:+ "               axisv="
         +:+ Cycles.dq);
    Cycles.Field "v.x";
    Cycles.Lit " ";
    Cycles.Field "v.y";
    Cycles.Lit " ";
    Cycles.Field "v.z";
    Cycles.Lit (Cycles.dq +:+ PyStr.nl +:+ "               sizeu="
         +:+ Cycles.dq);
    Cycles.Field "a";
    Cycles.Lit (Cycles.dq +:+ PyStr.nl +:+ "               sizev="
         +:+ Cycles.dq);
    Cycles.Field "b";
    Cycles.Lit (Cycles.dq +:+ PyStr.nl +:+ "               size="
         +:+ Cycles.dq +:+ "1" +:+ Cycles.dq +:+ PyStr.nl
         +:+ "               dir=" +:+ Cycles.dq);
    Cycles.Field "d.x";
    Cycles.Lit " ";
    Cycles.Field "d.y";
    Cycles.Lit " ";
    Cycles.Field "d.z";
    Cycles.Lit (Cycles.dq +:+ " />" +:+ PyStr.nl +:+ "    </state>"
         +:+ PyStr.nl) ].

Section Emitters.
Context {F : PyFloat} {H : FreeCAD F} {A : PyFloatArith F}
  {V : FreeCADVectors F H}.

Definition write_camera (name : string) (pos : placement)
  (updir target : Vector) : result string :=
  Cycles.format camera_snippet
    [ ("n", name);
      ("a", str_float (degrees (Angle (Rotation pos))));
      ("r.x", str_float (vx (Axis (Rotation pos))));
      ("r.y", str_float (vy (Axis (Rotation pos))));
      ("r.z", str_float (vz (Axis (Rotation pos))));
      ("p.x", str_float (vx (Base pos)));
      ("p.y", str_float (vy (Base pos)));
      ("p.z", str_float (vz (Base pos))) ].

Definition write_pointlight (name : string) (pos : Vector)
  (color : float * float * float) (power : float) : result string :=
  let '(c0, c1, c2) := color in
  Cycles.format pointlight_snippet
    [ ("n", name);
      ("c[0]", str_float c0); ("c[1]", str_float c1); ("c[2]", str_float c2);
      ("p.x", str_float (vx pos)); ("p.y", str_float (vy pos));
      ("p.z", str_float (vz pos));
      ("s", str_float (fmul power (float_of_int 100))) ].

Definition write_arealight (name : string) (pos : placement)
  (size_u size_v : float) (color : float * float * float) (power : float)
  : result string :=
  let rot := Rotation pos in
  let axis1 := multVec rot (mkVector fone fzero fzero) in
  let axis2 := multVec rot (mkVector fzero fone fzero) in
  let direction := cross axis1 axis2 in
  let '(c0, c1, c2) := color in
  Cycles.format arealight_snippet
    [ ("n", name);
      ("c[0]", str_float c0); ("c[1]", str_float c1); ("c[2]", str_float c2);
      ("p.x", str_float (vx (Base pos))); ("p.y", str_float (vy (Base pos)));
      ("p.z", str_float (vz (Base pos)));
      ("s", str_float (fmul power (float_of_int 100)));
      ("u.x", str_float (vx axis1)); ("u.y", str_float (vy axis1));
      ("u.z", str_float (vz axis1));
      ("v.x", str_float (vx axis2)); ("v.y", str_float (vy axis2));
      ("v.z", str_float (vz axis2));
      ("a", str_float size_u);
      ("b", str_float size_v);
      ("d.x", str_float (vx direction)); ("d.y", str_float (vy direction));
      ("d.z", str_float (vz direction)) ].

End Emitters.

End CyclesScene.

(** The integer instance, for the products and the vector operations. *)
Definition IntArith : PyFloatArith IntFloat := {|
  fmul := fun x y : @float IntFloat => Z.mul x y;
  float_of_int := fun n : Z => n
|}.

Definition IntVectors : FreeCADVectors IntFloat IntHost := {|
  multVec := fun _ v => v;
  cross := fun u v =>
    @mkVector IntFloat
      (@vy IntFloat u * @vz IntFloat v - @vz IntFloat u * @vy IntFloat v)%Z
      (@vz IntFloat u * @vx IntFloat v - @vx IntFloat u * @vz IntFloat v)%Z
      (@vx IntFloat u * @vy IntFloat v - @vy IntFloat u * @vx IntFloat v)%Z
|}.

(** ** More predicates for the parser *)

(** A line that is blank or, after leading whitespace, starts a comment. *)
Fixpoint comment_or_blank (l : string) : bool :=
  match l with
  | EmptyString => true
  | String c l' =>
      if Shlex.whitespace c then comment_or_blank l' else Shlex.commenter c
  end.

(** The line [y] starts with the key [k]. *)
Definition has_key (k : string) (y : list string) : bool :=
  match y with
  | [] => false
  | key :: _ => String.eqb k key
  end.

(** The values of the last line of [camdata] that starts with [k]. *)
Definition last_values (camdata : list (list string)) (k : string)
  : option (list string) :=
  option_map (@tl string) (find (has_key k) (List.rev camdata)).

(** The first token of a line. *)
Definition line_key (y : list string) : string := hd "" y.

(** The keys the parser looks up. *)
Definition parser_keys : list string :=
  ["position"; "orientation"; "focalDistance"; "aspectRatio";
   "viewportMapping"; "nearDistance"; "farDistance"; "height"; "heightAngle"].

(** What [set_cam_from_coin_string] of [src/Render/camera.py] does once
    the text is tokenized. *)
Definition render_parse_camdata {F : PyFloat} {H : FreeCAD F}
  (camdata : list (list string)) : CamM.M unit :=
  (let camdict := camdict_of camdata in
   set_projection_from_header camdata ;;
   CamM.try_except_KeyError
     (set_placement_from camdict ;;
      v <- CamM.lift (float_field camdict "focalDistance") ;;
      CamM.set_FocalDistance v)
     (fun key => CamM.raise (missing_field key)) ;;
   CamM.try_except_KeyError
     (v <- CamM.lift (float_field camdict "aspectRatio") ;;
      CamM.set_AspectRatio v)
     (fun _ => CamM.set_AspectRatio fone) ;;
   CamM.try_except_KeyError
     (l <- CamM.lift (PyDict.item camdict "viewportMapping") ;;
      v <- CamM.lift (list_item l 0) ;;
      CamM.set_ViewportMapping v)
     (fun _ => CamM.set_ViewportMapping "ADJUST_CAMERA") ;;
   set_near_far_from camdict ;;
   set_height_from camdict)%cam.

(** The same for [src/camera.py]. *)
Definition legacy_parse_camdata {F : PyFloat} {H : FreeCAD F}
  (camdata : list (list string)) : CamM.M unit :=
  (let camdict := camdict_of camdata in
   set_projection_from_header camdata ;;
   CamM.try_except_KeyError
     (set_placement_from camdict ;;
      v <- CamM.lift (float_field camdict "focalDistance") ;;
      CamM.set_FocalDistance v ;;
      v <- CamM.lift (float_field camdict "aspectRatio") ;;
      CamM.set_AspectRatio v ;;
      l <- CamM.lift (PyDict.item camdict "viewportMapping") ;;
      v <- CamM.lift (list_item l 0) ;;
      CamM.set_ViewportMapping v)
     (fun key => CamM.raise (missing_field key)) ;;
   set_near_far_from camdict ;;
   set_height_from camdict)%cam.

(** What the parser of [src/Render/camera.py] does after the test of the
    header. *)
Definition render_parse_rest {F : PyFloat} {H : FreeCAD F}
  (camdict : PyDict.dict (list string)) : CamM.M unit :=
  (CamM.try_except_KeyError
     (set_placement_from camdict ;;
      v <- CamM.lift (float_field camdict "focalDistance") ;;
      CamM.set_FocalDistance v)
     (fun key => CamM.raise (missing_field key)) ;;
   CamM.try_except_KeyError
     (v <- CamM.lift (float_field camdict "aspectRatio") ;;
      CamM.set_AspectRatio v)
     (fun _ => CamM.set_AspectRatio fone) ;;
   CamM.try_except_KeyError
     (l <- CamM.lift (PyDict.item camdict "viewportMapping") ;;
      v <- CamM.lift (list_item l 0) ;;
      CamM.set_ViewportMapping v)
     (fun _ => CamM.set_ViewportMapping "ADJUST_CAMERA") ;;
   set_near_far_from camdict ;;
   set_height_from camdict)%cam.

(** The statement [m] leaves the attribute [field] of the camera as it is. *)
Definition keeps {F : PyFloat} {H : FreeCAD F} {A B : Type}
  (field : Camera -> B) (m : CamM.M A) : Prop :=
  forall cam, field (snd (m cam)) = field cam.

(** The statement [m] keeps the property [P] of the camera. *)
Definition inv {F : PyFloat} {H : FreeCAD F} {A : Type}
  (P : Camera -> Prop) (m : CamM.M A) : Prop :=
  forall cam, P cam -> P (snd (m cam)).

(** Run on two cameras related by [R], the statement [m] has the same
    outcome, and leaves the cameras related by [Rok] when it returns and by
    [Rexc] when it raises. *)
Definition rel {F : PyFloat} {H : FreeCAD F} {A : Type}
  (R : Camera -> Camera -> Prop) (m : CamM.M A)
  (Rok Rexc : Camera -> Camera -> Prop) : Prop :=
  forall c1 c2, R c1 c2 ->
    fst (m c1) = fst (m c2)
    /\ match fst (m c1) with
       | Return _ => Rok (snd (m c1)) (snd (m c2))
       | Raise _ => Rexc (snd (m c1)) (snd (m c2))
       end.

(** Two cameras agree on the first [n] of the attributes that the parser
    always writes, in the order in which it writes them. *)
Definition agree {F : PyFloat} {H : FreeCAD F} (n : nat) (c1 c2 : Camera)
  : Prop :=
  (1 <= n -> Projection c1 = Projection c2)
  /\ (2 <= n -> Placement c1 = Placement c2)
  /\ (3 <= n -> FocalDistance c1 = FocalDistance c2)
  /\ (4 <= n -> AspectRatio c1 = AspectRatio c2)
  /\ (5 <= n -> ViewportMapping c1 = ViewportMapping c2).

(** The camera that parsing the serialized [cam] into [cam0] gives: what
    the text carries comes from [cam], the rotation rebuilt by the host
    from its axis and its angle in degrees, the height angle through
    radians and back; the height field of the other projection is the one
    of [cam0]. *)
Definition reparsed {F : PyFloat} {H : FreeCAD F} (cam cam0 : Camera)
  : Camera :=
  let rot := Rotation (Placement cam) in
  let ortho := String.eqb (Projection cam) "Orthographic" in
  mkCamera (Projection cam) (ViewportMapping cam)
    (App_Placement (Base (Placement cam))
       (App_Rotation (Axis rot) (degrees (Angle rot))))
    (AspectRatio cam) (NearDistance cam) (FarDistance cam)
    (FocalDistance cam)
    (if ortho then Height cam else Height cam0)
    (if ortho then HeightAngle cam0
     else degrees (radians (HeightAngle cam))).

(** More example inputs. *)

Definition other_camera : @Camera IntFloat IntHost :=
  @mkCamera IntFloat IntHost "Perspective" "LEAVE_ALONE"
    (@App_Placement IntFloat IntHost
       (@mkVector IntFloat 7%Z 8%Z 9%Z)
       (@mkVector IntFloat 1%Z 0%Z 0%Z, 90%Z))
    2%Z 3%Z 400%Z 50%Z 6%Z 45%Z.

Definition only_remarks_string : string :=
  lines ["#Inventor V2.1 ascii"; ""; "   "; "  # no camera here"].

(** [minimal_camera_string] with an earlier position line, overridden by
    the later one, and a line whose key the parser does not know. *)
Definition overridden_camera_string : string :=
  lines ["#Inventor V2.1 ascii"; "";
         "OrthographicCamera {";
         "  position 1 2 3";
         "  position -0 -0 100";
         "  orientation 0 0 1  0";
         "  focalDistance 100";
         "  exposure 7";
         "  height 100";
         "}"].

(** [minimal_camera_string] with its fields in another order. *)
Definition reordered_camera_string : string :=
  lines ["#Inventor V2.1 ascii"; "";
         "OrthographicCamera {";
         "  orientation 0 0 1  0";
         "  position -0 -0 100";
         "  focalDistance 100";
         "  height 100";
         "}"].

Definition perspective_camera_string : string :=
  lines ["#Inventor V2.1 ascii"; "";
         "PerspectiveCamera {";
         "  viewportMapping ADJUST_CAMERA";
         "  position 1 2 3";
         "  orientation 0 0 1  0";
         "  nearDistance 1";
         "  farDistance 50";
         "  aspectRatio 1";
         "  focalDistance 5";
         "  heightAngle 45";
         "}"].

Definition no_focal_string : string :=
  lines ["PerspectiveCamera {";
         "  position 1 2 3";
         "  orientation 0 0 1 90";
         "  heightAngle 45";
         "}"].

(** ** Python's floats as they are: IEEE 754 binary64

    The floats of CPython on the primitive binary64 numbers of Rocq:
    [float(s)] with correct rounding, [repr] (which is also [str] and
    what an f-string inserts) as the shortest decimal text that reads back
    to the same float, and [math.degrees] and [math.radians], which
    multiply by the constants [180 / pi] and [pi / 180]. A string has one
    character per byte; characters above 127 count neither as digits nor
    as white space. *)

Module Binary64.

(** [n * 10 ** k], for [n >= 0], rounded to the nearest float, ties to
    even. A negative power of ten is divided out with enough extra bits
    and a sticky bit for what is left. *)
Definition of_decimal (n k : Z) : PrimFloat.float :=
  FloatOps.SF2Prim
    (if Z.leb 0 k then
       SpecFloat.binary_normalize FloatOps.prec FloatOps.emax
         (n * 10 ^ k) 0 false
     else
       let d := (10 ^ (- k))%Z in
       let s := Z.max 0 (66 + Z.log2 d - Z.log2 n) in
       let q := Z.div (n * 2 ^ s) d in
       let r := Z.modulo (n * 2 ^ s) d in
       SpecFloat.binary_normalize FloatOps.prec FloatOps.emax
         (2 * q + (if Z.eqb r 0 then 0 else 1)) (- s - 1) false).

(** *** [float(s)] *)

Definition is_digit (c : ascii) : bool :=
  Nat.leb 48 (nat_of_ascii c) && Nat.leb (nat_of_ascii c) 57.

Definition is_space (c : ascii) : bool :=
  let n := nat_of_ascii c in
  (Nat.leb 9 n && Nat.leb n 13) || (Nat.leb 28 n && Nat.leb n 32).

Definition lower (c : ascii) : ascii :=
  let n := nat_of_ascii c in
  if Nat.leb 65 n && Nat.leb n 90 then ascii_of_nat (n + 32) else c.

Fixpoint lower_str (s : string) : string :=
  match s with
  | EmptyString => EmptyString
  | String c s' => String (lower c) (lower_str s')
  end.

Fixpoint lstrip (s : string) : string :=
  match s with
  | EmptyString => EmptyString
  | String c s' => if is_space c then lstrip s' else s
  end.

Fixpoint rstrip (s : string) : string :=
  match s with
  | EmptyString => EmptyString
  | String c s' =>
      match rstrip s' with
      | EmptyString => if is_space c then EmptyString else String c EmptyString
      | t => String c t
      end
  end.

(** An optional sign: whether it is a minus, and what follows it. *)
Definition sign (s : string) : bool * string :=
  match s with
  | String "-" s' => (true, s')
  | String "+" s' => (false, s')
  | _ => (false, s)
  end.

(** After a digit: as many [digit] or [_ digit] as follow. *)
Fixpoint more_digits (s : string) : string * string :=
  match s with
  | String c s' =>
      if is_digit c then
        let (ds, r) := more_digits s' in (String c ds, r)
      else if Ascii.eqb c "_" then
        match s' with
        | String c' s'' =>
            if is_digit c' then
              let (ds, r) := more_digits s'' in (String c' ds, r)
            else (EmptyString, s)
        | EmptyString => (EmptyString, s)
        end
      else (EmptyString, s)
  | EmptyString => (EmptyString, EmptyString)
  end.

(** [digitpart]: digits with single underscores between them. *)
Definition digitpart (s : string) : option (string * string) :=
  match s with
  | String c s' =>
      if is_digit c then
        let (ds, r) := more_digits s' in Some (String c ds, r)
      else None
  | EmptyString => None
  end.

(** [number]: the digits before the point, those after it, and the rest. *)
Definition number (s : string) : option (string * string * string) :=
  match digitpart s with
  | Some (i, r) =>
      match r with
      | String "." r' =>
          match digitpart r' with
          | Some (f, r'') => Some (i, f, r'')
          | None => Some (i, EmptyString, r')
          end
      | _ => Some (i, EmptyString, r)
      end
  | None =>
      match s with
      | String "." r' =>
          match digitpart r' with
          | Some (f, r'') => Some (EmptyString, f, r'')
          | None => None
          end
      | _ => None
      end
  end.

Fixpoint digits_val (acc : Z) (s : string) : Z :=
  match s with
  | EmptyString => acc
  | String c s' => digits_val (10 * acc + Z.of_nat (nat_of_ascii c - 48)) s'
  end.

(** An optional exponent: its value and the rest. *)
Definition exponent (s : string) : option (Z * string) :=
  match s with
  | String c r =>
      if Ascii.eqb (lower c) "e" then
        let (neg, r1) := sign r in
        match digitpart r1 with
        | Some (ds, r2) =>
            Some (if neg then (- digits_val 0 ds)%Z else digits_val 0 ds, r2)
        | None => None
        end
      else Some (0%Z, s)
  | EmptyString => Some (0%Z, EmptyString)
  end.

(** [n * 10 ** k] as a float; what is out of range is decided before the
    power is built. *)
Definition value (n k : Z) : PrimFloat.float :=
  if Z.eqb n 0 then PrimFloat.zero
  else
    let mag := (k + Z.log2 n * 30103 / 100000)%Z in
    if Z.ltb 310 mag then PrimFloat.infinity
    else if Z.ltb mag (-330) then PrimFloat.zero
    else of_decimal n k.

Definition float_of_str (s : string) : option PrimFloat.float :=
  let (neg, u) := sign (rstrip (lstrip s)) in
  let signed := fun x => if neg then PrimFloat.opp x else x in
  let lu := lower_str u in
  if String.eqb lu "inf" || String.eqb lu "infinity" then
    Some (signed PrimFloat.infinity)
  else if String.eqb lu "nan" then Some PrimFloat.nan
  else
    match number u with
    | Some (i, f, r) =>
        match exponent r with
        | Some (e, EmptyString) =>
            Some (signed (value (digits_val 0 (i +:+ f))
                            (e - Z.of_nat (String.length f))))
        | _ => None
        end
    | None => None
    end.

(** *** [repr(x)] *)

(** [num / den < 10 ** d]. *)
Definition below (num den d : Z) : bool :=
  if Z.leb 0 d then Z.ltb num (10 ^ d * den)
  else Z.ltb (num * 10 ^ (- d)) den.

Fixpoint first_below (fuel : nat) (num den d : Z) : Z :=
  match fuel with
  | O => d
  | S fuel' =>
      if below num den d then d else first_below fuel' num den (d + 1)
  end.

(** The position of the decimal point: the [d] with
    [10 ** (d - 1) <= num / den < 10 ** d]. *)
Definition decimal_point (num den : Z) : Z :=
  first_below 8 num den ((Z.log2 num - Z.log2 den - 2) * 30103 / 100000).

(** The decimal numbers of [n] digits next to [num / den] on both sides,
    [n] growing from its first value: the first that reads back as [x] is
    taken, the nearer one when both do, the even one in a tie. The result
    is the number and its count of digits. *)
Fixpoint shortest (fuel : nat) (x : PrimFloat.float) (num den d n : Z)
  : Z * Z :=
  let t := (n - d)%Z in
  let a := if Z.leb 0 t then (num * 10 ^ t)%Z else num in
  let b := if Z.leb 0 t then den else (den * 10 ^ (- t))%Z in
  let lo := Z.div a b in
  let r := Z.modulo a b in
  let hi := (lo + 1)%Z in
  let nearer := if Z.ltb b (2 * r) || (Z.eqb (2 * r) b && Z.odd lo)
                then hi else lo in
  match fuel with
  | O => (nearer, n)
  | S fuel' =>
      let ok_lo := PrimFloat.eqb (of_decimal lo (- t)) x in
      let ok_hi := PrimFloat.eqb (of_decimal hi (- t)) x in
      if Z.eqb r 0 then (lo, n)
      else if ok_lo && ok_hi then (nearer, n)
      else if ok_lo then (lo, n)
      else if ok_hi then (hi, n)
      else shortest fuel' x num den d (n + 1)
  end.

Fixpoint strip_zeros (s : string) : string :=
  match s with
  | EmptyString => EmptyString
  | String c s' =>
      match strip_zeros s' with
      | EmptyString => if Ascii.eqb c "0" then EmptyString
                       else String c EmptyString
      | t => String c t
      end
  end.

Fixpoint zeros (n : nat) : string :=
  match n with
  | O => EmptyString
  | S n' => String "0" (zeros n')
  end.

(** The digits [ds] with the decimal point after the first [decpt] of
    them, as [repr] lays them out: with an exponent when [decpt <= -4] or
    [decpt > 16], otherwise with a point and at least one digit after
    it. *)
Definition layout (ds : string) (decpt : Z) : string :=
  let nd := Z.of_nat (String.length ds) in
  if Z.leb decpt (-4) || Z.ltb 16 decpt then
    let e := (decpt - 1)%Z in
    let es := PyStr.str_int (Z.abs e) in
    substring 0 1 ds
    +:+ (if Z.ltb 1 nd then "." +:+ substring 1 (String.length ds - 1) ds
         else "")
    +:+ "e" +:+ (if Z.ltb e 0 then "-" else "+")
    +:+ (if Z.ltb (Z.abs e) 10 then "0" +:+ es else es)
  else if Z.leb decpt 0 then
    "0." +:+ zeros (Z.to_nat (- decpt)) +:+ ds
  else if Z.leb nd decpt then
    ds +:+ zeros (Z.to_nat (decpt - nd)) +:+ ".0"
  else
    substring 0 (Z.to_nat decpt) ds +:+ "."
    +:+ substring (Z.to_nat decpt) (String.length ds - Z.to_nat decpt) ds.

Definition repr (x : PrimFloat.float) : string :=
  match FloatOps.Prim2SF x with
  | SpecFloat.S754_nan => "nan"
  | SpecFloat.S754_infinity s => if s then "-inf" else "inf"
  | SpecFloat.S754_zero s => if s then "-0.0" else "0.0"
  | SpecFloat.S754_finite s m e =>
      let num := if Z.leb 0 e then (Zpos m * 2 ^ e)%Z else Zpos m in
      let den := if Z.leb 0 e then 1%Z else (2 ^ (- e))%Z in
      let d := decimal_point num den in
      let (c, n) := shortest 16 (PrimFloat.abs x) num den d 1 in
      let all := PyStr.str_int c in
      (if s then "-" else "")
      +:+ layout (strip_zeros all) (d + Z.of_nat (String.length all) - n)
  end.

(** *** [math.degrees] and [math.radians] *)

(** [Py_MATH_PI], the float nearest to 3.14159265358979323846. *)
Definition pi : PrimFloat.float := of_decimal 314159265358979323846 (-20).

Definition radToDeg : PrimFloat.float := PrimFloat.div (of_decimal 180 0) pi.
Definition degToRad : PrimFloat.float := PrimFloat.div pi (of_decimal 180 0).

Definition degrees (x : PrimFloat.float) : PrimFloat.float :=
  PrimFloat.mul x radToDeg.

Definition radians (x : PrimFloat.float) : PrimFloat.float :=
  PrimFloat.mul x degToRad.

End Binary64.





(** ** An instance whose angle conversions lose digits

    Floats that are integers, as in [IntFloat], with pi taken as 3:
    [degrees] multiplies by 60 and [radians] divides by 60, rounding
    down. The host's rotation is the pair of its axis and its angle in
    degrees. *)





(** * Properties *)

(** ** Strings *)

Lemma append_assoc (a b c : string) : (a +:+ b) +:+ c = a +:+ (b +:+ c).
Proof.
  induction a as [|x a IH]; simpl; [reflexivity | now rewrite IH].
Qed.

Lemma append_nil_r (a : string) : a +:+ "" = a.
Proof.
  induction a as [|x a IH]; simpl; [reflexivity | now rewrite IH].
Qed.

Lemma all_chars_app (p : ascii -> bool) (a b : string) :
  PyStr.all_chars p (a +:+ b) = PyStr.all_chars p a && PyStr.all_chars p b.
Proof.
  induction a as [|x a IH]; simpl; [reflexivity|].
  now rewrite IH, andb_assoc.
Qed.

Lemma all_chars_weaken (p q : ascii -> bool) (s : string) :
  (forall c, p c = true -> q c = true) ->
  PyStr.all_chars p s = true -> PyStr.all_chars q s = true.
Proof.
  intros Hpq. induction s as [|x s IH]; simpl; [reflexivity|].
  intros Hs. apply andb_true_iff in Hs as [Hx Hs].
  now rewrite (Hpq _ Hx), IH.
Qed.

Lemma startswith_app (n s : string) : PyStr.startswith n (n +:+ s) = true.
Proof.
  induction n as [|x n IH]; simpl.
  - now destruct s.
  - now rewrite Ascii.eqb_refl, IH.
Qed.

Lemma contains_app_r (n p s : string) :
  PyStr.contains n s = true -> PyStr.contains n (p +:+ s) = true.
Proof.
  intros Hs. induction p as [|x p IH]; simpl; [exact Hs|].
  rewrite IH. apply orb_true_r.
Qed.

Lemma contains_intro (n pre post : string) :
  PyStr.contains n (pre +:+ n +:+ post) = true.
Proof.
  apply contains_app_r.
  destruct (n +:+ post) eqn:E; simpl; rewrite <- E, startswith_app;
    reflexivity.
Qed.

Lemma startswith_app_l (n t q : string) :
  PyStr.startswith n t = true -> PyStr.startswith n (t +:+ q) = true.
Proof.
  revert t. induction n as [|a n IH]; intros t; simpl.
  - intros _. now destruct (t +:+ q).
  - destruct t as [|b t]; simpl; [discriminate|].
    intros Ht. apply andb_true_iff in Ht as [Hab Ht].
    now rewrite Hab, IH.
Qed.

Lemma contains_app_l (n s q : string) :
  PyStr.contains n s = true -> PyStr.contains n (s +:+ q) = true.
Proof.
  induction s as [|x s IH].
  - simpl. rewrite orb_false_r. intros Hn.
    apply (startswith_app_l n "" q) in Hn. simpl in Hn.
    destruct q; simpl; rewrite Hn; reflexivity.
  - simpl. intros Hs. apply orb_true_iff in Hs as [Hs|Hs].
    + apply (startswith_app_l n (String x s) q) in Hs. simpl in Hs.
      now rewrite Hs.
    + rewrite (IH Hs). apply orb_true_r.
Qed.

(** ** [render] *)

(** C10. The [prefix] argument of [render] has no effect: two calls that
    differ only in it print the same messages, run the same command and
    return the same value, since the value read from the preferences store
    overwrites it before any use. *)
Theorem render_prefix_ignored :
  forall params exit_status project prefix1 prefix2 external output width height,
    Cycles.render params exit_status project prefix1 external output width height
    = Cycles.render params exit_status project prefix2 external output width
        height.
Proof.
  reflexivity.
Qed.

(** C9. With an empty configured executable path, [render] prints the
    diagnostic that asks for the path to be set, runs no command and
    returns the empty string. Otherwise it prints the command, runs it and
    returns the output path it was given, whatever exit status the command
    has; nothing else happens, in particular no look at the output file. *)
Theorem render_executable_path :
  forall params exit_status project prefix external output width height,
    (Cycles.GetString params "CyclesPath" "" = "" ->
     Cycles.render params exit_status project prefix external output width height
     = ([Cycles.PrintError
           ("Unable to locate renderer executable. "
            +:+ "Please set the correct path in "
            +:+ "Edit -> Preferences -> Render" +:+ PyStr.nl)], ""))
    /\ (Cycles.GetString params "CyclesPath" "" <> "" ->
        exists cmd,
          Cycles.render params exit_status project prefix external output width
            height
          = ([Cycles.PrintMessage (cmd +:+ PyStr.nl); Cycles.os_system cmd],
             output))
    /\ (forall exit_status',
          Cycles.render params exit_status' project prefix external output width
            height
          = Cycles.render params exit_status project prefix external output
              width height).
Proof.
  intros params es project prefix external output width height.
  unfold Cycles.render, Cycles.str_truth.
  repeat split.
  - intros ->. reflexivity.
  - intros Hne. apply String.eqb_neq in Hne. rewrite Hne. simpl.
    eexists. reflexivity.
Qed.

Lemma render_executable_path_witness :
  Cycles.render [("CyclesParameters", "--samples 4")] (fun _ => 1%Z)
    (Cycles.mkProject "/tmp/scene.xml") "nice" false "/tmp/out.png" 800 600
  = ([Cycles.PrintError
        ("Unable to locate renderer executable. "
         +:+ "Please set the correct path in "
         +:+ "Edit -> Preferences -> Render" +:+ PyStr.nl)], "")
  /\ exists cmd,
       Cycles.render [("CyclesPath", "/usr/bin/cycles")] (fun _ => 1%Z)
         (Cycles.mkProject "/tmp/scene.xml") "nice" false "/tmp/out.png" 800 600
       = ([Cycles.PrintMessage (cmd +:+ PyStr.nl); Cycles.os_system cmd],
          "/tmp/out.png").
Proof.
  split.
  - apply (proj1 (render_executable_path
                    [("CyclesParameters", "--samples 4")] (fun _ => 1%Z)
                    (Cycles.mkProject "/tmp/scene.xml") "nice" false
                    "/tmp/out.png" 800 600)).
    reflexivity.
  - apply (proj1 (proj2 (render_executable_path
                    [("CyclesPath", "/usr/bin/cycles")] (fun _ => 1%Z)
                    (Cycles.mkProject "/tmp/scene.xml") "nice" false
                    "/tmp/out.png" 800 600))).
    vm_compute. discriminate.
Defined.

(** ** The parser, [set_cam_from_coin_string] *)

Ltac cam_unfold :=
  unfold CamM.bind, CamM.lift, CamM.ret, CamM.raise, CamM.get, CamM.assert_,
    CamM.try_except_KeyError.

(** Enters the parser up to the first [try] block, with the tokenized
    lines [Hdata] and the header test [Hhdr] known. *)
Ltac enter_parser Hdata Hhdr tok line rest cam step :=
  unfold CamM.bind at 1; unfold CamM.lift at 1; rewrite Hdata;
  unfold CamM.bind at 1;
  rewrite (step _ tok line rest cam eq_refl), Hhdr.

Section ParserProps.
Context {F : PyFloat} {H : FreeCAD F}.

Lemma header_step (camdata : list (list string)) tok line rest cam :
  camdata = (tok :: line) :: rest ->
  set_projection_from_header camdata cam
  = (if PyStr.str_in (PyStr.slice_0_m6 tok) PROJECTIONENUM
     then Return tt
     else Raise (AssertionError "Invalid camera header in camera string"),
     snd (CamM.set_Projection (PyStr.slice_0_m6 tok) cam)).
Proof.
  intros ->. unfold set_projection_from_header. cam_unfold. simpl.
  unfold PyStr.str_in. simpl.
  now destruct (_ || _).
Qed.

(** C3, as the code has it. When the leading token of the first non-blank,
    non-comment line, without its last six characters, is neither
    "Perspective" nor "Orthographic", the parser raises the assertion error
    "Invalid camera header in camera string"; the camera it was given has
    by then received that text as its projection and nothing else. *)
Theorem invalid_header_rejected :
  forall camstr tok line rest cam,
    camdata_of camstr = Return ((tok :: line) :: rest) ->
    PyStr.str_in (PyStr.slice_0_m6 tok) PROJECTIONENUM = false ->
    RenderCamera.set_cam_from_coin_string camstr cam
    = (Raise (AssertionError "Invalid camera header in camera string"),
       snd (CamM.set_Projection (PyStr.slice_0_m6 tok) cam)).
Proof.
  intros camstr tok line rest cam Hdata Hbad.
  unfold RenderCamera.set_cam_from_coin_string.
  enter_parser Hdata Hbad tok line rest cam header_step.
  reflexivity.
Qed.

Lemma placement_step camdict cam :
  position_ok camdict -> orientation_ok camdict ->
  exists pl,
    set_placement_from camdict cam = (Return tt, snd (CamM.set_Placement pl cam)).
Proof.
  intros (l & v & Hl & Hv) (lo & axis & a & angle & Hlo & Haxis & Ha & Hangle).
  unfold set_placement_from, PyDict.item, list_item, py_float. cam_unfold.
  rewrite Hl, Hv, Hlo, Haxis, Ha, Hangle. simpl.
  eexists. reflexivity.
Qed.

Lemma required_step_run camdict cam :
  position_ok camdict -> orientation_ok camdict ->
  float_field_ok camdict "focalDistance" ->
  exists pl fd,
    (set_placement_from camdict ;;
     v <- CamM.lift (float_field camdict "focalDistance") ;;
     CamM.set_FocalDistance v)%cam cam
    = (Return tt, snd (CamM.set_FocalDistance fd (snd (CamM.set_Placement pl cam)))).
Proof.
  intros Hpos Hori [fd Hfd].
  destruct (placement_step camdict cam Hpos Hori) as [pl Hpl].
  exists pl, fd. unfold CamM.bind at 1. rewrite Hpl.
  cam_unfold. rewrite Hfd. reflexivity.
Qed.

(** C4, as the code has it. For a text that tokenizes, every line of it,
    and has a valid header: when a required field among position,
    orientation and focalDistance is absent and the required fields read
    before it are present and well formed, the parser raises the value
    error "Missing field in camera string: 'KEY'" for the absent field
    KEY. A text with no position line needs no more than that. *)
Theorem missing_required_field_named :
  forall camstr tok line rest cam key,
    camdata_of camstr = Return ((tok :: line) :: rest) ->
    PyStr.str_in (PyStr.slice_0_m6 tok) PROJECTIONENUM = true ->
    first_absent (camdict_of ((tok :: line) :: rest)) key ->
    fst (RenderCamera.set_cam_from_coin_string camstr cam)
    = Raise (ValueError ("Missing field in camera string: '" +:+ key +:+ "'")).
Proof.
  intros camstr tok line rest cam key Hdata Hhdr Habs.
  unfold RenderCamera.set_cam_from_coin_string.
  enter_parser Hdata Hhdr tok line rest cam header_step.
  set (camdict := camdict_of _) in *.
  set (cam1 := snd _).
  unfold CamM.bind at 1. unfold CamM.try_except_KeyError at 1.
  destruct Habs as [Hp | Hp Ho | Hp Ho Hf].
  - unfold set_placement_from, PyDict.item. cam_unfold. rewrite Hp.
    reflexivity.
  - destruct Hp as (l & v & Hl & Hv).
    unfold set_placement_from, PyDict.item. cam_unfold.
    rewrite Hl, Hv, Ho. reflexivity.
  - destruct (placement_step camdict cam1 Hp Ho) as [pl Hpl].
    unfold CamM.bind at 1. rewrite Hpl.
    unfold float_field, PyDict.item. cam_unfold. rewrite Hf. reflexivity.
Qed.

(** C5, what the code does. With a valid header and a well-formed
    position, an orientation field of exactly three numeric tokens makes
    the parser raise [IndexError], which no handler of the parser turns
    into the value error of the other malformed inputs. *)
Theorem orientation_three_tokens_IndexError :
  forall camstr tok line rest cam a b c axis,
    camdata_of camstr = Return ((tok :: line) :: rest) ->
    PyStr.str_in (PyStr.slice_0_m6 tok) PROJECTIONENUM = true ->
    position_ok (camdict_of ((tok :: line) :: rest)) ->
    PyDict.get (camdict_of ((tok :: line) :: rest)) "orientation"
    = Some [a; b; c] ->
    App_Vector [a; b; c] = Return axis ->
    fst (RenderCamera.set_cam_from_coin_string camstr cam)
    = Raise (IndexError "list index out of range").
Proof.
  intros camstr tok line rest cam a b c axis Hdata Hhdr Hp Ho Haxis.
  unfold RenderCamera.set_cam_from_coin_string.
  enter_parser Hdata Hhdr tok line rest cam header_step.
  set (camdict := camdict_of _) in *.
  set (cam1 := snd _).
  unfold CamM.bind at 1. unfold CamM.try_except_KeyError at 1.
  destruct Hp as (l & v & Hl & Hv).
  unfold set_placement_from, PyDict.item, list_item. cam_unfold.
  rewrite Hl, Hv, Ho. simpl firstn. rewrite Haxis. reflexivity.
Qed.

Lemma aspect_step camdict cam :
  optional_float_ok camdict "aspectRatio" ->
  exists v,
    CamM.try_except_KeyError
      (v <- CamM.lift (float_field camdict "aspectRatio") ;;
       CamM.set_AspectRatio v)%cam
      (fun _ => CamM.set_AspectRatio fone) cam
    = (Return tt, snd (CamM.set_AspectRatio v cam))
    /\ (PyDict.get camdict "aspectRatio" = None -> v = fone).
Proof.
  intros [Habs | [x Hx]].
  - exists fone. split; [|reflexivity].
    unfold float_field, PyDict.item. cam_unfold. rewrite Habs. reflexivity.
  - exists x. split.
    + cam_unfold. rewrite Hx. reflexivity.
    + intros Habs. unfold float_field, PyDict.item in Hx.
      rewrite Habs in Hx. discriminate.
Qed.

Lemma viewport_step camdict cam :
  (PyDict.get camdict "viewportMapping" = None
   \/ exists v l, PyDict.get camdict "viewportMapping" = Some (v :: l)) ->
  exists v,
    CamM.try_except_KeyError
      (l <- CamM.lift (PyDict.item camdict "viewportMapping") ;;
       v <- CamM.lift (list_item l 0) ;;
       CamM.set_ViewportMapping v)%cam
      (fun _ => CamM.set_ViewportMapping "ADJUST_CAMERA") cam
    = (Return tt, snd (CamM.set_ViewportMapping v cam))
    /\ (PyDict.get camdict "viewportMapping" = None -> v = "ADJUST_CAMERA").
Proof.
  intros [Habs | (v & l & Hv)].
  - exists "ADJUST_CAMERA". split; [|reflexivity].
    unfold PyDict.item. cam_unfold. rewrite Habs. reflexivity.
  - exists v. split.
    + unfold PyDict.item. cam_unfold. rewrite Hv. reflexivity.
    + intros Habs. rewrite Habs in Hv. discriminate.
Qed.

Lemma near_far_step camdict cam :
  optional_float_ok camdict "nearDistance" ->
  optional_float_ok camdict "farDistance" ->
  exists n f,
    set_near_far_from camdict cam
    = (Return tt, snd (CamM.set_FarDistance f (snd (CamM.set_NearDistance n cam)))).
Proof.
  intros Hn Hf. unfold set_near_far_from.
  destruct Hn as [Hn | [n Hn]]; destruct Hf as [Hf | [f Hf]].
  - exists (NearDistance cam), (FarDistance cam).
    unfold float_field, PyDict.item. cam_unfold. rewrite Hn, Hf.
    now destruct cam.
  - exists (NearDistance cam), f.
    unfold float_field at 1. unfold PyDict.item. cam_unfold.
    rewrite Hn, Hf. now destruct cam.
  - exists n, (FarDistance cam).
    unfold float_field at 2. unfold PyDict.item. cam_unfold.
    rewrite Hn, Hf. now destruct cam.
  - exists n, f. cam_unfold. rewrite Hn, Hf. reflexivity.
Qed.

Lemma projection_cases (p : string) :
  PyStr.str_in p PROJECTIONENUM = true -> p = "Perspective" \/ p = "Orthographic".
Proof.
  unfold PyStr.str_in, PROJECTIONENUM. simpl. rewrite orb_false_r.
  intros Hp. apply orb_true_iff in Hp as [Hp|Hp]; apply String.eqb_eq in Hp;
    auto.
Qed.

Lemma height_step camdict cam :
  PyStr.str_in (Projection cam) PROJECTIONENUM = true ->
  (Projection cam = "Orthographic" -> float_field_ok camdict "height") ->
  (Projection cam = "Perspective" -> float_field_ok camdict "heightAngle") ->
  exists h a,
    set_height_from camdict cam
    = (Return tt, snd (CamM.set_HeightAngle a (snd (CamM.set_Height h cam)))).
Proof.
  intros Hp Ho Hpe. unfold set_height_from.
  destruct (projection_cases _ Hp) as [E | E].
  - destruct (Hpe E) as [x Hx]. exists (Height cam), (degrees x).
    cam_unfold. rewrite E. simpl. rewrite Hx. now destruct cam.
  - destruct (Ho E) as [x Hx]. exists x, (HeightAngle cam).
    cam_unfold. rewrite E. simpl. rewrite Hx. now destruct cam.
Qed.

Lemma render_parse_defaults_run camstr camdata cam :
  camdata_of camstr = Return camdata ->
  well_formed camdata ->
  exists cam',
    RenderCamera.set_cam_from_coin_string camstr cam = (Return tt, cam')
    /\ (PyDict.get (camdict_of camdata) "aspectRatio" = None ->
        AspectRatio cam' = fone)
    /\ (PyDict.get (camdict_of camdata) "viewportMapping" = None ->
        ViewportMapping cam' = "ADJUST_CAMERA").
Proof.
  intros Hdata
    (tok & line & rest & -> & Hhdr & Hp & Ho & Hf & Ha & Hv & Hn & Hfar & Hh & Hha).
  unfold RenderCamera.set_cam_from_coin_string.
  enter_parser Hdata Hhdr tok line rest cam header_step.
  set (camdict := camdict_of _) in *.
  set (cam1 := snd _).
  unfold CamM.bind at 1. unfold CamM.try_except_KeyError at 1.
  destruct (required_step_run camdict cam1 Hp Ho Hf) as (pl & fd & ->).
  set (cam2 := snd _).
  unfold CamM.bind at 1.
  destruct (aspect_step camdict cam2 Ha) as (va & -> & Hva).
  set (cam3 := snd _).
  unfold CamM.bind at 1.
  destruct (viewport_step camdict cam3 Hv) as (vv & -> & Hvv).
  set (cam4 := snd _).
  unfold CamM.bind at 1.
  destruct (near_far_step camdict cam4 Hn Hfar) as (n & f & ->).
  set (cam5 := snd _).
  destruct (height_step camdict cam5) as (h & a & ->); [exact Hhdr | exact Hh | exact Hha |].
  eexists. split; [reflexivity|]. simpl. split; assumption.
Qed.


(** The older parser reads aspectRatio and viewportMapping in the block of
    the required fields: the first of the two that is absent is reported
    as missing. *)
Lemma legacy_parse_requires camstr camdata cam :
  camdata_of camstr = Return camdata ->
  well_formed camdata ->
  (PyDict.get (camdict_of camdata) "aspectRatio" = None ->
   fst (LegacyCamera.set_cam_from_coin_string camstr cam)
   = Raise (missing_field "aspectRatio"))
  /\ (PyDict.get (camdict_of camdata) "aspectRatio" <> None ->
      PyDict.get (camdict_of camdata) "viewportMapping" = None ->
      fst (LegacyCamera.set_cam_from_coin_string camstr cam)
      = Raise (missing_field "viewportMapping")).
Proof.
  intros Hdata
    (tok & line & rest & -> & Hhdr & Hp & Ho & Hf & Ha & Hv & _).
  destruct Hf as [fd Hfd].
  split; [intros Habs | intros Hpres Habs];
    unfold LegacyCamera.set_cam_from_coin_string;
    enter_parser Hdata Hhdr tok line rest cam header_step;
    set (camdict := camdict_of _) in *;
    set (cam1 := snd _);
    unfold CamM.bind at 1; unfold CamM.try_except_KeyError at 1;
    destruct (placement_step camdict cam1 Hp Ho) as [pl Hpl];
    unfold CamM.bind at 1; rewrite Hpl;
    unfold CamM.bind at 1; unfold CamM.lift at 1; rewrite Hfd;
    unfold CamM.bind at 1; unfold CamM.set_FocalDistance at 1.
  - unfold float_field, PyDict.item. cam_unfold.
    rewrite Habs. reflexivity.
  - destruct Ha as [Ha | [x Hx]]; [contradiction|].
    unfold PyDict.item. cam_unfold. rewrite Hx, Habs. reflexivity.
Qed.

(** C6, as the code has it. On a well-formed camera string the parser of
    [src/Render/camera.py] succeeds; when aspectRatio is absent the camera
    gets the aspect ratio 1.0, and when viewportMapping is absent it gets
    "ADJUST_CAMERA". The parser of [src/camera.py] raises the missing-field
    error for aspectRatio when that is absent, and for viewportMapping when
    only that is absent. *)
Theorem parse_defaults_by_version :
  forall camstr camdata cam,
    camdata_of camstr = Return camdata ->
    well_formed camdata ->
    (exists cam',
       RenderCamera.set_cam_from_coin_string camstr cam = (Return tt, cam')
       /\ (PyDict.get (camdict_of camdata) "aspectRatio" = None ->
           AspectRatio cam' = fone)
       /\ (PyDict.get (camdict_of camdata) "viewportMapping" = None ->
           ViewportMapping cam' = "ADJUST_CAMERA"))
    /\ (PyDict.get (camdict_of camdata) "aspectRatio" = None ->
        fst (LegacyCamera.set_cam_from_coin_string camstr cam)
        = Raise (ValueError "Missing field in camera string: 'aspectRatio'"))
    /\ (PyDict.get (camdict_of camdata) "aspectRatio" <> None ->
        PyDict.get (camdict_of camdata) "viewportMapping" = None ->
        fst (LegacyCamera.set_cam_from_coin_string camstr cam)
        = Raise (ValueError "Missing field in camera string: 'viewportMapping'")).
Proof.
  intros camstr camdata cam Hdata Hwf. split.
  - now apply render_parse_defaults_run.
  - exact (legacy_parse_requires camstr camdata cam Hdata Hwf).
Qed.

(** With fewer than three orientation tokens it is the host's vector
    constructor that rejects the sequence. *)
Lemma orientation_too_short_for_vector :
  forall camstr tok line rest cam ol,
    camdata_of camstr = Return ((tok :: line) :: rest) ->
    PyStr.str_in (PyStr.slice_0_m6 tok) PROJECTIONENUM = true ->
    position_ok (camdict_of ((tok :: line) :: rest)) ->
    PyDict.get (camdict_of ((tok :: line) :: rest)) "orientation" = Some ol ->
    List.length ol < 3 ->
    fst (RenderCamera.set_cam_from_coin_string camstr cam)
    = Raise (ValueError "Expected sequence of size 3").
Proof.
  intros camstr tok line rest cam ol Hdata Hhdr Hp Ho Hlen.
  unfold RenderCamera.set_cam_from_coin_string.
  enter_parser Hdata Hhdr tok line rest cam header_step.
  set (camdict := camdict_of _) in *.
  set (cam1 := snd _).
  unfold CamM.bind at 1. unfold CamM.try_except_KeyError at 1.
  destruct Hp as (l & v & Hl & Hv).
  unfold set_placement_from, PyDict.item. cam_unfold.
  rewrite Hl, Hv, Ho.
  destruct ol as [|a [|b [|c ol]]]; simpl in Hlen; try lia; reflexivity.
Qed.

End ParserProps.

(** ** The parser on concrete strings *)

(** C3, against the specification's wording: the leading token "PerspectiveCamerb"
    does not end in "Camera", and the parser accepts the string as a
    Perspective camera. *)
Lemma header_suffix_unchecked :
  spec_header_ok "PerspectiveCamerb" = false
  /\ camdata_of bad_suffix_string
     = Return [["PerspectiveCamerb"; "{"]; ["position"; "0"; "0"; "0"];
               ["orientation"; "0"; "0"; "1"; "0"]; ["focalDistance"; "5"];
               ["heightAngle"; "1"]; ["}"]]
  /\ fst (@RenderCamera.set_cam_from_coin_string IntFloat IntHost
            bad_suffix_string example_camera) = Return tt
  /\ Projection (snd (@RenderCamera.set_cam_from_coin_string IntFloat IntHost
                        bad_suffix_string example_camera)) = "Perspective".
Proof.
  split; [vm_compute; reflexivity|]. split; [vm_compute; reflexivity|].
  split; vm_compute; reflexivity.
Qed.

Lemma invalid_header_rejected_witness :
  @RenderCamera.set_cam_from_coin_string IntFloat IntHost spotlight_string
    example_camera
  = (Raise (AssertionError "Invalid camera header in camera string"),
     snd (CamM.set_Projection (PyStr.slice_0_m6 "SpotLight") example_camera)).
Proof.
  apply (@invalid_header_rejected IntFloat IntHost spotlight_string
           "SpotLight" ["{"] [["position"; "0"; "0"; "0"]; ["}"]]).
  - vm_compute. reflexivity.
  - vm_compute. reflexivity.
Defined.

(** C4, against the specification's wording: the header is valid and focalDistance
    is absent, yet the error is the one of the unreadable orientation
    angle, met first, and it does not name focalDistance. *)
Lemma missing_field_not_always_named :
  camdata_of no_focal_bad_angle_string
  = Return [["OrthographicCamera"; "{"]; ["position"; "0"; "0"; "0"];
            ["orientation"; "0"; "0"; "1"; "x"]; ["height"; "5"]; ["}"]]
  /\ PyStr.str_in (PyStr.slice_0_m6 "OrthographicCamera") PROJECTIONENUM = true
  /\ PyDict.get
       (camdict_of [["OrthographicCamera"; "{"]; ["position"; "0"; "0"; "0"];
                    ["orientation"; "0"; "0"; "1"; "x"]; ["height"; "5"];
                    ["}"]]) "focalDistance" = None
  /\ fst (@RenderCamera.set_cam_from_coin_string IntFloat IntHost
            no_focal_bad_angle_string example_camera)
     = Raise (ValueError "could not convert string to float: 'x'").
Proof.
  split; [vm_compute; reflexivity|]. split; [vm_compute; reflexivity|].
  split; vm_compute; reflexivity.
Qed.

Lemma missing_required_field_named_witness :
  fst (@RenderCamera.set_cam_from_coin_string IntFloat IntHost
         no_position_string example_camera)
  = Raise (ValueError ("Missing field in camera string: '" +:+ "position" +:+ "'")).
Proof.
  apply (@missing_required_field_named IntFloat IntHost no_position_string
           "PerspectiveCamera" ["{"]
           [["orientation"; "0"; "0"; "1"; "0"]; ["focalDistance"; "5"];
            ["heightAngle"; "1"]; ["}"]]).
  - vm_compute. reflexivity.
  - vm_compute. reflexivity.
  - apply absent_position. vm_compute. reflexivity.
Defined.

Lemma orientation_three_tokens_IndexError_witness :
  fst (@RenderCamera.set_cam_from_coin_string IntFloat IntHost
         short_orientation_string example_camera)
  = Raise (IndexError "list index out of range").
Proof.
  apply (@orientation_three_tokens_IndexError IntFloat IntHost
           short_orientation_string "PerspectiveCamera" ["{"]
           [["position"; "0"; "0"; "0"]; ["orientation"; "0"; "0"; "1"];
            ["focalDistance"; "5"]; ["heightAngle"; "1"]; ["}"]]
           example_camera "0" "0" "1" (@mkVector IntFloat 0%Z 0%Z 1%Z)).
  - vm_compute. reflexivity.
  - vm_compute. reflexivity.
  - exists ["0"; "0"; "0"], (@mkVector IntFloat 0%Z 0%Z 0%Z).
    split; vm_compute; reflexivity.
  - vm_compute. reflexivity.
  - vm_compute. reflexivity.
Defined.

Lemma minimal_camera_well_formed : @well_formed IntFloat minimal_camera_data.
Proof.
  exists "OrthographicCamera", ["{"], (tl minimal_camera_data).
  split; [reflexivity|].
  split; [vm_compute; reflexivity|].
  split.
  { exists ["-0"; "-0"; "100"], (@mkVector IntFloat 0%Z 0%Z 100%Z).
    split; vm_compute; reflexivity. }
  split.
  { exists ["0"; "0"; "1"; "0"], (@mkVector IntFloat 0%Z 0%Z 1%Z), "0", 0%Z.
    repeat split; vm_compute; reflexivity. }
  split; [exists 100%Z; vm_compute; reflexivity|].
  split; [left; vm_compute; reflexivity|].
  split; [left; vm_compute; reflexivity|].
  split; [left; vm_compute; reflexivity|].
  split; [left; vm_compute; reflexivity|].
  split.
  - intros _. exists 100%Z. vm_compute. reflexivity.
  - vm_compute. discriminate.
Qed.

(** C6, against the specification on [src/camera.py]: a well-formed string without
    aspectRatio is an error for the older parser. *)
Lemma legacy_requires_aspect_ratio :
  camdata_of minimal_camera_string = Return minimal_camera_data
  /\ @well_formed IntFloat minimal_camera_data
  /\ PyDict.get (camdict_of minimal_camera_data) "aspectRatio" = None
  /\ fst (@LegacyCamera.set_cam_from_coin_string IntFloat IntHost
            minimal_camera_string example_camera)
     = Raise (ValueError "Missing field in camera string: 'aspectRatio'").
Proof.
  split; [vm_compute; reflexivity|].
  split; [exact minimal_camera_well_formed|].
  split; vm_compute; reflexivity.
Qed.

Lemma parse_defaults_by_version_witness :
  (exists cam',
     @RenderCamera.set_cam_from_coin_string IntFloat IntHost
       minimal_camera_string example_camera = (Return tt, cam')
     /\ (PyDict.get (camdict_of minimal_camera_data) "aspectRatio" = None ->
         AspectRatio cam' = 1%Z)
     /\ (PyDict.get (camdict_of minimal_camera_data) "viewportMapping" = None ->
         ViewportMapping cam' = "ADJUST_CAMERA"))
  /\ (PyDict.get (camdict_of minimal_camera_data) "aspectRatio" = None ->
      fst (@LegacyCamera.set_cam_from_coin_string IntFloat IntHost
             minimal_camera_string example_camera)
      = Raise (ValueError "Missing field in camera string: 'aspectRatio'"))
  /\ (PyDict.get (camdict_of minimal_camera_data) "aspectRatio" <> None ->
      PyDict.get (camdict_of minimal_camera_data) "viewportMapping" = None ->
      fst (@LegacyCamera.set_cam_from_coin_string IntFloat IntHost
             minimal_camera_string example_camera)
      = Raise (ValueError "Missing field in camera string: 'viewportMapping'")).
Proof.
  apply (@parse_defaults_by_version IntFloat IntHost minimal_camera_string
           minimal_camera_data example_camera).
  - vm_compute. reflexivity.
  - exact minimal_camera_well_formed.
Defined.

(** ** Text without a given opening *)

Lemma clash_app (w s t : string) :
  clash w s = true -> clash w (s +:+ t) = true.
Proof.
  revert s. induction w as [|a w IH]; intros s; simpl; [discriminate|].
  destruct s as [|b s]; simpl; [discriminate|].
  destruct (Ascii.eqb a b); [apply IH | reflexivity].
Qed.

Lemma guarded_app (c : ascii) (w a b : string) :
  guarded c w a = true -> guarded c w b = true ->
  guarded c w (a +:+ b) = true.
Proof.
  intros Ha Hb. induction a as [|x a IH]; simpl in *; [exact Hb|].
  apply andb_true_iff in Ha as [Hx Ha].
  rewrite (IH Ha), andb_true_r.
  destruct (Ascii.eqb x c); [now apply clash_app | reflexivity].
Qed.

Lemma clash_startswith (w s : string) :
  clash w s = true -> PyStr.startswith w s = false.
Proof.
  revert s. induction w as [|a w IH]; intros s; simpl; [discriminate|].
  destruct s as [|b s]; [reflexivity|].
  destruct (Ascii.eqb a b); simpl; [apply IH | reflexivity].
Qed.

Lemma guarded_no_contains (c : ascii) (w s : string) :
  guarded c w s = true -> PyStr.contains (String c w) s = false.
Proof.
  induction s as [|x s IH]; simpl; [reflexivity|].
  intros Hs. apply andb_true_iff in Hs as [Hx Hs].
  rewrite (IH Hs), orb_false_r.
  rewrite Ascii.eqb_sym.
  destruct (Ascii.eqb x c); simpl; [now apply clash_startswith | reflexivity].
Qed.

Lemma guarded_without (c : ascii) (w s : string) :
  PyStr.all_chars (fun x => negb (Ascii.eqb x c)) s = true ->
  guarded c w s = true.
Proof.
  induction s as [|x s IH]; simpl; [reflexivity|].
  intros Hs. apply andb_true_iff in Hs as [Hx Hs].
  rewrite (IH Hs), andb_true_r.
  now destruct (Ascii.eqb x c).
Qed.

Lemma guarded_join (c : ascii) (w sep : string) (ls : list string) :
  guarded c w sep = true ->
  Forall (fun l => guarded c w l = true) ls ->
  guarded c w (PyStr.join sep ls) = true.
Proof.
  intros Hsep Hls. induction Hls as [|l ls Hl Hls IH]; [reflexivity|].
  destruct ls as [|l' ls]; [exact Hl|].
  change (PyStr.join sep (l :: l' :: ls))
    with (l +:+ sep +:+ PyStr.join sep (l' :: ls)).
  now repeat apply guarded_app.
Qed.

(** ** [format] *)

Lemma format_app (t1 t2 : list Cycles.piece) (kw : PyDict.dict string) :
  Cycles.format (t1 ++ t2) kw
  = rbind (Cycles.format t1 kw) (fun a =>
    rmap (String.append a) (Cycles.format t2 kw)).
Proof.
  induction t1 as [|[text|name] t1 IH]; simpl.
  - destruct (Cycles.format t2 kw); reflexivity.
  - rewrite IH. destruct (Cycles.format t1 kw); simpl; [|reflexivity].
    destruct (Cycles.format t2 kw); simpl; [|reflexivity].
    now rewrite append_assoc.
  - destruct (PyDict.item kw name); simpl; [|reflexivity].
    rewrite IH. destruct (Cycles.format t1 kw); simpl; [|reflexivity].
    destruct (Cycles.format t2 kw); simpl; [|reflexivity].
    now rewrite append_assoc.
Qed.

Lemma format_guarded (c : ascii) (w : string) (template : list Cycles.piece)
  (kw : PyDict.dict string) (text : string) :
  Cycles.format template kw = Return text ->
  lits_guarded c w template = true ->
  (forall k v, PyDict.get kw k = Some v -> guarded c w v = true) ->
  guarded c w text = true.
Proof.
  intros Hf Hl Hkw. revert text Hf.
  induction template as [|[lit|name] template IH]; intros text; simpl.
  - now intros [= <-].
  - simpl in Hl. apply andb_true_iff in Hl as [Hlit Hl].
    destruct (Cycles.format template kw) as [rest|]; simpl; [|discriminate].
    intros [= <-]. apply guarded_app; auto.
  - simpl in Hl. unfold PyDict.item.
    destruct (PyDict.get kw name) as [v|] eqn:Hv; simpl; [|discriminate].
    destruct (Cycles.format template kw) as [rest|]; simpl; [|discriminate].
    intros [= <-]. apply guarded_app; eauto.
Qed.

(** ** The integer instance satisfies the laws *)

Lemma uint_chars (d : uint) :
  PyStr.all_chars float_char (NilEmpty.string_of_uint d) = true.
Proof.
  induction d; simpl; [reflexivity | rewrite IHd; reflexivity ..].
Qed.

Lemma str_int_chars (z : Z) : PyStr.all_chars float_char (PyStr.str_int z) = true.
Proof.
  unfold PyStr.str_int, NilZero.string_of_int.
  destruct (Z.to_int z) as [d|d].
  - unfold NilZero.string_of_uint. destruct d; try apply uint_chars. reflexivity.
  - simpl. unfold NilZero.string_of_uint.
    destruct d; try apply uint_chars. reflexivity.
Qed.

Lemma str_int_nonempty (z : Z) : PyStr.str_int z <> "".
Proof.
  unfold PyStr.str_int, NilZero.string_of_int, NilZero.string_of_uint.
  destruct (Z.to_int z) as [d|d]; [|discriminate].
  destruct d; simpl; discriminate.
Qed.

Lemma to_int_not_nil (z : Z) : Z.to_int z <> Pos Nil /\ Z.to_int z <> Neg Nil.
Proof.
  destruct z as [|p|p]; simpl; split; try discriminate;
    intros [= E]; now apply (DecimalPos.Unsigned.to_uint_nonnil p).
Qed.

Lemma int_of_str_int (z : Z) :
  option_map Z.of_int (NilZero.int_of_string (PyStr.str_int z)) = Some z.
Proof.
  unfold PyStr.str_int.
  destruct (to_int_not_nil z) as [Hp Hn].
  rewrite (NilZero.isi _ Hp Hn). simpl. now rewrite DecimalZ.of_to.
Qed.

Lemma IntFloat_laws : PyFloatLaws IntFloat.
Proof.
  constructor; simpl.
  - exact str_int_nonempty.
  - exact str_int_chars.
  - exact int_of_str_int.
  - reflexivity.
Qed.


Lemma float_char_not_lt (c : ascii) :
  float_char c = true -> negb (Ascii.eqb c "<") = true.
Proof.
  destruct (Ascii.eqb_spec c "<") as [->|]; [discriminate | reflexivity].
Qed.

Lemma format_defined (template : list Cycles.piece) (kw : PyDict.dict string) :
  fields_bound template kw = true ->
  exists text, Cycles.format template kw = Return text.
Proof.
  induction template as [|[lit|name] template IH]; simpl.
  - intros _. now exists "".
  - intros Hb. destruct (IH Hb) as [rest ->]. simpl. eauto.
  - unfold PyDict.item. destruct (PyDict.get kw name); [|discriminate].
    intros Hb. destruct (IH Hb) as [rest ->]. simpl. eauto.
Qed.

Lemma format_snippet2b (kw : PyDict.dict string) (name : string) :
  PyDict.get kw "n" = Some name ->
  Cycles.format Cycles.snippet2b kw
  = Return ((PyStr.nl +:+ "        ")
            +:+ ("<connect from=" +:+ Cycles.dq +:+ name +:+ "_bsdf bsdf"
                 +:+ Cycles.dq +:+ "   to=" +:+ Cycles.dq +:+ "output surface"
                 +:+ Cycles.dq +:+ "/>")
            +:+ (PyStr.nl +:+ "    </shader>")).
Proof.
  intros Hn. unfold Cycles.snippet2b. simpl Cycles.format.
  unfold PyDict.item. rewrite Hn. simpl rbind. unfold rmap, rbind.
  f_equal. rewrite !append_assoc. reflexivity.
Qed.

Lemma format_snippet2a (kw : PyDict.dict string) (name a : string) :
  PyDict.get kw "n" = Some name ->
  PyDict.get kw "a" = Some a ->
  Cycles.format Cycles.snippet2a kw
  = Return ((PyStr.nl +:+ "        ")
            +:+ ("<transparent_bsdf name=" +:+ Cycles.dq +:+ name +:+ "_trans"
                 +:+ Cycles.dq)
            +:+ (" color=" +:+ Cycles.dq +:+ "1.0, 1.0, 1.0" +:+ Cycles.dq
                 +:+ "/>" +:+ PyStr.nl +:+ "        ")
            +:+ ("<mix_closure name=" +:+ Cycles.dq +:+ name +:+ "_mix"
                 +:+ Cycles.dq +:+ " fac=" +:+ Cycles.dq +:+ a +:+ Cycles.dq
                 +:+ "/>")
            +:+ (PyStr.nl +:+ "        <connect from=" +:+ Cycles.dq +:+ name
                 +:+ "_trans bsdf" +:+ Cycles.dq +:+ "  to=" +:+ Cycles.dq
                 +:+ name +:+ "_mix closure1" +:+ Cycles.dq +:+ "/>" +:+ PyStr.nl
                 +:+ "        <connect from=" +:+ Cycles.dq +:+ name
                 +:+ "_bsdf bsdf" +:+ Cycles.dq +:+ "   to=" +:+ Cycles.dq
                 +:+ name +:+ "_mix closure2" +:+ Cycles.dq +:+ "/>" +:+ PyStr.nl
                 +:+ "        <connect from=" +:+ Cycles.dq +:+ name
                 +:+ "_mix closure" +:+ Cycles.dq +:+ " to=" +:+ Cycles.dq
                 +:+ "output surface" +:+ Cycles.dq +:+ "/>" +:+ PyStr.nl
                 +:+ "    </shader>")).
Proof.
  intros Hn Ha. unfold Cycles.snippet2a. simpl Cycles.format.
  unfold PyDict.item. rewrite Hn, Ha. simpl rbind. unfold rmap, rbind.
  f_equal. rewrite !append_assoc. reflexivity.
Qed.

Section EmitterProps.
Context {F : PyFloat} {L : PyFloatLaws F}.

Lemma str_float_guarded (w : string) (x : float) :
  guarded "<" w (str_float x) = true.
Proof.
  apply guarded_without.
  apply (all_chars_weaken float_char); [exact float_char_not_lt|].
  apply str_float_chars.
Qed.

Lemma str_int_guarded (w : string) (z : Z) :
  guarded "<" w (PyStr.str_int z) = true.
Proof.
  apply guarded_without.
  apply (all_chars_weaken float_char); [exact float_char_not_lt|].
  apply str_int_chars.
Qed.

Lemma write_object_kw_guarded (w name : string) (mesh : Cycles.Mesh)
  (c0 c1 c2 alpha : float) :
  no_lt name = true ->
  forall k v,
    PyDict.get
      [ ("n", name);
        ("c[0]", str_float c0); ("c[1]", str_float c1); ("c[2]", str_float c2);
        ("a", str_float alpha);
        ("p", PyStr.join "  " (map Cycles.format_point (fst (Cycles.Topology mesh))));
        ("i", PyStr.join "  "
                (repeat "3" (List.length (map Cycles.format_vert
                                            (snd (Cycles.Topology mesh))))));
        ("v", PyStr.join "  " (map Cycles.format_vert (snd (Cycles.Topology mesh)))) ]
      k = Some v ->
    guarded "<" w v = true.
Proof.
  intros Hname k v. simpl.
  repeat (destruct (String.eqb k _);
          [intros [= <-]; try apply str_float_guarded | ]); try discriminate.
  - now apply guarded_without.
  - apply guarded_join; [reflexivity|].
    apply Forall_forall. intros l Hl. apply in_map_iff in Hl as (p & <- & _).
    unfold Cycles.format_point.
    repeat apply guarded_app; try apply str_float_guarded; reflexivity.
  - apply guarded_join; [reflexivity|].
    apply Forall_forall. intros l Hl. apply repeat_spec in Hl as ->. reflexivity.
  - apply guarded_join; [reflexivity|].
    apply Forall_forall. intros l Hl.
    apply in_map_iff in Hl as ([[a b] c] & <- & _).
    unfold Cycles.format_vert.
    repeat apply guarded_app; try apply str_int_guarded; reflexivity.
Qed.

(** C7, as the code has it. For a mesh object whose name has no [<]:
    when alpha is 1.0 the
    text [write_object] emits has no transparent_bsdf and no mix_closure
    element, and connects the diffuse node to the output; when alpha is
    below 1.0 it has the transparent_bsdf node and the mix_closure node,
    with alpha as the mix factor. *)
Theorem write_object_shader_graph :
  forall (name : string) (mesh : Cycles.Mesh) (color : float * float * float)
         (alpha : float),
    no_lt name = true ->
    (alpha = fone ->
     exists text,
       Cycles.write_object name mesh color alpha = Return text
       /\ PyStr.contains "<transparent_bsdf" text = false
       /\ PyStr.contains "<mix_closure" text = false
       /\ PyStr.contains
            ("<connect from=" +:+ Cycles.dq +:+ name +:+ "_bsdf bsdf" +:+ Cycles.dq
             +:+ "   to=" +:+ Cycles.dq +:+ "output surface" +:+ Cycles.dq +:+ "/>")
            text = true)
    /\ (fltb alpha fone = true ->
        exists text,
          Cycles.write_object name mesh color alpha = Return text
          /\ PyStr.contains
               ("<transparent_bsdf name=" +:+ Cycles.dq +:+ name +:+ "_trans"
                +:+ Cycles.dq) text = true
          /\ PyStr.contains
               ("<mix_closure name=" +:+ Cycles.dq +:+ name +:+ "_mix"
                +:+ Cycles.dq +:+ " fac=" +:+ Cycles.dq +:+ str_float alpha
                +:+ Cycles.dq +:+ "/>") text = true).
Proof.
  intros name mesh [[c0 c1] c2] alpha Hname.
  unfold Cycles.write_object.
  set (kw := [("n", name); _; _; _; _; _; _; _]).
  assert (Hkw : forall w k v, PyDict.get kw k = Some v -> guarded "<" w v = true).
  { intros w. now apply write_object_kw_guarded. }
  destruct (format_defined Cycles.snippet1 kw eq_refl) as [s1 H1].
  destruct (format_defined Cycles.snippet3 kw eq_refl) as [s3 H3].
  split.
  - intros ->. rewrite fltb_one_one.
    pose proof (format_snippet2b kw name eq_refl) as H2.
    rewrite !format_app, H1, H2, H3. unfold rbind, rmap.
    eexists. split; [reflexivity|].
    assert (Hg : forall w s2,
               Cycles.format Cycles.snippet2b kw = Return s2 ->
               lits_guarded "<" w Cycles.snippet1 = true ->
               lits_guarded "<" w Cycles.snippet2b = true ->
               lits_guarded "<" w Cycles.snippet3 = true ->
               guarded "<" w (s1 +:+ s2 +:+ s3) = true).
    { intros w s2 E2 G1 G2 G3. apply guarded_app; [|apply guarded_app].
      - exact (format_guarded _ _ _ _ _ H1 G1 (Hkw w)).
      - exact (format_guarded _ _ _ _ _ E2 G2 (Hkw w)).
      - exact (format_guarded _ _ _ _ _ H3 G3 (Hkw w)). }
    split; [|split].
    + apply guarded_no_contains. apply (Hg _ _ H2); reflexivity.
    + apply guarded_no_contains. apply (Hg _ _ H2); reflexivity.
    + apply contains_app_r, contains_app_l, contains_intro.
  - intros Hlt. rewrite Hlt.
    pose proof (format_snippet2a kw name (str_float alpha) eq_refl eq_refl) as H2.
    rewrite !format_app, H1, H2, H3. unfold rbind, rmap.
    eexists. split; [reflexivity|]. split.
    + apply contains_app_r, contains_app_l, contains_intro.
    + apply contains_app_r, contains_app_l.
      do 2 apply contains_app_r. apply contains_intro.
Qed.

End EmitterProps.

Lemma write_object_shader_graph_witness :
  (exists text,
     @Cycles.write_object IntFloat "Box" example_mesh (1%Z, 0%Z, 0%Z) 1%Z
     = Return text
     /\ PyStr.contains "<transparent_bsdf" text = false
     /\ PyStr.contains "<mix_closure" text = false
     /\ PyStr.contains
          ("<connect from=" +:+ Cycles.dq +:+ "Box" +:+ "_bsdf bsdf" +:+ Cycles.dq
           +:+ "   to=" +:+ Cycles.dq +:+ "output surface" +:+ Cycles.dq +:+ "/>")
          text = true)
  /\ (exists text,
        @Cycles.write_object IntFloat "Box" example_mesh (1%Z, 0%Z, 0%Z) 0%Z
        = Return text
        /\ PyStr.contains
             ("<transparent_bsdf name=" +:+ Cycles.dq +:+ "Box" +:+ "_trans"
              +:+ Cycles.dq) text = true
        /\ PyStr.contains
             ("<mix_closure name=" +:+ Cycles.dq +:+ "Box" +:+ "_mix"
              +:+ Cycles.dq +:+ " fac=" +:+ Cycles.dq +:+ "0"
              +:+ Cycles.dq +:+ "/>") text = true).
Proof.
  split.
  - apply (proj1 (@write_object_shader_graph IntFloat IntFloat_laws "Box"
                    example_mesh (1%Z, 0%Z, 0%Z) 1%Z eq_refl)).
    reflexivity.
  - apply (proj2 (@write_object_shader_graph IntFloat IntFloat_laws "Box"
                    example_mesh (1%Z, 0%Z, 0%Z) 0%Z eq_refl)).
    reflexivity.
Defined.

(** C7, against the specification's wording: the name of the object is written
    into the text as it is, so an object named with the opening of a
    transparent_bsdf element has that opening in its text although its
    alpha is 1.0. *)
Lemma write_object_name_not_escaped :
  exists text,
    @Cycles.write_object IntFloat "<transparent_bsdf" example_mesh
      (1%Z, 0%Z, 0%Z) 1%Z = Return text
    /\ PyStr.contains "<transparent_bsdf" text = true.
Proof.
  exists (match @Cycles.write_object IntFloat "<transparent_bsdf" example_mesh
                  (1%Z, 0%Z, 0%Z) 1%Z with
          | Return text => text
          | Raise _ => ""
          end).
  split; vm_compute; reflexivity.
Qed.

Lemma format_sunsky (kw : PyDict.dict string) (name t dx dy dz : string) :
  PyDict.get kw "n" = Some name ->
  PyDict.get kw "t" = Some t ->
  PyDict.get kw "d.x" = Some dx ->
  PyDict.get kw "d.y" = Some dy ->
  PyDict.get kw "d.z" = Some dz ->
  exists pre post,
    Cycles.format Cycles.sunsky_snippet kw
    = Return (pre
              +:+ ("sun_direction=" +:+ Cycles.dq +:+ dx +:+ ", " +:+ dy +:+ ", "
                   +:+ dz +:+ Cycles.dq)
              +:+ post).
Proof.
  intros Hn Ht Hx Hy Hz.
  exists (PyStr.nl +:+ "    <!-- Generated by FreeCAD - Sun_sky light '" +:+ name
          +:+ "' -->" +:+ PyStr.nl
          +:+ "    <background name=" +:+ Cycles.dq +:+ "sky_bg" +:+ Cycles.dq
          +:+ ">" +:+ PyStr.nl
          +:+ "          <background name=" +:+ Cycles.dq +:+ "sky_bg"
          +:+ Cycles.dq +:+ " />" +:+ PyStr.nl
          +:+ "          <sky_texture name=" +:+ Cycles.dq +:+ "sky_tex"
          +:+ Cycles.dq +:+ PyStr.nl
          +:+ "                       type=" +:+ Cycles.dq +:+ "hosek_wilkie"
          +:+ Cycles.dq +:+ PyStr.nl
          +:+ "                       turbidity=" +:+ Cycles.dq +:+ t
          +:+ Cycles.dq +:+ PyStr.nl +:+ "                       ").
  eexists.
  unfold Cycles.sunsky_snippet. simpl Cycles.format.
  unfold PyDict.item. rewrite Hn, Ht, Hx, Hy, Hz. unfold rmap, rbind.
  f_equal. rewrite !append_assoc. reflexivity.
Qed.

Section SunskyProps.
Context {F : PyFloat} {H : FreeCAD F}.

(** C8. [write_sunskylight] on a direction of length zero raises the
    assertion error and emits nothing; on any other direction it emits a
    text that carries the components of the normalized direction as
    sun_direction. *)
Theorem write_sunskylight_direction :
  forall (name : string) (direction : Vector) (distance turbidity : float),
    (feqb (Length direction) fzero = true ->
     Cycles.write_sunskylight name direction distance turbidity
     = Raise (AssertionError ""))
    /\ (feqb (Length direction) fzero = false ->
        exists text,
          Cycles.write_sunskylight name direction distance turbidity
          = Return text
          /\ PyStr.contains
               ("sun_direction=" +:+ Cycles.dq
                +:+ str_float (vx (normalize direction)) +:+ ", "
                +:+ str_float (vy (normalize direction)) +:+ ", "
                +:+ str_float (vz (normalize direction)) +:+ Cycles.dq)
               text = true).
Proof.
  intros name direction distance turbidity.
  unfold Cycles.write_sunskylight, truth. split; intros ->; simpl negb; cbv iota.
  - reflexivity.
  - destruct (format_sunsky
                [ ("n", name);
                  ("d.x", str_float (vx (normalize direction)));
                  ("d.y", str_float (vy (normalize direction)));
                  ("d.z", str_float (vz (normalize direction)));
                  ("t", str_float turbidity) ]
                name (str_float turbidity)
                (str_float (vx (normalize direction)))
                (str_float (vy (normalize direction)))
                (str_float (vz (normalize direction)))
                eq_refl eq_refl eq_refl eq_refl eq_refl) as (pre & post & ->).
    eexists. split; [reflexivity|]. apply contains_intro.
Qed.

End SunskyProps.

Lemma write_sunskylight_direction_witness :
  @Cycles.write_sunskylight IntFloat IntHost "Sky"
    (@mkVector IntFloat 0%Z 0%Z 0%Z) 1%Z 2%Z
  = Raise (AssertionError "")
  /\ exists text,
       @Cycles.write_sunskylight IntFloat IntHost "Sky"
         (@mkVector IntFloat 0%Z 0%Z 5%Z) 1%Z 2%Z
       = Return text
       /\ PyStr.contains
            ("sun_direction=" +:+ Cycles.dq +:+ "0" +:+ ", " +:+ "0" +:+ ", "
             +:+ "1" +:+ Cycles.dq) text = true.
Proof.
  split.
  - apply (proj1 (@write_sunskylight_direction IntFloat IntHost "Sky"
                    (@mkVector IntFloat 0%Z 0%Z 0%Z) 1%Z 2%Z)).
    reflexivity.
  - apply (proj2 (@write_sunskylight_direction IntFloat IntHost "Sky"
                    (@mkVector IntFloat 0%Z 0%Z 5%Z) 1%Z 2%Z)).
    reflexivity.
Defined.

(** ** Lines *)

Lemma split_nl_cons (s : string) : exists l ls, PyStr.split_nl s = l :: ls.
Proof.
  induction s as [|c s (l & ls & IH)]; simpl; [eauto|].
  destruct (Ascii.eqb c PyStr.newline); [eauto|]. rewrite IH. eauto.
Qed.

Lemma split_nl_app (a b : string) :
  PyStr.split_nl (a +:+ PyStr.nl +:+ b) = PyStr.split_nl a ++ PyStr.split_nl b.
Proof.
  induction a as [|c a IH]; simpl; [reflexivity|].
  destruct (Ascii.eqb c PyStr.newline); simpl.
  - now rewrite <- IH.
  - simpl in IH. rewrite IH.
    destruct (split_nl_cons a) as (l & ls & ->). reflexivity.
Qed.

Lemma split_nl_line (s : string) :
  no_newline s = true -> PyStr.split_nl s = [s].
Proof.
  unfold no_newline.
  induction s as [|c s IH]; simpl; [reflexivity|].
  intros Hs. apply andb_true_iff in Hs as [Hc Hs].
  apply negb_true_iff in Hc. rewrite Hc, (IH Hs). reflexivity.
Qed.

Lemma split_nl_join (l : string) (ls : list string) :
  PyStr.split_nl (PyStr.join PyStr.nl (l :: ls))
  = flat_map PyStr.split_nl (l :: ls).
Proof.
  revert l. induction ls as [|l' ls IH]; intros l.
  - simpl. now rewrite app_nil_r.
  - change (PyStr.join PyStr.nl (l :: l' :: ls))
      with (l +:+ PyStr.nl +:+ PyStr.join PyStr.nl (l' :: ls)).
    rewrite split_nl_app, IH. reflexivity.
Qed.

Lemma map_result_app {A B : Type} (f : A -> result B) (xs ys : list A) :
  map_result f (xs ++ ys)
  = rbind (map_result f xs) (fun a => rmap (List.app a) (map_result f ys)).
Proof.
  induction xs as [|x xs IH]; simpl.
  - destruct (map_result f ys); reflexivity.
  - destruct (f x); simpl; [|reflexivity].
    rewrite IH. destruct (map_result f xs); simpl; [|reflexivity].
    destruct (map_result f ys); reflexivity.
Qed.

(** ** Shell words *)

Lemma lex_word_run (t rest token : string) (quoted : bool) :
  PyStr.all_chars plain_char t = true ->
  Shlex.lex Shlex.InWord quoted token (t +:+ rest)
  = Shlex.lex Shlex.InWord quoted (token +:+ t) rest.
Proof.
  revert token. induction t as [|c t IH]; intros token; simpl.
  - intros _. now rewrite append_nil_r.
  - intros Ht. apply andb_true_iff in Ht as [Hc Ht].
    unfold plain_char in Hc. apply negb_true_iff in Hc.
    apply orb_false_iff in Hc as [Hc Hq].
    apply orb_false_iff in Hc as [Hc He].
    apply orb_false_iff in Hc as [Hw Hc].
    rewrite Hw, Hc, Hq, He, (IH _ Ht). unfold Shlex.snoc.
    now rewrite append_assoc.
Qed.

Lemma lex_word_start (t rest : string) :
  plain_token t ->
  Shlex.lex Shlex.InWhite false "" (t +:+ rest)
  = Shlex.lex Shlex.InWord false t rest.
Proof.
  intros [Hne Ht]. destruct t as [|c t]; [contradiction|].
  simpl in Ht. apply andb_true_iff in Ht as [Hc Ht].
  simpl. unfold plain_char in Hc. apply negb_true_iff in Hc.
  apply orb_false_iff in Hc as [Hc Hq].
  apply orb_false_iff in Hc as [Hc He].
  apply orb_false_iff in Hc as [Hw Hc].
  rewrite Hw, Hc, Hq, He. now rewrite (lex_word_run t rest _ _ Ht).
Qed.

Lemma lex_word_space (t rest : string) :
  t <> "" ->
  Shlex.lex Shlex.InWord false t (String " " rest)
  = rmap (cons t) (Shlex.lex Shlex.InWhite false "" rest).
Proof.
  intros Hne. apply String.eqb_neq in Hne. simpl.
  unfold Shlex.pending, Shlex.emit. now rewrite Hne.
Qed.

Lemma lex_word_end (t : string) :
  t <> "" -> Shlex.lex Shlex.InWord false t "" = Return [t].
Proof.
  intros Hne. apply String.eqb_neq in Hne. simpl.
  unfold Shlex.emit. now rewrite Hne.
Qed.

Lemma lex_tokens (toks : list string) :
  Forall plain_token toks ->
  Shlex.lex Shlex.InWhite false "" (PyStr.join " " toks) = Return toks.
Proof.
  induction 1 as [|t toks Ht Htoks IH]; [reflexivity|].
  destruct toks as [|t' toks].
  - simpl PyStr.join. rewrite <- (append_nil_r t) at 1.
    rewrite (lex_word_start t "" Ht). apply lex_word_end, Ht.
  - set (J := PyStr.join " " (t' :: toks)) in *.
    change (PyStr.join " " (t :: t' :: toks)) with (t +:+ String " " J).
    rewrite (lex_word_start t _ Ht), lex_word_space, IH by apply Ht.
    reflexivity.
Qed.

Lemma split_field_text (toks : list string) :
  Forall plain_token toks -> Shlex.split (field_text toks) = Return toks.
Proof.
  intros Ht. unfold Shlex.split, field_text. simpl. now apply lex_tokens.
Qed.

Lemma plain_char_no_newline (c : ascii) :
  plain_char c = true -> negb (Ascii.eqb c PyStr.newline) = true.
Proof.
  unfold plain_char, Shlex.whitespace. intros Hc.
  apply negb_true_iff in Hc. apply negb_true_iff.
  repeat (apply orb_false_iff in Hc as [Hc ?]).
  assumption.
Qed.

Lemma no_newline_join (toks : list string) :
  Forall plain_token toks -> no_newline (PyStr.join " " toks) = true.
Proof.
  unfold no_newline.
  induction 1 as [|t toks [_ Ht] Htoks IH]; [reflexivity|].
  assert (Hn : PyStr.all_chars (fun c => negb (Ascii.eqb c PyStr.newline)) t = true).
  { now apply (all_chars_weaken plain_char); [exact plain_char_no_newline|]. }
  destruct toks as [|t' toks]; [exact Hn|].
  change (PyStr.join " " (t :: t' :: toks))
    with (t +:+ " " +:+ PyStr.join " " (t' :: toks)).
  rewrite !all_chars_app, Hn, IH. reflexivity.
Qed.

Lemma field_text_lines (toks : list string) :
  Forall plain_token toks ->
  map_result Shlex.split (PyStr.split_nl (field_text toks)) = Return [toks].
Proof.
  intros Ht. rewrite split_nl_line.
  - simpl. now rewrite split_field_text.
  - unfold field_text, no_newline. simpl. now apply no_newline_join.
Qed.

Lemma float_char_plain (c : ascii) : float_char c = true -> plain_char c = true.
Proof.
  destruct c as [[|] [|] [|] [|] [|] [|] [|] [|]]; vm_compute;
    solve [reflexivity | discriminate].
Qed.

Lemma viewport_plain (v : string) :
  PyStr.str_in v VIEWPORTMAPPINGENUM = true -> plain_token v.
Proof.
  unfold PyStr.str_in, VIEWPORTMAPPINGENUM. simpl. rewrite orb_false_r.
  intros Hv.
  repeat (apply orb_true_iff in Hv as [Hv|Hv]);
    apply String.eqb_eq in Hv; subst v; split;
    solve [discriminate | reflexivity].
Qed.

(** ** The serializers, [get_coin_string_from_cam] *)

Lemma flat_lines_tokens (ls : list string) (tsss : list (list (list string))) :
  Forall2 (fun l tss => map_result Shlex.split (PyStr.split_nl l) = Return tss)
    ls tsss ->
  map_result Shlex.split (flat_map PyStr.split_nl ls) = Return (concat tsss).
Proof.
  induction 1 as [|l tss ls tsss Hl Hls IH]; [reflexivity|].
  simpl. now rewrite map_result_app, Hl, IH.
Qed.

Lemma joined_lines_camdata (l : string) (ls : list string)
  (tsss : list (list (list string))) :
  Forall2 (fun l tss => map_result Shlex.split (PyStr.split_nl l) = Return tss)
    (l :: ls) tsss ->
  camdata_of (PyStr.join PyStr.nl (l :: ls))
  = Return (filter nonempty (concat tsss)).
Proof.
  intros Hall. unfold camdata_of.
  now rewrite split_nl_join, (flat_lines_tokens _ _ Hall).
Qed.

Section PlainFloats.
Context {F : PyFloat} {L : PyFloatLaws F}.

Lemma str_float_plain (x : float) : plain_token (str_float x).
Proof.
  split; [apply str_float_nonempty|].
  apply (all_chars_weaken float_char); [exact float_char_plain|].
  apply str_float_chars.
Qed.

End PlainFloats.

(** Proves that the words of a serialized line are plain. *)
Ltac plain_tokens :=
  repeat first
    [ apply Forall_nil
    | apply Forall_cons
    | apply str_float_plain
    | (split; [discriminate | reflexivity])
    | assumption ].

(** Proves that a line of the serializer has the words [toks]. *)
Ltac tokenized_line toks :=
  change (map_result Shlex.split (PyStr.split_nl (field_text toks)) = Return [toks]);
  apply field_text_lines; plain_tokens.

Section SerializerProps.
Context {F : PyFloat} {H : FreeCAD F} {L : PyFloatLaws F}.

Lemma render_serialize (cam : Camera) :
  PyStr.str_in (Projection cam) PROJECTIONENUM = true ->
  PyStr.str_in (ViewportMapping cam) VIEWPORTMAPPINGENUM = true ->
  exists s,
    RenderCamera.get_coin_string_from_cam cam = Return s
    /\ camdata_of s = Return (serialized_camdata cam "}}")
    /\ hd "" (PyStr.split_nl s) = "#Inventor V2.1 ascii".
Proof.
  intros Hp Hv.
  pose proof (viewport_plain _ Hv) as Hvp.
  unfold RenderCamera.get_coin_string_from_cam, RenderCamera.check_enum.
  rewrite Hp, Hv. unfold rbind.
  eexists. split; [reflexivity|]. split.
  - rewrite (joined_lines_camdata _ _
       [ [[]; []; []; []];
         [[Projection cam +:+ "Camera"; "{"]];
         [["viewportMapping"; ViewportMapping cam]];
         [["position"; str_float (vx (Base (Placement cam)));
           str_float (vy (Base (Placement cam)));
           str_float (vz (Base (Placement cam)))]];
         [["orientation"; str_float (vx (Axis (Rotation (Placement cam))));
           str_float (vy (Axis (Rotation (Placement cam))));
           str_float (vz (Axis (Rotation (Placement cam))));
           str_float (Angle (Rotation (Placement cam)))]];
         [["nearDistance"; str_float (NearDistance cam)]];
         [["farDistance"; str_float (FarDistance cam)]];
         [["aspectRatio"; str_float (AspectRatio cam)]];
         [["focalDistance"; str_float (FocalDistance cam)]];
         [height_tokens cam];
         [["}}"]; []] ]).
    + unfold serialized_camdata, height_tokens.
      destruct (String.eqb (Projection cam) "Orthographic"); reflexivity.
    + repeat apply Forall2_cons; try apply Forall2_nil.
      * vm_compute. reflexivity.
      * destruct (projection_cases _ Hp) as [-> | ->]; vm_compute; reflexivity.
      * tokenized_line ["viewportMapping"; ViewportMapping cam].
      * tokenized_line ["position"; str_float (vx (Base (Placement cam)));
                    str_float (vy (Base (Placement cam)));
                    str_float (vz (Base (Placement cam)))].
      * tokenized_line ["orientation"; str_float (vx (Axis (Rotation (Placement cam))));
                    str_float (vy (Axis (Rotation (Placement cam))));
                    str_float (vz (Axis (Rotation (Placement cam))));
                    str_float (Angle (Rotation (Placement cam)))].
      * tokenized_line ["nearDistance"; str_float (NearDistance cam)].
      * tokenized_line ["farDistance"; str_float (FarDistance cam)].
      * tokenized_line ["aspectRatio"; str_float (AspectRatio cam)].
      * tokenized_line ["focalDistance"; str_float (FocalDistance cam)].
      * unfold height_tokens.
        destruct (projection_cases _ Hp) as [-> | ->]; simpl String.eqb; cbv iota.
        -- tokenized_line ["heightAngle"; str_float (radians (HeightAngle cam))].
        -- tokenized_line ["height"; str_float (Height cam)].
      * vm_compute. reflexivity.
  - rewrite split_nl_join. vm_compute. reflexivity.
Qed.

End SerializerProps.

Section ParseExact.
Context {F : PyFloat} {H : FreeCAD F}.

Lemma render_parse_exact camstr tok line rest cam
  pl pos ol axis a angle fd ar vm vl n f hv :
  let camdict := camdict_of ((tok :: line) :: rest) in
  let ortho := String.eqb (PyStr.slice_0_m6 tok) "Orthographic" in
  camdata_of camstr = Return ((tok :: line) :: rest) ->
  PyStr.str_in (PyStr.slice_0_m6 tok) PROJECTIONENUM = true ->
  PyDict.get camdict "position" = Some pl ->
  App_Vector (firstn 3 pl) = Return pos ->
  PyDict.get camdict "orientation" = Some ol ->
  App_Vector (firstn 3 ol) = Return axis ->
  nth_error ol 3 = Some a ->
  float_of_str a = Some angle ->
  float_field camdict "focalDistance" = Return fd ->
  float_field camdict "aspectRatio" = Return ar ->
  PyDict.get camdict "viewportMapping" = Some (vm :: vl) ->
  float_field camdict "nearDistance" = Return n ->
  float_field camdict "farDistance" = Return f ->
  float_field camdict (if ortho then "height" else "heightAngle") = Return hv ->
  RenderCamera.set_cam_from_coin_string camstr cam
  = (Return tt,
     mkCamera (PyStr.slice_0_m6 tok) vm
       (App_Placement pos (App_Rotation axis (degrees angle)))
       ar n f fd
       (if ortho then hv else Height cam)
       (if ortho then HeightAngle cam else degrees hv)).
Proof.
  intros camdict ortho Hdata Hhdr Hpl Hpos Hol Haxis Ha Hangle Hfd Har Hvm Hn Hf Hhv.
  unfold RenderCamera.set_cam_from_coin_string.
  enter_parser Hdata Hhdr tok line rest cam header_step.
  fold camdict.
  unfold set_placement_from, set_near_far_from, set_height_from.
  unfold PyDict.item, list_item, py_float. cam_unfold.
  rewrite Hpl, Hpos, Hol, Haxis, Ha, Hangle. simpl.
  rewrite Hfd, Har, Hvm, Hn, Hf. simpl.
  destruct (projection_cases _ Hhdr) as [E | E]; subst ortho; rewrite E in *;
    simpl in *; rewrite Hhv; reflexivity.
Qed.

End ParseExact.

Section RoundTrip.
Context {F : PyFloat} {H : FreeCAD F} {L : PyFloatLaws F}.

Lemma py_float_str_float (x : float) (l : list string) :
  rbind (list_item (str_float x :: l) 0) py_float = Return x.
Proof.
  simpl. unfold py_float. now rewrite float_of_str_float.
Qed.

Lemma App_Vector_str_float (x y z : float) :
  App_Vector [str_float x; str_float y; str_float z] = Return (mkVector x y z).
Proof.
  unfold App_Vector, py_float. now rewrite !float_of_str_float.
Qed.


End RoundTrip.

Section GrammarProps.
Context {F : PyFloat} {H : FreeCAD F} {L : PyFloatLaws F}.

Lemma legacy_serialize (cam : Camera) :
  PyStr.str_in (Projection cam) PROJECTIONENUM = true ->
  PyStr.str_in (ViewportMapping cam) VIEWPORTMAPPINGENUM = true ->
  exists s,
    LegacyCamera.get_coin_string_from_cam cam = Return s
    /\ camdata_of s = Return (serialized_camdata cam "}")
    /\ hd "" (PyStr.split_nl s) = "#Inventor V2.1 ascii".
Proof.
  intros Hp Hv.
  pose proof (viewport_plain _ Hv) as Hvp.
  unfold LegacyCamera.get_coin_string_from_cam, LegacyCamera.check_enum.
  rewrite Hp, Hv. unfold rbind.
  assert (Hres :
    (if String.eqb (Projection cam) "Orthographic"
     then [" height " +:+ str_float (Height cam)]
     else if String.eqb (Projection cam) "Perspective"
          then [" heightAngle " +:+ str_float (radians (HeightAngle cam))]
          else [])
    = [field_text (height_tokens cam)]).
  { unfold height_tokens.
    destruct (projection_cases _ Hp) as [-> | ->]; reflexivity. }
  eexists. split; [reflexivity|].
  match goal with
  | |- context [PyStr.join PyStr.nl ?res] =>
      replace res with
        ([ inventor_header;
           Projection cam +:+ "Camera {";
           " viewportMapping " +:+ ViewportMapping cam;
           " position " +:+ str_float (vx (Base (Placement cam))) +:+ " "
             +:+ str_float (vy (Base (Placement cam))) +:+ " "
             +:+ str_float (vz (Base (Placement cam)));
           " orientation " +:+ str_float (vx (Axis (Rotation (Placement cam))))
             +:+ " " +:+ str_float (vy (Axis (Rotation (Placement cam))))
             +:+ " " +:+ str_float (vz (Axis (Rotation (Placement cam))))
             +:+ " " +:+ str_float (Angle (Rotation (Placement cam)));
           " nearDistance " +:+ str_float (NearDistance cam);
           " farDistance " +:+ str_float (FarDistance cam);
           " aspectRatio " +:+ str_float (AspectRatio cam);
           " focalDistance " +:+ str_float (FocalDistance cam);
           field_text (height_tokens cam);
           "}" +:+ PyStr.nl ])
  end.
  2:{ destruct (projection_cases _ Hp) as [E | E]; rewrite E; unfold height_tokens;
      rewrite E; reflexivity. }
  split.
  - rewrite (joined_lines_camdata _ _
       [ [[]; []; []; []];
         [[Projection cam +:+ "Camera"; "{"]];
         [["viewportMapping"; ViewportMapping cam]];
         [["position"; str_float (vx (Base (Placement cam)));
           str_float (vy (Base (Placement cam)));
           str_float (vz (Base (Placement cam)))]];
         [["orientation"; str_float (vx (Axis (Rotation (Placement cam))));
           str_float (vy (Axis (Rotation (Placement cam))));
           str_float (vz (Axis (Rotation (Placement cam))));
           str_float (Angle (Rotation (Placement cam)))]];
         [["nearDistance"; str_float (NearDistance cam)]];
         [["farDistance"; str_float (FarDistance cam)]];
         [["aspectRatio"; str_float (AspectRatio cam)]];
         [["focalDistance"; str_float (FocalDistance cam)]];
         [height_tokens cam];
         [["}"]; []] ]).
    + unfold serialized_camdata, height_tokens.
      destruct (String.eqb (Projection cam) "Orthographic"); reflexivity.
    + repeat apply Forall2_cons; try apply Forall2_nil.
      * vm_compute. reflexivity.
      * destruct (projection_cases _ Hp) as [-> | ->]; vm_compute; reflexivity.
      * tokenized_line ["viewportMapping"; ViewportMapping cam].
      * tokenized_line ["position"; str_float (vx (Base (Placement cam)));
                    str_float (vy (Base (Placement cam)));
                    str_float (vz (Base (Placement cam)))].
      * tokenized_line ["orientation"; str_float (vx (Axis (Rotation (Placement cam))));
                    str_float (vy (Axis (Rotation (Placement cam))));
                    str_float (vz (Axis (Rotation (Placement cam))));
                    str_float (Angle (Rotation (Placement cam)))].
      * tokenized_line ["nearDistance"; str_float (NearDistance cam)].
      * tokenized_line ["farDistance"; str_float (FarDistance cam)].
      * tokenized_line ["aspectRatio"; str_float (AspectRatio cam)].
      * tokenized_line ["focalDistance"; str_float (FocalDistance cam)].
      * apply field_text_lines. unfold height_tokens.
        destruct (String.eqb (Projection cam) "Orthographic"); plain_tokens.
      * vm_compute. reflexivity.
  - rewrite split_nl_join. vm_compute. reflexivity.
Qed.

Lemma numeric_str_float (x : float) : numeric (str_float x) = true.
Proof.
  unfold numeric. now rewrite float_of_str_float.
Qed.

Lemma grammar_of_camdata (s : string) (cam : Camera) (closing : string) :
  PyStr.str_in (Projection cam) PROJECTIONENUM = true ->
  PyStr.str_in (ViewportMapping cam) VIEWPORTMAPPINGENUM = true ->
  camdata_of s = Return (serialized_camdata cam closing) ->
  hd "" (PyStr.split_nl s) = "#Inventor V2.1 ascii" ->
  spec_camera_grammar s = String.eqb closing "}".
Proof.
  intros Hp Hv Hdata Hhd. unfold spec_camera_grammar.
  destruct (split_nl_cons s) as (first & others & Es).
  rewrite Es in Hhd |- *. simpl in Hhd. subst first.
  rewrite Hdata. unfold serialized_camdata, height_tokens.
  destruct (projection_cases _ Hp) as [E | E]; rewrite E;
    cbn -[PyStr.str_in numeric]; rewrite Hv, !numeric_str_float;
    reflexivity.
Qed.

(** The serializer of [src/camera.py] writes a text of the specified
    grammar for every camera with a valid projection and viewport mapping. *)
Theorem legacy_serialize_conforms :
  forall cam : Camera,
    PyStr.str_in (Projection cam) PROJECTIONENUM = true ->
    PyStr.str_in (ViewportMapping cam) VIEWPORTMAPPINGENUM = true ->
    exists s,
      LegacyCamera.get_coin_string_from_cam cam = Return s
      /\ spec_camera_grammar s = true.
Proof.
  intros cam Hp Hv.
  destruct (legacy_serialize cam Hp Hv) as (s & Hs & Hdata & Hhd).
  exists s. split; [exact Hs|].
  now rewrite (grammar_of_camdata s cam "}" Hp Hv Hdata Hhd).
Qed.

(** C2, what [src/Render/camera.py] does. Every text its serializer
    returns has the specified fields in the specified order, but its last
    line is two closing braces, so the text is not of the specified
    grammar, whose block ends in a single one. *)
Theorem render_serialize_closing_braces :
  forall (cam : Camera) (s : string),
    RenderCamera.get_coin_string_from_cam cam = Return s ->
    camdata_of s = Return (serialized_camdata cam "}}")
    /\ spec_camera_grammar s = false.
Proof.
  intros cam s Hs.
  assert (Hp : PyStr.str_in (Projection cam) PROJECTIONENUM = true).
  { unfold RenderCamera.get_coin_string_from_cam, RenderCamera.check_enum in Hs.
    destruct (PyStr.str_in (Projection cam) PROJECTIONENUM);
      [reflexivity | discriminate]. }
  assert (Hv : PyStr.str_in (ViewportMapping cam) VIEWPORTMAPPINGENUM = true).
  { unfold RenderCamera.get_coin_string_from_cam, RenderCamera.check_enum in Hs.
    rewrite Hp in Hs.
    destruct (PyStr.str_in (ViewportMapping cam) VIEWPORTMAPPINGENUM);
      [reflexivity | discriminate]. }
  destruct (render_serialize cam Hp Hv) as (s' & Hs' & Hdata & Hhd).
  rewrite Hs in Hs'. injection Hs' as <-.
  split; [exact Hdata|].
  now rewrite (grammar_of_camdata s cam "}}" Hp Hv Hdata Hhd).
Qed.

End GrammarProps.

Lemma render_serialize_closing_braces_witness :
  camdata_of example_camera_text
  = Return (@serialized_camdata IntFloat IntHost example_camera "}}")
  /\ @spec_camera_grammar IntFloat example_camera_text = false.
Proof.
  apply (@render_serialize_closing_braces IntFloat IntHost IntFloat_laws
           example_camera example_camera_text).
  vm_compute. reflexivity.
Defined.

Lemma legacy_serialize_conforms_witness :
  exists s,
    @LegacyCamera.get_coin_string_from_cam IntFloat IntHost example_camera
    = Return s
    /\ @spec_camera_grammar IntFloat s = true.
Proof.
  apply (@legacy_serialize_conforms IntFloat IntHost IntFloat_laws example_camera).
  - vm_compute. reflexivity.
  - vm_compute. reflexivity.
Defined.

(** ** The binary64 floats on known values

    What Python prints and reads for a few floats, given by their
    mantissa and exponent, and for texts [float] refuses. *)
Lemma binary64_known_values :
  map (fun x => Binary64.repr (FloatOps.SF2Prim x))
    [ SpecFloat.S754_finite false 7205759403792794 (-56);
      SpecFloat.S754_finite false 6004799503160661 (-53);
      SpecFloat.S754_finite false 5000000000000000 1;
      SpecFloat.S754_finite false 7812500000000000 (-3);
      SpecFloat.S754_finite false 987654313 (-3);
      SpecFloat.S754_finite true 1 (-1074);
      SpecFloat.S754_zero true;
      SpecFloat.S754_infinity false;
      SpecFloat.S754_nan ]
  = [ "0.1"; "0.6666666666666666"; "1e+16"; "976562500000000.0";
      "123456789.125"; "-5e-324"; "-0.0"; "inf"; "nan" ]
  /\ map Binary64.repr [Binary64.pi; Binary64.degToRad; Binary64.radToDeg]
     = [ "3.141592653589793"; "0.017453292519943295"; "57.29577951308232" ]
  /\ map (fun s => option_map Binary64.repr (Binary64.float_of_str s))
       [ "0.1"; "1_000.5e-3"; "1."; ".5"; "+.5e+2"; " inf "; "-Infinity";
         "1e-05"; "1e400"; "1e-400";
         "1__0"; "1e"; "_1"; "1_"; "."; "0x10"; "1 2"; "" ]
     = [ Some "0.1"; Some "1.0005"; Some "1.0"; Some "0.5"; Some "50.0";
         Some "inf"; Some "-inf"; Some "1e-05"; Some "inf"; Some "0.0";
         None; None; None; None; None; None; None; None ].
Proof.
  split; [vm_compute; reflexivity|]. split; vm_compute; reflexivity.
Qed.



(** * Further properties of the code *)

(** ** Lines that the parser skips *)

Lemma lex_comment (c : string) (quoted : bool) (token : string) :
  no_newline c = true ->
  Shlex.lex Shlex.InComment quoted token c
  = Shlex.emit quoted token (Return []).
Proof.
  unfold no_newline. induction c as [|x c IH]; simpl; [reflexivity|].
  intros Hc. apply andb_true_iff in Hc as [Hx Hc].
  apply negb_true_iff in Hx. rewrite Hx. now apply IH.
Qed.

Lemma split_comment_or_blank (l : string) :
  no_newline l = true -> comment_or_blank l = true ->
  Shlex.split l = Return [].
Proof.
  unfold Shlex.split, no_newline.
  induction l as [|x l IH]; simpl; [reflexivity|].
  intros Hn Hl. apply andb_true_iff in Hn as [_ Hn].
  destruct (Shlex.whitespace x); [now apply IH|].
  rewrite Hl. now rewrite (lex_comment l false "" Hn).
Qed.

Lemma split_nl_lines (s : string) :
  Forall (fun l => no_newline l = true) (PyStr.split_nl s).
Proof.
  unfold no_newline. induction s as [|c s IH]; simpl.
  - now repeat constructor.
  - destruct (Ascii.eqb c PyStr.newline) eqn:Ec.
    + now constructor.
    + destruct (PyStr.split_nl s) as [|l ls].
      { constructor; [simpl; now rewrite Ec | constructor]. }
      inversion IH as [|? ? Hl Hls]; subst.
      constructor; [|exact Hls]. simpl. now rewrite Ec, Hl.
Qed.

Lemma map_result_skipped (ls : list string) :
  forallb comment_or_blank ls = true ->
  Forall (fun l => no_newline l = true) ls ->
  map_result Shlex.split ls = Return (repeat [] (List.length ls)).
Proof.
  induction ls as [|l ls IH]; simpl; [reflexivity|].
  intros Hb Hn. apply andb_true_iff in Hb as [Hl Hb].
  inversion Hn as [|? ? Hnl Hnls]; subst.
  now rewrite (split_comment_or_blank l Hnl Hl), (IH Hb Hnls).
Qed.

Lemma filter_nonempty_repeat (A : Type) (n : nat) :
  filter (@nonempty A) (repeat [] n) = [].
Proof.
  induction n; simpl; auto.
Qed.

Lemma camdata_of_skipped (camstr : string) :
  forallb comment_or_blank (PyStr.split_nl camstr) = true ->
  camdata_of camstr = Return [].
Proof.
  intros Hb. unfold camdata_of.
  rewrite (map_result_skipped _ Hb (split_nl_lines camstr)).
  simpl. now rewrite filter_nonempty_repeat.
Qed.

Lemma camdata_of_insert_line (a l b : string) :
  no_newline l = true -> comment_or_blank l = true ->
  camdata_of (a +:+ PyStr.nl +:+ l +:+ PyStr.nl +:+ b)
  = camdata_of (a +:+ PyStr.nl +:+ b).
Proof.
  intros Hn Hl. unfold camdata_of.
  rewrite !split_nl_app, (split_nl_line l Hn), !map_result_app.
  simpl. rewrite (split_comment_or_blank l Hn Hl). simpl.
  destruct (map_result Shlex.split (PyStr.split_nl a)) as [ta|]; simpl;
    [|reflexivity].
  destruct (map_result Shlex.split (PyStr.split_nl b)) as [tb|]; simpl;
    [|reflexivity].
  now rewrite !filter_app.
Qed.

Lemma camdata_of_leading_line (l b : string) :
  no_newline l = true -> comment_or_blank l = true ->
  camdata_of (l +:+ PyStr.nl +:+ b) = camdata_of b.
Proof.
  intros Hn Hl. unfold camdata_of.
  rewrite split_nl_app, (split_nl_line l Hn), map_result_app.
  simpl. rewrite (split_comment_or_blank l Hn Hl). simpl.
  destruct (map_result Shlex.split (PyStr.split_nl b)) as [tb|]; reflexivity.
Qed.

Section SkippedLines.
Context {F : PyFloat} {H : FreeCAD F}.

Lemma render_parser_tokens (camstr : string) (cam : Camera) :
  RenderCamera.set_cam_from_coin_string camstr cam
  = match camdata_of camstr with
    | Return camdata => render_parse_camdata camdata cam
    | Raise e => (Raise e, cam)
    end.
Proof.
  unfold RenderCamera.set_cam_from_coin_string.
  unfold CamM.bind at 1. unfold CamM.lift at 1.
  destruct (camdata_of camstr); reflexivity.
Qed.

Lemma legacy_parser_tokens (camstr : string) (cam : Camera) :
  LegacyCamera.set_cam_from_coin_string camstr cam
  = match camdata_of camstr with
    | Return camdata => legacy_parse_camdata camdata cam
    | Raise e => (Raise e, cam)
    end.
Proof.
  unfold LegacyCamera.set_cam_from_coin_string.
  unfold CamM.bind at 1. unfold CamM.lift at 1.
  destruct (camdata_of camstr); reflexivity.
Qed.

Lemma render_parse_camdata_steps (tok : string) (line : list string)
  (rest : list (list string)) (cam : Camera) :
  render_parse_camdata ((tok :: line) :: rest) cam
  = if PyStr.str_in (PyStr.slice_0_m6 tok) PROJECTIONENUM
    then render_parse_rest (camdict_of ((tok :: line) :: rest))
           (snd (CamM.set_Projection (PyStr.slice_0_m6 tok) cam))
    else (Raise (AssertionError "Invalid camera header in camera string"),
          snd (CamM.set_Projection (PyStr.slice_0_m6 tok) cam)).
Proof.
  unfold render_parse_camdata. unfold CamM.bind at 1.
  rewrite (header_step _ tok line rest cam eq_refl).
  now destruct (PyStr.str_in (PyStr.slice_0_m6 tok) PROJECTIONENUM).
Qed.

Lemma parser_of_camdata (s1 s2 : string) (cam : Camera) :
  camdata_of s1 = camdata_of s2 ->
  RenderCamera.set_cam_from_coin_string s1 cam
  = RenderCamera.set_cam_from_coin_string s2 cam.
Proof.
  intros E. now rewrite !render_parser_tokens, E.
Qed.

(** X1. A line that is blank, or whose first character after leading
    whitespace is [#], is dropped before the parser of
    [src/Render/camera.py] looks at the text: putting such a line between
    two lines, or in front of the text, changes neither the outcome nor the
    camera. The [#Inventor] line of a camera string is such a line. *)
Theorem comment_and_blank_lines_skipped :
  forall (a l b : string) (cam : Camera),
    no_newline l = true ->
    comment_or_blank l = true ->
    RenderCamera.set_cam_from_coin_string
      (a +:+ PyStr.nl +:+ l +:+ PyStr.nl +:+ b) cam
    = RenderCamera.set_cam_from_coin_string (a +:+ PyStr.nl +:+ b) cam
    /\ RenderCamera.set_cam_from_coin_string (l +:+ PyStr.nl +:+ b) cam
       = RenderCamera.set_cam_from_coin_string b cam.
Proof.
  intros a l b cam Hn Hl. split; apply parser_of_camdata.
  - now apply camdata_of_insert_line.
  - now apply camdata_of_leading_line.
Qed.

(** X2. On a text all of whose lines are blank or comments, the empty
    text included, [camdata] is empty and the parser raises the
    [IndexError] of [camdata[0]]; the camera is left as it was. *)
Theorem only_skipped_lines_IndexError :
  forall (camstr : string) (cam : Camera),
    forallb comment_or_blank (PyStr.split_nl camstr) = true ->
    RenderCamera.set_cam_from_coin_string camstr cam
    = (Raise (IndexError "list index out of range"), cam).
Proof.
  intros camstr cam Hb.
  rewrite render_parser_tokens, (camdata_of_skipped camstr Hb). reflexivity.
Qed.

End SkippedLines.

(** ** The dictionary of fields *)

Lemma get_set {V : Type} (k k' : string) (v : V) (d : PyDict.dict V) :
  PyDict.get (PyDict.set k' v d) k
  = if String.eqb k k' then Some v else PyDict.get d k.
Proof.
  induction d as [|[k0 v0] d IH]; simpl; [reflexivity|].
  destruct (String.eqb_spec k' k0) as [-> | Hne]; simpl.
  - now destruct (String.eqb k k0).
  - rewrite IH. destruct (String.eqb_spec k k0) as [-> | Hk]; [|reflexivity].
    destruct (String.eqb_spec k0 k') as [E | _]; [|reflexivity].
    now elim Hne.
Qed.

Lemma find_snoc {A : Type} (f : A -> bool) (l : list A) (y : A) :
  find f (l ++ [y])
  = match find f l with
    | Some x => Some x
    | None => if f y then Some y else None
    end.
Proof.
  induction l as [|x l IH]; simpl; [reflexivity|].
  now destruct (f x).
Qed.

Lemma get_fold_lines (camdata : list (list string))
  (d0 : PyDict.dict (list string)) (k : string) :
  PyDict.get
    (fold_left
       (fun d y => match y with
                   | [] => d
                   | key :: values => PyDict.set key values d
                   end) camdata d0) k
  = match find (has_key k) (List.rev camdata) with
    | Some y => Some (tl y)
    | None => PyDict.get d0 k
    end.
Proof.
  revert d0. induction camdata as [|y camdata IH]; intros d0; simpl;
    [reflexivity|].
  rewrite IH, find_snoc.
  destruct (find (has_key k) (List.rev camdata)); [reflexivity|].
  destruct y as [|key values]; simpl; [reflexivity|].
  rewrite get_set. now destruct (String.eqb k key).
Qed.

Lemma get_camdict_of (camdata : list (list string)) (k : string) :
  PyDict.get (camdict_of camdata) k = last_values camdata k.
Proof.
  unfold camdict_of, last_values.
  rewrite get_fold_lines.
  now destruct (find (has_key k) (List.rev camdata)).
Qed.

(** X3. [camdict] maps a key to the values of the last line that starts
    with it: of two lines with the same key the later one wins, and a key
    is absent exactly when no line starts with it. *)
Theorem camdict_last_line_wins :
  forall (camdata : list (list string)) (k : string),
    PyDict.get (camdict_of camdata) k = last_values camdata k.
Proof.
  exact get_camdict_of.
Qed.

Lemma camdata_lines_nonempty (camstr : string) (camdata : list (list string)) :
  camdata_of camstr = Return camdata ->
  Forall (fun y => y <> []) camdata.
Proof.
  unfold camdata_of. destruct (map_result _ _) as [tss|]; simpl; [|discriminate].
  intros [= <-]. apply Forall_forall. intros y Hy.
  apply filter_In in Hy as [_ Hy]. now destruct y.
Qed.

Section Dependencies.
Context {F : PyFloat} {H : FreeCAD F}.

Lemma render_parse_camdata_depends (d1 d2 : list (list string))
  (tok : string) (l1 l2 : list string) (r1 r2 : list (list string))
  (cam : Camera) :
  d1 = (tok :: l1) :: r1 ->
  d2 = (tok :: l2) :: r2 ->
  (forall k, In k parser_keys ->
             PyDict.get (camdict_of d1) k = PyDict.get (camdict_of d2) k) ->
  render_parse_camdata d1 cam = render_parse_camdata d2 cam.
Proof.
  intros -> -> Hk.
  unfold render_parse_camdata, set_projection_from_header, set_placement_from,
    set_near_far_from, set_height_from, float_field, PyDict.item.
  cam_unfold. simpl list_item. cbv iota beta.
  rewrite !(Hk "position"), !(Hk "orientation"), !(Hk "focalDistance"),
    !(Hk "aspectRatio"), !(Hk "viewportMapping"), !(Hk "nearDistance"),
    !(Hk "farDistance"), !(Hk "height"), !(Hk "heightAngle")
    by (unfold parser_keys; simpl; tauto).
  reflexivity.
Qed.

(** X4. The parser of [src/Render/camera.py] depends on the text only
    through the first token of its first line and the last values of the
    nine keys it looks up: two texts that agree on these give the same
    outcome and the same camera. Lines with other keys, the closing brace
    among them, and the rest of the header line are never read. *)
Theorem parser_reads_header_and_nine_keys :
  forall (s1 s2 : string) (tok : string) (l1 l2 : list string)
         (r1 r2 : list (list string)) (cam : Camera),
    camdata_of s1 = Return ((tok :: l1) :: r1) ->
    camdata_of s2 = Return ((tok :: l2) :: r2) ->
    (forall k, In k parser_keys ->
               last_values ((tok :: l1) :: r1) k
               = last_values ((tok :: l2) :: r2) k) ->
    RenderCamera.set_cam_from_coin_string s1 cam
    = RenderCamera.set_cam_from_coin_string s2 cam.
Proof.
  intros s1 s2 tok l1 l2 r1 r2 cam H1 H2 Hk.
  rewrite !render_parser_tokens, H1, H2.
  apply (render_parse_camdata_depends _ _ tok l1 l2 r1 r2 cam eq_refl eq_refl).
  intros k Hin. rewrite !get_camdict_of. now apply Hk.
Qed.

End Dependencies.

(** ** The order of the field lines *)

Lemma has_key_line (k : string) (y : list string) :
  has_key k y = true -> y = k :: tl y.
Proof.
  destruct y as [|key values]; simpl; [discriminate|].
  intros E. apply String.eqb_eq in E. now subst.
Qed.

Lemma last_values_some (camdata : list (list string)) (k : string)
  (values : list string) :
  last_values camdata k = Some values -> In (k :: values) camdata.
Proof.
  unfold last_values.
  destruct (find (has_key k) (List.rev camdata)) as [y|] eqn:E; [|discriminate].
  intros [= <-]. apply find_some in E as [Hin Hk].
  apply in_rev in Hin. now rewrite <- (has_key_line k y Hk).
Qed.

Lemma last_values_none (camdata : list (list string)) (k : string) :
  last_values camdata k = None ->
  forall values, ~ In (k :: values) camdata.
Proof.
  unfold last_values.
  destruct (find (has_key k) (List.rev camdata)) as [y|] eqn:E; [discriminate|].
  intros _ values Hin. apply in_rev in Hin.
  pose proof (find_none _ _ E _ Hin) as Hk. simpl in Hk.
  now rewrite String.eqb_refl in Hk.
Qed.

Lemma last_values_unique (camdata : list (list string)) (k : string)
  (values : list string) :
  NoDup (map line_key camdata) ->
  In (k :: values) camdata ->
  last_values camdata k = Some values.
Proof.
  intros Hnd Hin.
  destruct (last_values camdata k) as [values'|] eqn:E.
  - apply last_values_some in E.
    assert (Heq : k :: values' = k :: values).
    { clear -Hnd Hin E. induction camdata as [|y camdata IH]; [contradiction|].
      simpl in Hnd. inversion Hnd as [|? ? Hy Hnd']; subst.
      destruct Hin as [-> | Hin]; destruct E as [E | E].
      - now symmetry.
      - elim Hy. now apply (in_map line_key) in E.
      - subst y. elim Hy. now apply (in_map line_key) in Hin.
      - now apply IH. }
    now injection Heq as ->.
  - now elim (last_values_none camdata k E values).
Qed.

Lemma last_values_permutation (d1 d2 : list (list string)) (k : string) :
  Permutation d1 d2 ->
  NoDup (map line_key d1) ->
  last_values d1 k = last_values d2 k.
Proof.
  intros Hperm Hnd.
  assert (Hnd2 : NoDup (map line_key d2)).
  { eapply Permutation_NoDup; [|exact Hnd]. now apply Permutation_map. }
  destruct (last_values d1 k) as [values|] eqn:E1.
  - symmetry. apply last_values_unique; [exact Hnd2|].
    eapply Permutation_in; [exact Hperm|]. now apply last_values_some.
  - destruct (last_values d2 k) as [values|] eqn:E2; [|reflexivity].
    apply last_values_some in E2.
    elim (last_values_none d1 k E1 values).
    eapply Permutation_in; [symmetry; exact Hperm | exact E2].
Qed.

Section FieldOrder.
Context {F : PyFloat} {H : FreeCAD F}.

(** X5. When no two lines of the text start with the same token, the
    lines after the first can be put in any order without any change to
    what the parser does. *)
Theorem field_order_irrelevant :
  forall (s1 s2 : string) (header : list string) (t1 t2 : list (list string))
         (cam : Camera),
    camdata_of s1 = Return (header :: t1) ->
    camdata_of s2 = Return (header :: t2) ->
    Permutation t1 t2 ->
    NoDup (map line_key (header :: t1)) ->
    RenderCamera.set_cam_from_coin_string s1 cam
    = RenderCamera.set_cam_from_coin_string s2 cam.
Proof.
  intros s1 s2 header t1 t2 cam H1 H2 Hperm Hnd.
  pose proof (camdata_lines_nonempty _ _ H1) as Hne.
  inversion Hne as [|? ? Hh _]; subst.
  destruct header as [|tok line]; [contradiction|].
  rewrite !render_parser_tokens, H1, H2.
  apply (render_parse_camdata_depends _ _ tok line line t1 t2 cam eq_refl
           eq_refl).
  intros k _. rewrite !get_camdict_of.
  apply last_values_permutation; [|exact Hnd].
  now apply perm_skip.
Qed.

End FieldOrder.

(** ** What the parser leaves alone *)

Section Frames.
Context {F : PyFloat} {H : FreeCAD F}.

Lemma keeps_bind {A B C : Type} (field : Camera -> C) (m : CamM.M A)
  (k : A -> CamM.M B) :
  keeps field m -> (forall a, keeps field (k a)) ->
  keeps field (CamM.bind m k).
Proof.
  intros Hm Hk cam. unfold CamM.bind.
  specialize (Hm cam). destruct (m cam) as [[a|e] cam']; simpl in *.
  - now rewrite Hk.
  - exact Hm.
Qed.

Lemma keeps_try {A C : Type} (field : Camera -> C) (m : CamM.M A)
  (handler : string -> CamM.M A) :
  keeps field m -> (forall key, keeps field (handler key)) ->
  keeps field (CamM.try_except_KeyError m handler).
Proof.
  intros Hm Hh cam. unfold CamM.try_except_KeyError.
  specialize (Hm cam). destruct (m cam) as [[a|[]] cam']; simpl in *;
    try exact Hm.
  now rewrite Hh.
Qed.

Lemma keeps_lift {A C : Type} (field : Camera -> C) (r : result A) :
  keeps field (CamM.lift r).
Proof. now intros cam. Qed.

Lemma keeps_ret {A C : Type} (field : Camera -> C) (a : A) :
  keeps field (CamM.ret a).
Proof. now intros cam. Qed.

Lemma keeps_raise {A C : Type} (field : Camera -> C) (e : exn) :
  keeps field (@CamM.raise F H A e).
Proof. now intros cam. Qed.

Lemma keeps_get {A C : Type} (field : Camera -> C) (f : Camera -> A) :
  keeps field (CamM.get f).
Proof. now intros cam. Qed.

Lemma keeps_assert {C : Type} (field : Camera -> C) (b : bool) (msg : string) :
  keeps field (CamM.assert_ b msg).
Proof. intros cam. unfold CamM.assert_. now destruct b. Qed.

Lemma keeps_absent_float {C : Type} (field : Camera -> C)
  (camdict : PyDict.dict (list string)) (key : string)
  (setter : float -> CamM.M unit) (handler : string -> CamM.M unit) :
  PyDict.get camdict key = None ->
  (forall k, keeps field (handler k)) ->
  keeps field
    (CamM.try_except_KeyError
       (CamM.bind (CamM.lift (float_field camdict key)) setter) handler).
Proof.
  intros Habs Hh cam.
  unfold CamM.try_except_KeyError, CamM.bind, CamM.lift, float_field,
    PyDict.item.
  rewrite Habs. simpl. apply Hh.
Qed.

End Frames.

Ltac keeps_step :=
  first
    [ apply keeps_bind
    | apply keeps_try
    | apply keeps_lift
    | apply keeps_ret
    | apply keeps_raise
    | apply keeps_get
    | apply keeps_assert
    | (intros ?cam0; reflexivity) ].

Section Untouched.
Context {F : PyFloat} {H : FreeCAD F}.

(** X6. A text without a [nearDistance] line leaves the camera's
    [NearDistance] as it was, and likewise for [farDistance], whether the
    parser returns or raises. *)
Theorem absent_clip_distances_kept :
  forall (camstr : string) (camdata : list (list string)) (cam : Camera),
    camdata_of camstr = Return camdata ->
    (PyDict.get (camdict_of camdata) "nearDistance" = None ->
     NearDistance (snd (RenderCamera.set_cam_from_coin_string camstr cam))
     = NearDistance cam)
    /\ (PyDict.get (camdict_of camdata) "farDistance" = None ->
        FarDistance (snd (RenderCamera.set_cam_from_coin_string camstr cam))
        = FarDistance cam).
Proof.
  intros camstr camdata cam Hdata.
  rewrite render_parser_tokens, Hdata. split; intros Habs.
  - revert cam. change (keeps NearDistance (render_parse_camdata camdata)).
    unfold render_parse_camdata, set_projection_from_header, set_placement_from,
      set_near_far_from, set_height_from.
    repeat (intros; first [ apply (keeps_absent_float _ _ _ _ _ Habs)
                          | keeps_step
                          | match goal with
                            | |- keeps _ (if ?b then _ else _) => destruct b
                            end ]).
  - revert cam. change (keeps FarDistance (render_parse_camdata camdata)).
    unfold render_parse_camdata, set_projection_from_header, set_placement_from,
      set_near_far_from, set_height_from.
    repeat (intros; first [ apply (keeps_absent_float _ _ _ _ _ Habs)
                          | keeps_step
                          | match goal with
                            | |- keeps _ (if ?b then _ else _) => destruct b
                            end ]).
Qed.

End Untouched.

(** ** The height fields *)

Section Invariants.
Context {F : PyFloat} {H : FreeCAD F}.

Lemma inv_bind {A B : Type} (P : Camera -> Prop) (m : CamM.M A)
  (k : A -> CamM.M B) :
  inv P m -> (forall a, inv P (k a)) -> inv P (CamM.bind m k).
Proof.
  intros Hm Hk cam HP. unfold CamM.bind.
  specialize (Hm cam HP). destruct (m cam) as [[a|e] cam']; simpl in *.
  - now apply Hk.
  - exact Hm.
Qed.

Lemma inv_try {A : Type} (P : Camera -> Prop) (m : CamM.M A)
  (handler : string -> CamM.M A) :
  inv P m -> (forall key, inv P (handler key)) ->
  inv P (CamM.try_except_KeyError m handler).
Proof.
  intros Hm Hh cam HP. unfold CamM.try_except_KeyError.
  specialize (Hm cam HP). destruct (m cam) as [[a|[]] cam']; simpl in *;
    try exact Hm.
  now apply Hh.
Qed.

Lemma inv_lift {A : Type} (P : Camera -> Prop) (r : result A) :
  inv P (CamM.lift r).
Proof. now intros cam. Qed.

Lemma inv_ret {A : Type} (P : Camera -> Prop) (a : A) : inv P (CamM.ret a).
Proof. now intros cam. Qed.

Lemma inv_raise {A : Type} (P : Camera -> Prop) (e : exn) :
  inv P (@CamM.raise F H A e).
Proof. now intros cam. Qed.

(** The last statement of the parser writes the height of the projection
    that the camera has at that point, and nothing else. *)
Lemma inv_set_height (camdict : PyDict.dict (list string)) (p : string)
  (h a : float) :
  inv (fun c => Projection c = p
                /\ (p <> "Orthographic" -> Height c = h)
                /\ (p <> "Perspective" -> HeightAngle c = a))
      (set_height_from camdict).
Proof.
  intros cam (Hp & Hh & Ha).
  unfold set_height_from, CamM.bind, CamM.get, CamM.lift, CamM.ret.
  cbv beta iota. simpl fst. rewrite Hp.
  destruct (String.eqb_spec p "Orthographic") as [-> | Ho].
  - destruct (float_field camdict "height"); simpl.
    + repeat split; [exact Hp | now intros E | intros E; now apply Ha].
    + now repeat split.
  - destruct (String.eqb_spec p "Perspective") as [-> | Hpe].
    + destruct (float_field camdict "heightAngle"); simpl.
      * repeat split; [exact Hp | intros E; now apply Hh | now intros E].
      * now repeat split.
    + now repeat split.
Qed.

End Invariants.

Ltac inv_step :=
  first
    [ apply inv_bind
    | apply inv_try
    | apply inv_lift
    | apply inv_ret
    | apply inv_raise
    | (intros ?cam0 (?Hp & ?Hh & ?Ha); repeat split; assumption) ].

Section HeightFields.
Context {F : PyFloat} {H : FreeCAD F}.

(** X7. The parser never writes the height field of the other
    projection: [Height] is kept unless the header says Orthographic and
    [HeightAngle] unless it says Perspective, whether the parser returns or
    raises. *)
Theorem inactive_height_field_kept :
  forall (camstr : string) (tok : string) (line : list string)
         (rest : list (list string)) (cam : Camera),
    camdata_of camstr = Return ((tok :: line) :: rest) ->
    (PyStr.slice_0_m6 tok <> "Orthographic" ->
     Height (snd (RenderCamera.set_cam_from_coin_string camstr cam))
     = Height cam)
    /\ (PyStr.slice_0_m6 tok <> "Perspective" ->
        HeightAngle (snd (RenderCamera.set_cam_from_coin_string camstr cam))
        = HeightAngle cam).
Proof.
  intros camstr tok line rest cam Hdata.
  rewrite render_parser_tokens, Hdata.
  set (p := PyStr.slice_0_m6 tok).
  set (P := fun c : Camera =>
              Projection c = p
              /\ (p <> "Orthographic" -> Height c = Height cam)
              /\ (p <> "Perspective" -> HeightAngle c = HeightAngle cam)).
  assert (HP : P (snd (render_parse_camdata ((tok :: line) :: rest) cam))).
  { rewrite render_parse_camdata_steps. fold p.
    assert (HP1 : P (snd (CamM.set_Projection p cam))).
    { now repeat split. }
    destruct (PyStr.str_in p PROJECTIONENUM); [|exact HP1].
    revert HP1. generalize (snd (CamM.set_Projection p cam)).
    change (inv P (render_parse_rest (camdict_of ((tok :: line) :: rest)))).
    unfold render_parse_rest, set_placement_from, set_near_far_from, P.
    repeat (intros; first [ apply inv_set_height | inv_step ]). }
  destruct HP as (_ & Hh & Ha). split; assumption.
Qed.

End HeightFields.

(** ** The camera passed to the parser *)

Section Relations.
Context {F : PyFloat} {H : FreeCAD F}.

Lemma rel_bind {A B : Type} (R R1 Rok Rexc : Camera -> Camera -> Prop)
  (m : CamM.M A) (k : A -> CamM.M B) :
  rel R m R1 Rexc -> (forall a, rel R1 (k a) Rok Rexc) ->
  rel R (CamM.bind m k) Rok Rexc.
Proof.
  intros Hm Hk c1 c2 HR. destruct (Hm c1 c2 HR) as [E Hpost].
  unfold CamM.bind.
  destruct (m c1) as [[a1|e1] c1'], (m c2) as [[a2|e2] c2']; simpl in *;
    try discriminate.
  - injection E as <-. now apply Hk.
  - injection E as <-. split; [reflexivity | exact Hpost].
Qed.

Lemma rel_try {A : Type} (R R1 Rok Rexc : Camera -> Camera -> Prop)
  (m : CamM.M A) (handler : string -> CamM.M A) :
  rel R m Rok R1 -> (forall key, rel R1 (handler key) Rok Rexc) ->
  (forall c1 c2, R1 c1 c2 -> Rexc c1 c2) ->
  rel R (CamM.try_except_KeyError m handler) Rok Rexc.
Proof.
  intros Hm Hh Hweak c1 c2 HR. destruct (Hm c1 c2 HR) as [E Hpost].
  unfold CamM.try_except_KeyError.
  destruct (m c1) as [[a1|e1] c1'], (m c2) as [[a2|e2] c2']; simpl in *;
    try discriminate.
  - split; [exact E | exact Hpost].
  - injection E as <-. destruct e1; try (split; [reflexivity | now apply Hweak]).
    now apply Hh.
Qed.

Lemma rel_lift {A : Type} (R Rexc : Camera -> Camera -> Prop) (r : result A) :
  (forall c1 c2, R c1 c2 -> Rexc c1 c2) ->
  rel R (CamM.lift r) R Rexc.
Proof.
  intros Hweak c1 c2 HR. unfold CamM.lift. simpl.
  split; [reflexivity|]. destruct r; auto.
Qed.

Lemma rel_raise {A : Type} (R Rok Rexc : Camera -> Camera -> Prop) (e : exn) :
  (forall c1 c2, R c1 c2 -> Rexc c1 c2) ->
  rel R (@CamM.raise F H A e) Rok Rexc.
Proof.
  intros Hweak c1 c2 HR. unfold CamM.raise. simpl. auto.
Qed.

Lemma rel_ret {A : Type} (R Rexc : Camera -> Camera -> Prop) (a : A) :
  rel R (CamM.ret a) R Rexc.
Proof.
  intros c1 c2 HR. unfold CamM.ret. simpl. auto.
Qed.

Lemma rel_get {A : Type} (R Rexc : Camera -> Camera -> Prop)
  (f : Camera -> A) :
  (forall c1 c2, R c1 c2 -> f c1 = f c2) ->
  rel R (CamM.get f) R Rexc.
Proof.
  intros Hf c1 c2 HR. unfold CamM.get. simpl. split; [|exact HR].
  now rewrite (Hf c1 c2 HR).
Qed.

Lemma rel_update (R Rok Rexc : Camera -> Camera -> Prop)
  (update : Camera -> Camera) :
  (forall c1 c2, R c1 c2 -> Rok (update c1) (update c2)) ->
  rel R (fun c => (Return tt, update c)) Rok Rexc.
Proof.
  intros Hu c1 c2 HR. simpl. auto.
Qed.

End Relations.

Ltac agree_solve :=
  unfold agree; simpl; intros;
  repeat match goal with
         | H : _ /\ _ |- _ => destruct H
         end;
  repeat match goal with
         | H : ?a <= ?b -> _ |- _ =>
             first [ specialize (H ltac:(lia)) | clear H ]
         end;
  repeat split; intros; try lia; try assumption; try reflexivity.

(** A block [v <- lift r ;; ... ;; set v] that writes one attribute at the
    end: the leading lookups keep the level, the setter moves it. *)
Ltac rel_block n :=
  repeat (apply (rel_bind _ (agree n));
          [apply rel_lift; agree_solve | intro]);
  first [ apply rel_update; agree_solve
        | apply rel_lift; agree_solve
        | apply rel_ret ].

Section CameraIndependence.
Context {F : PyFloat} {H : FreeCAD F}.

Lemma rel_parser_rest (camdict : PyDict.dict (list string)) :
  rel (agree 1) (render_parse_rest camdict) (agree 5) (agree 0).
Proof.
  unfold render_parse_rest.
  apply (rel_bind _ (agree 3)).
  { apply (rel_try _ (agree 0));
      [| intros; apply rel_raise; agree_solve | agree_solve].
    apply (rel_bind _ (agree 2)).
    - unfold set_placement_from, CamM.set_Placement. rel_block 1.
    - intros _. unfold CamM.set_FocalDistance. rel_block 2. }
  intros _. apply (rel_bind _ (agree 4)).
  { apply (rel_try _ (agree 3)); [| intros | agree_solve].
    - apply (rel_bind _ (agree 3)); [apply rel_lift; agree_solve | intro].
      unfold CamM.set_AspectRatio. apply rel_update. agree_solve.
    - unfold CamM.set_AspectRatio. apply rel_update. agree_solve. }
  intros _. apply (rel_bind _ (agree 5)).
  { apply (rel_try _ (agree 4)); [| intros | agree_solve].
    - apply (rel_bind _ (agree 4)); [apply rel_lift; agree_solve | intro].
      apply (rel_bind _ (agree 4)); [apply rel_lift; agree_solve | intro].
      unfold CamM.set_ViewportMapping. apply rel_update. agree_solve.
    - unfold CamM.set_ViewportMapping. apply rel_update. agree_solve. }
  intros _. apply (rel_bind _ (agree 5)).
  { unfold set_near_far_from. apply (rel_bind _ (agree 5)).
    - apply (rel_try _ (agree 5));
        [| intros; apply rel_ret | agree_solve].
      apply (rel_bind _ (agree 5)); [apply rel_lift; agree_solve | intro].
      unfold CamM.set_NearDistance. apply rel_update. agree_solve.
    - intros _.
      apply (rel_try _ (agree 5));
        [| intros; apply rel_ret | agree_solve].
      apply (rel_bind _ (agree 5)); [apply rel_lift; agree_solve | intro].
      unfold CamM.set_FarDistance. apply rel_update. agree_solve. }
  intros _. unfold set_height_from.
  apply (rel_bind _ (agree 5)).
  { apply rel_get. agree_solve. }
  intros proj.
  destruct (String.eqb proj "Orthographic").
  { apply (rel_bind _ (agree 5)); [apply rel_lift; agree_solve | intro].
    unfold CamM.set_Height. apply rel_update. agree_solve. }
  destruct (String.eqb proj "Perspective").
  { apply (rel_bind _ (agree 5)); [apply rel_lift; agree_solve | intro].
    unfold CamM.set_HeightAngle. apply rel_update. agree_solve. }
  apply rel_ret.
Qed.

(** X8. Whether the parser returns or raises, and which exception, does
    not depend on the camera it is given; when it returns, [Projection],
    [Placement], [FocalDistance], [AspectRatio] and [ViewportMapping] of
    the result do not depend on it either. *)
Theorem outcome_independent_of_camera :
  forall (camstr : string) (cam1 cam2 : Camera),
    fst (RenderCamera.set_cam_from_coin_string camstr cam1)
    = fst (RenderCamera.set_cam_from_coin_string camstr cam2)
    /\ (fst (RenderCamera.set_cam_from_coin_string camstr cam1) = Return tt ->
        let cam1' := snd (RenderCamera.set_cam_from_coin_string camstr cam1) in
        let cam2' := snd (RenderCamera.set_cam_from_coin_string camstr cam2) in
        Projection cam1' = Projection cam2'
        /\ Placement cam1' = Placement cam2'
        /\ FocalDistance cam1' = FocalDistance cam2'
        /\ AspectRatio cam1' = AspectRatio cam2'
        /\ ViewportMapping cam1' = ViewportMapping cam2').
Proof.
  intros camstr cam1 cam2.
  cut (fst (RenderCamera.set_cam_from_coin_string camstr cam1)
       = fst (RenderCamera.set_cam_from_coin_string camstr cam2)
       /\ (fst (RenderCamera.set_cam_from_coin_string camstr cam1) = Return tt ->
           agree 5 (snd (RenderCamera.set_cam_from_coin_string camstr cam1))
             (snd (RenderCamera.set_cam_from_coin_string camstr cam2)))).
  { intros [E Hag]. split; [exact E|]. intros Hok.
    destruct (Hag Hok) as (A1 & A2 & A3 & A4 & A5).
    cbv zeta. repeat split; [apply A1 | apply A2 | apply A3 | apply A4 | apply A5];
      repeat constructor. }
  rewrite !render_parser_tokens.
  destruct (camdata_of camstr) as [camdata|e];
    [|split; [reflexivity|discriminate]].
  destruct camdata as [|[|tok line] rest];
    [split; [reflexivity|discriminate] ..|].
  rewrite !render_parse_camdata_steps.
  destruct (PyStr.str_in (PyStr.slice_0_m6 tok) PROJECTIONENUM);
    [|split; [reflexivity|discriminate]].
  destruct (rel_parser_rest (camdict_of ((tok :: line) :: rest))
              (snd (CamM.set_Projection (PyStr.slice_0_m6 tok) cam1))
              (snd (CamM.set_Projection (PyStr.slice_0_m6 tok) cam2)))
    as [E Hpost]; [agree_solve|].
  split; [exact E|].
  intros Hok. now rewrite Hok in Hpost.
Qed.

End CameraIndependence.

(** ** The two versions of the codec *)

Section LegacyExact.
Context {F : PyFloat} {H : FreeCAD F}.

Lemma legacy_parse_exact camstr tok line rest cam
  pl pos ol axis a angle fd ar vm vl n f hv :
  let camdict := camdict_of ((tok :: line) :: rest) in
  let ortho := String.eqb (PyStr.slice_0_m6 tok) "Orthographic" in
  camdata_of camstr = Return ((tok :: line) :: rest) ->
  PyStr.str_in (PyStr.slice_0_m6 tok) PROJECTIONENUM = true ->
  PyDict.get camdict "position" = Some pl ->
  App_Vector (firstn 3 pl) = Return pos ->
  PyDict.get camdict "orientation" = Some ol ->
  App_Vector (firstn 3 ol) = Return axis ->
  nth_error ol 3 = Some a ->
  float_of_str a = Some angle ->
  float_field camdict "focalDistance" = Return fd ->
  float_field camdict "aspectRatio" = Return ar ->
  PyDict.get camdict "viewportMapping" = Some (vm :: vl) ->
  float_field camdict "nearDistance" = Return n ->
  float_field camdict "farDistance" = Return f ->
  float_field camdict (if ortho then "height" else "heightAngle") = Return hv ->
  LegacyCamera.set_cam_from_coin_string camstr cam
  = (Return tt,
     mkCamera (PyStr.slice_0_m6 tok) vm
       (App_Placement pos (App_Rotation axis (degrees angle)))
       ar n f fd
       (if ortho then hv else Height cam)
       (if ortho then HeightAngle cam else degrees hv)).
Proof.
  intros camdict ortho Hdata Hhdr Hpl Hpos Hol Haxis Ha Hangle Hfd Har Hvm Hn Hf Hhv.
  unfold LegacyCamera.set_cam_from_coin_string.
  enter_parser Hdata Hhdr tok line rest cam header_step.
  fold camdict.
  unfold set_placement_from, set_near_far_from, set_height_from.
  unfold PyDict.item, list_item, py_float. cam_unfold.
  rewrite Hpl, Hpos, Hol, Haxis, Ha, Hangle. simpl.
  rewrite Hfd, Har, Hvm, Hn, Hf. simpl.
  destruct (projection_cases _ Hhdr) as [E | E]; subst ortho; rewrite E in *;
    simpl in *; rewrite Hhv; reflexivity.
Qed.

(** X9. The parser of [src/Render/camera.py] updates the camera in place
    and does not undo it on failure: with a valid header, readable position
    and orientation and no [focalDistance] line, it raises the
    missing-field [ValueError] and leaves a camera that already has the new
    [Projection] and [Placement], every other attribute as before. *)
Theorem failed_parse_keeps_partial_update :
  forall camstr tok line rest cam pl pos ol axis a angle,
    camdata_of camstr = Return ((tok :: line) :: rest) ->
    PyStr.str_in (PyStr.slice_0_m6 tok) PROJECTIONENUM = true ->
    PyDict.get (camdict_of ((tok :: line) :: rest)) "position" = Some pl ->
    App_Vector (firstn 3 pl) = Return pos ->
    PyDict.get (camdict_of ((tok :: line) :: rest)) "orientation" = Some ol ->
    App_Vector (firstn 3 ol) = Return axis ->
    nth_error ol 3 = Some a ->
    float_of_str a = Some angle ->
    PyDict.get (camdict_of ((tok :: line) :: rest)) "focalDistance" = None ->
    RenderCamera.set_cam_from_coin_string camstr cam
    = (Raise (ValueError "Missing field in camera string: 'focalDistance'"),
       mkCamera (PyStr.slice_0_m6 tok) (ViewportMapping cam)
         (App_Placement pos (App_Rotation axis (degrees angle)))
         (AspectRatio cam) (NearDistance cam) (FarDistance cam)
         (FocalDistance cam) (Height cam) (HeightAngle cam)).
Proof.
  intros camstr tok line rest cam pl pos ol axis a angle
    Hdata Hhdr Hpl Hpos Hol Haxis Ha Hangle Hfd.
  unfold RenderCamera.set_cam_from_coin_string.
  enter_parser Hdata Hhdr tok line rest cam header_step.
  unfold set_placement_from, float_field.
  unfold PyDict.item, list_item, py_float. cam_unfold.
  rewrite Hpl, Hpos, Hol, Haxis, Ha, Hangle. simpl.
  rewrite Hfd. reflexivity.
Qed.

End LegacyExact.

Section Interchange.
Context {F : PyFloat} {H : FreeCAD F} {L : PyFloatLaws F}.

Lemma parse_of_serialized (cam cam0 : Camera) (s closing : string) :
  PyStr.str_in (Projection cam) PROJECTIONENUM = true ->
  closing = "}" \/ closing = "}}" ->
  camdata_of s = Return (serialized_camdata cam closing) ->
  RenderCamera.set_cam_from_coin_string s cam0 = (Return tt, reparsed cam cam0)
  /\ LegacyCamera.set_cam_from_coin_string s cam0
     = (Return tt, reparsed cam cam0).
Proof.
  intros Hp Hc Hdata. unfold serialized_camdata, height_tokens in Hdata.
  unfold reparsed.
  destruct (Base (Placement cam)) as [bx byy bz].
  destruct (Axis (Rotation (Placement cam))) as [ax ay az].
  destruct (projection_cases _ Hp) as [E | E]; rewrite E in Hdata |- *;
    simpl in Hdata; destruct Hc as [-> | ->]; split.
  all: simpl (String.eqb _ _); cbv iota.
  all: first
    [ eapply (render_parse_exact s "PerspectiveCamera" ["{"] _ cam0)
    | eapply (render_parse_exact s "OrthographicCamera" ["{"] _ cam0) 
    | eapply (legacy_parse_exact s "PerspectiveCamera" ["{"] _ cam0)
    | eapply (legacy_parse_exact s "OrthographicCamera" ["{"] _ cam0) ];
    try exact Hdata; try reflexivity;
    try apply App_Vector_str_float; try apply py_float_str_float;
    apply float_of_str_float.
Qed.

(** X10. The two versions of the codec read each other's text: for a
    camera with valid enumeration values both serializers return, and each
    of the two texts, given to either parser with any camera, makes it
    return with the camera [reparsed]. The second closing brace that
    [src/Render/camera.py] writes does not matter to either parser. *)
Theorem serializers_and_parsers_interchange :
  forall cam cam0 : Camera,
    PyStr.str_in (Projection cam) PROJECTIONENUM = true ->
    PyStr.str_in (ViewportMapping cam) VIEWPORTMAPPINGENUM = true ->
    exists s_render s_legacy,
      RenderCamera.get_coin_string_from_cam cam = Return s_render
      /\ LegacyCamera.get_coin_string_from_cam cam = Return s_legacy
      /\ RenderCamera.set_cam_from_coin_string s_render cam0
         = (Return tt, reparsed cam cam0)
      /\ LegacyCamera.set_cam_from_coin_string s_render cam0
         = (Return tt, reparsed cam cam0)
      /\ RenderCamera.set_cam_from_coin_string s_legacy cam0
         = (Return tt, reparsed cam cam0)
      /\ LegacyCamera.set_cam_from_coin_string s_legacy cam0
         = (Return tt, reparsed cam cam0).
Proof.
  intros cam cam0 Hp Hv.
  destruct (render_serialize cam Hp Hv) as (sr & Hsr & Hdr & _).
  destruct (legacy_serialize cam Hp Hv) as (sl & Hsl & Hdl & _).
  exists sr, sl.
  destruct (parse_of_serialized cam cam0 sr "}}" Hp (or_intror eq_refl) Hdr).
  destruct (parse_of_serialized cam cam0 sl "}" Hp (or_introl eq_refl) Hdl).
  now repeat split.
Qed.

End Interchange.

(** ** The header test *)

Lemma length_append (a b : string) :
  String.length (a +:+ b) = String.length a + String.length b.
Proof.
  induction a as [|c a IH]; simpl; [reflexivity | now rewrite IH].
Qed.

Lemma substring_0_append (a b : string) :
  substring 0 (String.length a) (a +:+ b) = a.
Proof.
  induction a as [|c a IH]; simpl.
  - now destruct b.
  - now rewrite IH.
Qed.

Lemma substring_0_split (n : nat) (s : string) :
  n <= String.length s ->
  exists rest,
    s = substring 0 n s +:+ rest /\ String.length rest = String.length s - n.
Proof.
  revert s. induction n as [|n IH]; intros s Hn.
  - exists s. split; [now destruct s | now rewrite Nat.sub_0_r].
  - destruct s as [|c s]; simpl in Hn; [lia|].
    destruct (IH s ltac:(lia)) as (rest & Hs & Hlen).
    exists rest. simpl. split; [now rewrite <- Hs | exact Hlen].
Qed.

Lemma slice_0_m6_append (p suffix : string) :
  String.length suffix = 6 -> PyStr.slice_0_m6 (p +:+ suffix) = p.
Proof.
  intros Hs. unfold PyStr.slice_0_m6.
  rewrite length_append, Hs, Nat.add_sub. apply substring_0_append.
Qed.

Lemma slice_0_m6_split (tok p : string) :
  p <> "" -> PyStr.slice_0_m6 tok = p ->
  exists suffix, String.length suffix = 6 /\ tok = p +:+ suffix.
Proof.
  unfold PyStr.slice_0_m6. intros Hp E.
  assert (Hlen : 6 < String.length tok).
  { destruct (Nat.le_gt_cases (String.length tok) 6) as [Hle|]; [|assumption].
    replace (String.length tok - 6) with 0 in E by lia.
    destruct tok; simpl in E; now subst p. }
  destruct (substring_0_split (String.length tok - 6) tok ltac:(lia))
    as (rest & Hs & Hr).
  exists rest. split; [lia|]. now rewrite <- E.
Qed.

(** X11. The header test of both parsers accepts a first token exactly
    when it is Perspective or Orthographic followed by any six characters;
    the six characters need not spell Camera. *)
Theorem header_test_accepts :
  forall tok : string,
    PyStr.str_in (PyStr.slice_0_m6 tok) PROJECTIONENUM = true
    <-> exists suffix,
          String.length suffix = 6
          /\ (tok = "Perspective" +:+ suffix \/ tok = "Orthographic" +:+ suffix).
Proof.
  intros tok. split.
  - intros Hin. destruct (projection_cases _ Hin) as [E | E];
      apply slice_0_m6_split in E as (suffix & Hs & ->); try discriminate;
      exists suffix; auto.
  - intros (suffix & Hs & [-> | ->]); rewrite (slice_0_m6_append _ _ Hs);
      reflexivity.
Qed.

(** ** The camera and light emitters of [Cycles.py] *)

Section SceneEmitterProps.
Context {F : PyFloat} {H : FreeCAD F} {A : PyFloatArith F}
  {V : FreeCADVectors F H}.

(** X13. [write_camera] never raises and uses only [name] and [pos]:
    the text is a comment with the name and one transform whose rotate
    attribute is the rotation angle in degrees and then the axis, whose
    translate attribute is the base of the placement, with the scale
    [1 1 -1] and a camera of type perspective. [updir] and [target] do not
    occur. *)
Theorem write_camera_transform :
  forall (name : string) (pos : placement) (updir target : Vector),
    CyclesScene.write_camera name pos updir target
    = Return
        (PyStr.nl +:+ "    <!-- Generated by FreeCAD - Camera '" +:+ name
         +:+ "' -->" +:+ PyStr.nl
         +:+ "    <transform rotate=" +:+ Cycles.dq
         +:+ str_float (degrees (Angle (Rotation pos))) +:+ " "
         +:+ str_float (vx (Axis (Rotation pos))) +:+ " "
         +:+ str_float (vy (Axis (Rotation pos))) +:+ " "
         +:+ str_float (vz (Axis (Rotation pos))) +:+ Cycles.dq +:+ PyStr.nl
         +:+ "               translate=" +:+ Cycles.dq
         +:+ str_float (vx (Base pos)) +:+ " "
         +:+ str_float (vy (Base pos)) +:+ " "
         +:+ str_float (vz (Base pos)) +:+ Cycles.dq +:+ PyStr.nl
         +:+ "               scale=" +:+ Cycles.dq +:+ "1 1 -1" +:+ Cycles.dq
         +:+ ">" +:+ PyStr.nl
         +:+ "        <camera type=" +:+ Cycles.dq +:+ "perspective"
         +:+ Cycles.dq +:+ "/>" +:+ PyStr.nl
         +:+ "    </transform>").
Proof.
  intros name pos updir target.
  unfold CyclesScene.write_camera, CyclesScene.camera_snippet.
  simpl Cycles.format. unfold PyDict.item. simpl PyDict.get.
  unfold rmap, rbind. f_equal.
Qed.


(** X14. [write_pointlight] never raises; it defines the emission shader
    [name_shader] with the colour and the strength [power * 100], and the
    state it opens refers to that shader and holds a point light at [pos]
    of strength [1 1 1]. *)
Theorem write_pointlight_shader_and_light :
  forall (name : string) (pos : Vector) (c0 c1 c2 power : float),
    CyclesScene.write_pointlight name pos (c0, c1, c2) power
    = Return
        (PyStr.nl +:+ "    <!-- Generated by FreeCAD - Pointlight '" +:+ name
         +:+ "' -->" +:+ PyStr.nl
         +:+ "    <shader name=" +:+ Cycles.dq +:+ name +:+ "_shader"
         +:+ Cycles.dq +:+ ">" +:+ PyStr.nl
         +:+ "        <emission name=" +:+ Cycles.dq +:+ name +:+ "_emit"
         +:+ Cycles.dq +:+ PyStr.nl
         +:+ "                  color=" +:+ Cycles.dq +:+ str_float c0 +:+ " "
         +:+ str_float c1 +:+ " " +:+ str_float c2 +:+ Cycles.dq +:+ PyStr.nl
         +:+ "                  strength=" +:+ Cycles.dq
         +:+ str_float (fmul power (float_of_int 100)) +:+ Cycles.dq +:+ "/>"
         +:+ PyStr.nl
         +:+ "        <connect from=" +:+ Cycles.dq +:+ name
         +:+ "_emit emission" +:+ Cycles.dq +:+ PyStr.nl
         +:+ "                 to=" +:+ Cycles.dq +:+ "output surface"
         +:+ Cycles.dq +:+ "/>" +:+ PyStr.nl
         +:+ "    </shader>" +:+ PyStr.nl
         +:+ "    <state shader=" +:+ Cycles.dq +:+ name +:+ "_shader"
         +:+ Cycles.dq +:+ ">" +:+ PyStr.nl
         +:+ "        <light type=" +:+ Cycles.dq +:+ "point" +:+ Cycles.dq
         +:+ PyStr.nl
         +:+ "               co=" +:+ Cycles.dq +:+ str_float (vx pos) +:+ " "
         +:+ str_float (vy pos) +:+ " " +:+ str_float (vz pos) +:+ Cycles.dq
         +:+ PyStr.nl
         +:+ "               strength=" +:+ Cycles.dq +:+ "1 1 1" +:+ Cycles.dq
         +:+ "/>" +:+ PyStr.nl
         +:+ "    </state>" +:+ PyStr.nl).
Proof.
  intros name pos c0 c1 c2 power.
  unfold CyclesScene.write_pointlight, CyclesScene.pointlight_snippet.
  simpl Cycles.format. unfold PyDict.item. simpl PyDict.get.
  unfold rmap, rbind. f_equal.
Qed.

(** X15. [write_arealight] never raises; its shader is the one of the
    point light, and its area light sits at the base of the placement,
    with [axisu] and [axisv] the images of the x and y unit vectors under
    the rotation, [dir] their cross product, the two sizes as given and
    [size] 1. *)
Theorem write_arealight_shader_and_light :
  forall (name : string) (pos : placement) (size_u size_v c0 c1 c2 power : float),
    let axis1 := multVec (Rotation pos) (mkVector fone fzero fzero) in
    let axis2 := multVec (Rotation pos) (mkVector fzero fone fzero) in
    let direction := cross axis1 axis2 in
    CyclesScene.write_arealight name pos size_u size_v (c0, c1, c2) power
    = Return
        (PyStr.nl +:+ "    <!-- Generated by FreeCAD - Area light '" +:+ name
         +:+ "' -->" +:+ PyStr.nl
         +:+ "    <shader name=" +:+ Cycles.dq +:+ name +:+ "_shader"
         +:+ Cycles.dq +:+ ">" +:+ PyStr.nl
         +:+ "        <emission name=" +:+ Cycles.dq +:+ name +:+ "_emit"
         +:+ Cycles.dq +:+ PyStr.nl
         +:+ "                  color=" +:+ Cycles.dq +:+ str_float c0 +:+ " "
         +:+ str_float c1 +:+ " " +:+ str_float c2 +:+ Cycles.dq +:+ PyStr.nl
         +:+ "                  strength=" +:+ Cycles.dq
         +:+ str_float (fmul power (float_of_int 100)) +:+ Cycles.dq +:+ "/>"
         +:+ PyStr.nl
         +:+ "        <connect from=" +:+ Cycles.dq +:+ name
         +:+ "_emit emission" +:+ Cycles.dq +:+ PyStr.nl
         +:+ "                 to=" +:+ Cycles.dq +:+ "output surface"
         +:+ Cycles.dq +:+ "/>" +:+ PyStr.nl
         +:+ "    </shader>" +:+ PyStr.nl
         +:+ "    <state shader=" +:+ Cycles.dq +:+ name +:+ "_shader"
         +:+ Cycles.dq +:+ ">" +:+ PyStr.nl
         +:+ "        <light type=" +:+ Cycles.dq +:+ "area" +:+ Cycles.dq
         +:+ PyStr.nl
         +:+ "               co=" +:+ Cycles.dq +:+ str_float (vx (Base pos))
         +:+ " " +:+ str_float (vy (Base pos)) +:+ " "
         +:+ str_float (vz (Base pos)) +:+ Cycles.dq +:+ PyStr.nl
         +:+ "               strength=" +:+ Cycles.dq +:+ "1 1 1" +:+ Cycles.dq
         +:+ PyStr.nl
         +:+ "               axisu=" +:+ Cycles.dq +:+ str_float (vx axis1)
         +:+ " " +:+ str_float (vy axis1) +:+ " " +:+ str_float (vz axis1)
         +:+ Cycles.dq +:+ PyStr.nl
         +:+ "               axisv=" +:+ Cycles.dq +:+ str_float (vx axis2)
         +:+ " " +:+ str_float (vy axis2) +:+ " " +:+ str_float (vz axis2)
         +:+ Cycles.dq +:+ PyStr.nl
         +:+ "               sizeu=" +:+ Cycles.dq +:+ str_float size_u
         +:+ Cycles.dq +:+ PyStr.nl
         +:+ "               sizev=" +:+ Cycles.dq +:+ str_float size_v
         +:+ Cycles.dq +:+ PyStr.nl
         +:+ "               size=" +:+ Cycles.dq +:+ "1" +:+ Cycles.dq
         +:+ PyStr.nl
         +:+ "               dir=" +:+ Cycles.dq +:+ str_float (vx direction)
         +:+ " " +:+ str_float (vy direction) +:+ " "
         +:+ str_float (vz direction) +:+ Cycles.dq +:+ " />" +:+ PyStr.nl
         +:+ "    </state>" +:+ PyStr.nl).
Proof.
  intros name pos size_u size_v c0 c1 c2 power axis1 axis2 direction.
  unfold CyclesScene.write_arealight, CyclesScene.arealight_snippet.
  simpl Cycles.format. unfold PyDict.item. simpl PyDict.get.
  unfold rmap, rbind. f_equal.
Qed.

End SceneEmitterProps.

(** ** The command line of [render] *)

(** X16. With a configured executable path, the command [render] runs is
    the configured prefix and a space (nothing when the prefix is empty),
    the path, the configured parameters, [--output] and the output path,
    [--background] unless [external], the width and the height, and the
    result page of the project, in this order and separated by single
    spaces; the printed message is this command and a newline. *)
Theorem render_command_line :
  forall (params : PyDict.dict string) (exit_status : string -> Z)
         (project : Cycles.Project) (prefix : string) (external : bool)
         (output : string) (width height : Z),
    Cycles.GetString params "CyclesPath" "" <> "" ->
    let configured := Cycles.GetString params "Prefix" "" in
    let cmd :=
      (if String.eqb configured "" then "" else configured +:+ " ")
      +:+ Cycles.GetString params "CyclesPath" "" +:+ " "
      +:+ Cycles.GetString params "CyclesParameters" ""
      +:+ " --output " +:+ output
      +:+ (if external then "" else " --background")
      +:+ " --width " +:+ PyStr.str_int width
      +:+ " --height " +:+ PyStr.str_int height
      +:+ " " +:+ Cycles.PageResult project in
    Cycles.render params exit_status project prefix external output width height
    = ([Cycles.PrintMessage (cmd +:+ PyStr.nl); Cycles.os_system cmd], output).
Proof.
  intros params es project prefix external output width height Hne configured
    cmd.
  unfold Cycles.render, Cycles.str_truth. fold configured.
  apply String.eqb_neq in Hne. rewrite Hne. simpl negb. cbv iota.
  assert (E : (if negb (String.eqb configured "") then configured +:+ " "
               else configured)
              = (if String.eqb configured "" then "" else configured +:+ " ")).
  { destruct (String.eqb_spec configured ""); simpl; congruence. }
  rewrite E. subst cmd. destruct external; simpl negb; cbv iota;
    rewrite ?append_assoc; rewrite ?append_nil_r; reflexivity.
Qed.

Lemma render_command_line_witness :
  Cycles.render
    [("CyclesPath", "/usr/bin/cycles"); ("CyclesParameters", "--samples 4")]
    (fun _ => 1%Z) (Cycles.mkProject "/tmp/scene.xml") "nice" false
    "/tmp/out.png" 800 600
  = ([Cycles.PrintMessage
        ("/usr/bin/cycles --samples 4 --output /tmp/out.png --background"
         +:+ " --width 800 --height 600 /tmp/scene.xml" +:+ PyStr.nl);
      Cycles.os_system
        ("/usr/bin/cycles --samples 4 --output /tmp/out.png --background"
         +:+ " --width 800 --height 600 /tmp/scene.xml")],
     "/tmp/out.png").
Proof.
  apply (render_command_line
           [("CyclesPath", "/usr/bin/cycles");
            ("CyclesParameters", "--samples 4")]
           (fun _ => 1%Z) (Cycles.mkProject "/tmp/scene.xml") "nice" false
           "/tmp/out.png" 800 600).
  vm_compute. discriminate.
Defined.

(** ** The properties on the example inputs *)

Lemma comment_and_blank_lines_skipped_witness :
  @RenderCamera.set_cam_from_coin_string IntFloat IntHost
    ("OrthographicCamera {" +:+ PyStr.nl +:+ "  # a remark" +:+ PyStr.nl
     +:+ "  position 0 0 0") example_camera
  = RenderCamera.set_cam_from_coin_string
      ("OrthographicCamera {" +:+ PyStr.nl +:+ "  position 0 0 0")
      example_camera
  /\ @RenderCamera.set_cam_from_coin_string IntFloat IntHost
       ("  # a remark" +:+ PyStr.nl +:+ "  position 0 0 0") example_camera
     = RenderCamera.set_cam_from_coin_string "  position 0 0 0" example_camera.
Proof.
  apply (@comment_and_blank_lines_skipped IntFloat IntHost
           "OrthographicCamera {" "  # a remark" "  position 0 0 0"
           example_camera).
  - vm_compute. reflexivity.
  - vm_compute. reflexivity.
Defined.

Lemma only_skipped_lines_IndexError_witness :
  @RenderCamera.set_cam_from_coin_string IntFloat IntHost only_remarks_string
    example_camera
  = (Raise (IndexError "list index out of range"), example_camera).
Proof.
  apply (@only_skipped_lines_IndexError IntFloat IntHost only_remarks_string
           example_camera).
  vm_compute. reflexivity.
Defined.

Lemma parser_reads_header_and_nine_keys_witness :
  @RenderCamera.set_cam_from_coin_string IntFloat IntHost
    overridden_camera_string example_camera
  = RenderCamera.set_cam_from_coin_string minimal_camera_string example_camera.
Proof.
  apply (@parser_reads_header_and_nine_keys IntFloat IntHost
           overridden_camera_string minimal_camera_string
           "OrthographicCamera" ["{"] ["{"]
           [["position"; "1"; "2"; "3"]; ["position"; "-0"; "-0"; "100"];
            ["orientation"; "0"; "0"; "1"; "0"]; ["focalDistance"; "100"];
            ["exposure"; "7"]; ["height"; "100"]; ["}"]]
           [["position"; "-0"; "-0"; "100"];
            ["orientation"; "0"; "0"; "1"; "0"]; ["focalDistance"; "100"];
            ["height"; "100"]; ["}"]]
           example_camera).
  - vm_compute. reflexivity.
  - vm_compute. reflexivity.
  - intros k Hk. simpl in Hk.
    repeat (destruct Hk as [<- | Hk]; [vm_compute; reflexivity|]).
    contradiction.
Defined.

Lemma field_order_irrelevant_witness :
  @RenderCamera.set_cam_from_coin_string IntFloat IntHost
    minimal_camera_string example_camera
  = RenderCamera.set_cam_from_coin_string reordered_camera_string
      example_camera.
Proof.
  apply (@field_order_irrelevant IntFloat IntHost
           minimal_camera_string reordered_camera_string
           ["OrthographicCamera"; "{"]
           [["position"; "-0"; "-0"; "100"];
            ["orientation"; "0"; "0"; "1"; "0"]; ["focalDistance"; "100"];
            ["height"; "100"]; ["}"]]
           [["orientation"; "0"; "0"; "1"; "0"];
            ["position"; "-0"; "-0"; "100"]; ["focalDistance"; "100"];
            ["height"; "100"]; ["}"]]
           example_camera).
  - vm_compute. reflexivity.
  - vm_compute. reflexivity.
  - apply perm_swap.
  - simpl. repeat constructor; simpl; intuition discriminate.
Defined.

Lemma absent_clip_distances_kept_witness :
  NearDistance
    (snd (@RenderCamera.set_cam_from_coin_string IntFloat IntHost
            minimal_camera_string example_camera))
  = NearDistance example_camera
  /\ FarDistance
       (snd (@RenderCamera.set_cam_from_coin_string IntFloat IntHost
               minimal_camera_string example_camera))
     = FarDistance example_camera.
Proof.
  split.
  - apply (proj1 (@absent_clip_distances_kept IntFloat IntHost
                    minimal_camera_string minimal_camera_data example_camera
                    eq_refl)).
    vm_compute. reflexivity.
  - apply (proj2 (@absent_clip_distances_kept IntFloat IntHost
                    minimal_camera_string minimal_camera_data example_camera
                    eq_refl)).
    vm_compute. reflexivity.
Defined.

Lemma inactive_height_field_kept_witness :
  Height
    (snd (@RenderCamera.set_cam_from_coin_string IntFloat IntHost
            perspective_camera_string example_camera))
  = Height example_camera
  /\ HeightAngle
       (snd (@RenderCamera.set_cam_from_coin_string IntFloat IntHost
               minimal_camera_string example_camera))
     = HeightAngle example_camera.
Proof.
  split.
  - apply (proj1 (@inactive_height_field_kept IntFloat IntHost
                    perspective_camera_string "PerspectiveCamera" ["{"]
                    [["viewportMapping"; "ADJUST_CAMERA"];
                     ["position"; "1"; "2"; "3"];
                     ["orientation"; "0"; "0"; "1"; "0"];
                     ["nearDistance"; "1"]; ["farDistance"; "50"];
                     ["aspectRatio"; "1"]; ["focalDistance"; "5"];
                     ["heightAngle"; "45"]; ["}"]]
                    example_camera eq_refl)).
    vm_compute. discriminate.
  - apply (proj2 (@inactive_height_field_kept IntFloat IntHost
                    minimal_camera_string "OrthographicCamera" ["{"]
                    (tl minimal_camera_data) example_camera eq_refl)).
    vm_compute. discriminate.
Defined.

Lemma outcome_independent_of_camera_witness :
  fst (@RenderCamera.set_cam_from_coin_string IntFloat IntHost
         perspective_camera_string example_camera)
  = fst (RenderCamera.set_cam_from_coin_string perspective_camera_string
           other_camera)
  /\ (let cam1' :=
        snd (@RenderCamera.set_cam_from_coin_string IntFloat IntHost
               perspective_camera_string example_camera) in
      let cam2' :=
        snd (@RenderCamera.set_cam_from_coin_string IntFloat IntHost
               perspective_camera_string other_camera) in
      Projection cam1' = Projection cam2'
      /\ Placement cam1' = Placement cam2'
      /\ FocalDistance cam1' = FocalDistance cam2'
      /\ AspectRatio cam1' = AspectRatio cam2'
      /\ ViewportMapping cam1' = ViewportMapping cam2').
Proof.
  destruct (@outcome_independent_of_camera IntFloat IntHost
              perspective_camera_string example_camera other_camera)
    as [Hfst Hsnd].
  split; [exact Hfst|].
  apply Hsnd. vm_compute. reflexivity.
Defined.

Lemma failed_parse_keeps_partial_update_witness :
  @RenderCamera.set_cam_from_coin_string IntFloat IntHost no_focal_string
    example_camera
  = (Raise (ValueError "Missing field in camera string: 'focalDistance'"),
     @mkCamera IntFloat IntHost "Perspective" "ADJUST_CAMERA"
       (@App_Placement IntFloat IntHost
          (@mkVector IntFloat 1%Z 2%Z 3%Z)
          (@mkVector IntFloat 0%Z 0%Z 1%Z, 90%Z))
       1%Z 0%Z 200%Z 100%Z 5%Z 60%Z).
Proof.
  apply (@failed_parse_keeps_partial_update IntFloat IntHost no_focal_string
           "PerspectiveCamera" ["{"]
           [["position"; "1"; "2"; "3"]; ["orientation"; "0"; "0"; "1"; "90"];
            ["heightAngle"; "45"]; ["}"]]
           example_camera
           ["1"; "2"; "3"] (@mkVector IntFloat 1%Z 2%Z 3%Z)
           ["0"; "0"; "1"; "90"] (@mkVector IntFloat 0%Z 0%Z 1%Z)
           "90" 90%Z).
  all: vm_compute; reflexivity.
Defined.

Lemma serializers_and_parsers_interchange_witness :
  exists s_render s_legacy,
    @RenderCamera.get_coin_string_from_cam IntFloat IntHost example_camera
    = Return s_render
    /\ @LegacyCamera.get_coin_string_from_cam IntFloat IntHost example_camera
       = Return s_legacy
    /\ RenderCamera.set_cam_from_coin_string s_render other_camera
       = (Return tt, reparsed example_camera other_camera)
    /\ LegacyCamera.set_cam_from_coin_string s_render other_camera
       = (Return tt, reparsed example_camera other_camera)
    /\ RenderCamera.set_cam_from_coin_string s_legacy other_camera
       = (Return tt, reparsed example_camera other_camera)
    /\ LegacyCamera.set_cam_from_coin_string s_legacy other_camera
       = (Return tt, reparsed example_camera other_camera).
Proof.
  apply (@serializers_and_parsers_interchange IntFloat IntHost IntFloat_laws
           example_camera other_camera).
  - vm_compute. reflexivity.
  - vm_compute. reflexivity.
Defined.

Lemma header_test_accepts_witness :
  PyStr.str_in (PyStr.slice_0_m6 "OrthographicCamera") PROJECTIONENUM = true
  /\ exists suffix,
       String.length suffix = 6
       /\ ("PerspectiveCamerb" = "Perspective" +:+ suffix
           \/ "PerspectiveCamerb" = "Orthographic" +:+ suffix).
Proof.
  split.
  - apply (proj2 (header_test_accepts "OrthographicCamera")).
    exists "Camera". split; [reflexivity | right; reflexivity].
  - apply (proj1 (header_test_accepts "PerspectiveCamerb")).
    vm_compute. reflexivity.
Defined.

